(** * NeurIPS papers crawler: a shallow embedding of [code/getdata.py]

    The development follows the source file function by function.

    - [PyStr]   : the [str] methods the crawler calls ([split], [rsplit],
                  [replace], [strip], [join], [int], [str]), over strings
                  represented as lists of code points below 256.
    - [Json]    : the values handed to [json.dump] and the text it writes
                  with [indent=4].
    - [Crawler] : the functions of [getdata.py] themselves.  Network and
                  HTML parsing are external: a [World] record gives, for
                  every URL, what the HTTP client and the HTML parser hand
                  back to the code.  Output is a trace of filesystem and
                  console events; failures are Python exceptions or
                  [sys.exit]. *)

From Stdlib Require Import Ascii String ZArith Lia Bool Arith List.
From Stdlib Require Import DecimalString DecimalPos DecimalZ.
Import ListNotations.

Set Warnings "-register-all".

(* ================================================================== *)
(** ** Python strings *)
(* ================================================================== *)

Module PyStr.

(** A Python [str] is a sequence of code points; the model keeps the code
    points below 256. *)
Definition pystr := list ascii.

Definition lit (s : string) : pystr := list_ascii_of_string s.

Definition chr (n : nat) : ascii := ascii_of_nat n.
Definition ord (c : ascii) : nat := nat_of_ascii c.

(** [c in chars] for a character and a string. *)
Fixpoint mem (c : ascii) (chars : pystr) : bool :=
  match chars with
  | [] => false
  | d :: chars' => Ascii.eqb c d || mem c chars'
  end.

(** [s.startswith(p)] *)
Fixpoint startswith (s p : pystr) {struct p} : bool :=
  match p, s with
  | [], _ => true
  | _ :: _, [] => false
  | a :: p', c :: s' => Ascii.eqb c a && startswith s' p'
  end.

(** [s.endswith(p)] *)
Definition endswith (s p : pystr) : bool := startswith (rev s) (rev p).

(** [sub in s] *)
Fixpoint contains (s sub : pystr) : bool :=
  startswith s sub ||
  match s with
  | [] => false
  | _ :: s' => contains s' sub
  end.

(** [s.replace(old, new)]: the occurrences of [old] are found scanning from
    the left, and the scan resumes after each occurrence it replaces (so
    overlapping occurrences are not both replaced).  [skip] counts the
    characters of a matched occurrence still to be passed over. *)
Fixpoint replace_scan (old new : pystr) (skip : nat) (s : pystr) : pystr :=
  match s with
  | [] => []
  | c :: s' =>
      match skip with
      | S k => replace_scan old new k s'
      | O =>
          if startswith s old
          then new ++ replace_scan old new (length old - 1) s'
          else c :: replace_scan old new 0 s'
      end
  end.

Definition replace (s old new : pystr) : pystr :=
  match old with
  | [] => new ++ flat_map (fun c => c :: new) s
  | _ :: _ => replace_scan old new 0 s
  end.

(** [s.split(sep)] for a separator of one character, as in [split("/")]
    and [split("-")]: never the empty list. *)
Fixpoint split (sep : ascii) (s : pystr) : list pystr :=
  match s with
  | [] => [[]]
  | c :: s' =>
      if Ascii.eqb c sep then [] :: split sep s'
      else match split sep s' with
           | w :: ws => (c :: w) :: ws
           | [] => [[c]]
           end
  end.

(** [s.rpartition(sep)] without the separator: the text before and after
    the last [sep], when there is one. *)
Fixpoint rpartition (sep : ascii) (s : pystr) : option (pystr * pystr) :=
  match s with
  | [] => None
  | c :: s' =>
      match rpartition sep s' with
      | Some (a, b) => Some (c :: a, b)
      | None => if Ascii.eqb c sep then Some ([], s') else None
      end
  end.

(** [s.rsplit(sep, 1)] *)
Definition rsplit1 (sep : ascii) (s : pystr) : list pystr :=
  match rpartition sep s with
  | Some (a, b) => [a; b]
  | None => [s]
  end.

(** [c.isspace()] restricted to the code points below 256: TAB..CR,
    FS..US, SPACE, NEL and NBSP. *)
Definition isspace (c : ascii) : bool :=
  let n := ord c in
  ((9 <=? n) && (n <=? 13)) || ((28 <=? n) && (n <=? 32))
  || (n =? 133) || (n =? 160).

(** [s.split()]: the maximal runs of characters that are not whitespace.
    [acc] holds the current run, reversed. *)
Definition flush (acc : pystr) (rest : list pystr) : list pystr :=
  match acc with
  | [] => rest
  | _ :: _ => rev acc :: rest
  end.

Fixpoint split_scan (acc : pystr) (s : pystr) : list pystr :=
  match s with
  | [] => flush acc []
  | c :: s' =>
      if isspace c then flush acc (split_scan [] s')
      else split_scan (c :: acc) s'
  end.

Definition split_ws (s : pystr) : list pystr := split_scan [] s.

(** [sep.join(words)] *)
Fixpoint join (sep : pystr) (words : list pystr) : pystr :=
  match words with
  | [] => []
  | [w] => w
  | w :: ws => w ++ sep ++ join sep ws
  end.

(** [s.lstrip(chars)], [s.rstrip(chars)], [s.strip(chars)] *)
Fixpoint lstrip (chars : pystr) (s : pystr) : pystr :=
  match s with
  | [] => []
  | c :: s' => if mem c chars then lstrip chars s' else s
  end.

Definition rstrip (chars s : pystr) : pystr := rev (lstrip chars (rev s)).

Definition strip (chars s : pystr) : pystr := rstrip chars (lstrip chars s).

(** [l[-1]] and [l[0]]: [None] stands for [IndexError]. *)
Fixpoint item_last {A} (l : list A) : option A :=
  match l with
  | [] => None
  | [x] => Some x
  | _ :: l' => item_last l'
  end.

Definition item_first {A} (l : list A) : option A :=
  match l with
  | [] => None
  | x :: _ => Some x
  end.

(** [str(n)] for an integer: decimal digits, with a minus sign below zero. *)
Definition str_of_int (n : Z) : pystr :=
  lit (NilEmpty.string_of_int (Z.to_int n)).

(** [int(s)] in base ten: whitespace around, an optional sign, then digits
    in groups separated by single underscores.  [None] stands for
    [ValueError].  [max_digits] is the interpreter's limit on the number of
    digits ([sys.get_int_max_str_digits()], 0 when there is none); CPython
    consults it only above 640 digits. *)
Definition isdigit (c : ascii) : bool := (48 <=? ord c) && (ord c <=? 57).

Definition digit_value (c : ascii) : Z := Z.of_nat (ord c - 48).

Fixpoint int_digits (after_digit : bool) (acc : Z) (count : nat) (s : pystr)
  : option (Z * nat) :=
  match s with
  | [] => if after_digit then Some (acc, count) else None
  | c :: s' =>
      if isdigit c then int_digits true (10 * acc + digit_value c) (S count) s'
      else if Ascii.eqb c "_"%char
           then (if after_digit then int_digits false acc count s' else None)
           else None
  end.

(** The whitespace [int] passes over at both ends: TAB..CR, SPACE, NEL and
    NBSP (the separators FS..US are not among them). *)
Definition int_isspace (c : ascii) : bool :=
  ((9 <=? ord c) && (ord c <=? 13)) || (ord c =? 32)
  || (ord c =? 133) || (ord c =? 160).

Fixpoint lstrip_space (s : pystr) : pystr :=
  match s with
  | [] => []
  | c :: s' => if int_isspace c then lstrip_space s' else s
  end.

Definition over_digit_limit (max_digits count : nat) : bool :=
  (640 <? count) && (0 <? max_digits) && (max_digits <? count).

Definition int_unsigned (max_digits : nat) (s : pystr) : option Z :=
  match int_digits false 0 0 s with
  | Some (v, count) =>
      if over_digit_limit max_digits count then None else Some v
  | None => None
  end.

Definition int_of_str (max_digits : nat) (s : pystr) : option Z :=
  let t := rev (lstrip_space (rev (lstrip_space s))) in
  match t with
  | c :: t' =>
      if Ascii.eqb c "-"%char
      then option_map Z.opp (int_unsigned max_digits t')
      else if Ascii.eqb c "+"%char then int_unsigned max_digits t'
      else int_unsigned max_digits t
  | [] => None
  end.

End PyStr.

Import PyStr.


(* ================================================================== *)
(** ** What [json.dump(value, f, indent=4)] writes *)
(* ================================================================== *)

Module Json.

(** The values the crawler serialises: the abstract record it builds and
    the metadata document it passes through.  A float is carried as the
    text the encoder prints for it. *)
Inductive value : Type :=
| Null
| Bool (b : bool)
| Int (n : Z)
| Float (repr : pystr)
| Str (s : pystr)
| Arr (items : list value)
| Obj (members : list (pystr * value)).

Definition dquote : ascii := chr 34.
Definition backslash : ascii := chr 92.
Definition newline : ascii := chr 10.

Definition hex_digit (n : nat) : ascii :=
  if n <? 10 then chr (48 + n) else chr (87 + n).

(** One character of a string under [ensure_ascii=True]. *)
Definition escape_char (c : ascii) : pystr :=
  let n := ord c in
  if n =? 34 then [backslash; dquote]
  else if n =? 92 then [backslash; backslash]
  else if n =? 10 then backslash :: lit "n"
  else if n =? 13 then backslash :: lit "r"
  else if n =? 9 then backslash :: lit "t"
  else if n =? 8 then backslash :: lit "b"
  else if n =? 12 then backslash :: lit "f"
  else if (n <? 32) || (126 <? n)
       then backslash :: lit "u00" ++ [hex_digit (n / 16); hex_digit (n mod 16)]
       else [c].

Definition encode_str (s : pystr) : pystr :=
  dquote :: flat_map escape_char s ++ [dquote].

(** A line break followed by the indentation of nesting depth [level]. *)
Definition newline_indent (level : nat) : pystr :=
  newline :: repeat " "%char (4 * level).

Definition encode_block (opening closing : pystr) (level : nat)
           (items : list pystr) : pystr :=
  match items with
  | [] => opening ++ closing
  | _ :: _ =>
      opening ++ newline_indent (S level)
      ++ join (lit "," ++ newline_indent (S level)) items
      ++ newline_indent level ++ closing
  end.

Fixpoint encode (level : nat) (v : value) : pystr :=
  match v with
  | Null => lit "null"
  | Bool true => lit "true"
  | Bool false => lit "false"
  | Int n => str_of_int n
  | Float repr => repr
  | Str s => encode_str s
  | Arr items =>
      encode_block (lit "[") (lit "]") level (map (encode (S level)) items)
  | Obj members =>
      encode_block (lit "{") (lit "}") level
        (map (fun kv => encode_str (fst kv) ++ lit ": "
                        ++ encode (S level) (snd kv)) members)
  end.

Definition dumps (v : value) : pystr := encode 0 v.

End Json.

(* ================================================================== *)
(** ** The crawler *)
(* ================================================================== *)

Module Crawler.

(** *** Exceptions, exits and effects *)

Inductive exn : Type :=
| AttributeError   (* attribute access on [None] *)
| TypeError        (* subscript of [None], [f.write(None)] *)
| KeyError         (* a tag without the attribute asked for *)
| IndexError
| RequestException (* [requests.get] could not reach the server *)
| JSONDecodeError. (* [response.json()] on a body that is not JSON *)

(** The argument of [sys.exit]: a status, or a message printed on the
    error stream with status 1. *)
Inductive exit_arg : Type :=
| ExitCode (status : Z)
| ExitMessage (message : pystr).

Inductive result (A : Type) : Type :=
| Ok (a : A)
| Raise (e : exn)
| SysExit (arg : exit_arg).

Arguments Ok {A} a.
Arguments Raise {A} e.
Arguments SysExit {A} arg.

(** The status the process ends with. *)
Definition exit_status {A} (r : result A) : Z :=
  match r with
  | Ok _ => 0
  | Raise _ => 1
  | SysExit (ExitCode status) => status
  | SysExit (ExitMessage _) => 1
  end.

(** What a run does to the console and to the filesystem.  The filesystem
    accepts every directory creation and every opening of a file. *)
Inductive event : Type :=
| Print (line : pystr)                 (* [print(line)] *)
| Makedirs (path : pystr)              (* [os.makedirs(path, exist_ok=True)] *)
| Open (path : pystr)                  (* [open(path, "w")], [open(path, "wb")] *)
| Write (path : pystr) (data : pystr). (* [f.write(data)] on the file at [path] *)

(** A computation: the events it performed, in order, and how it ended. *)
Definition M (A : Type) : Type := (list event * result A)%type.

Definition ret {A} (a : A) : M A := ([], Ok a).

Definition bind {A B} (c : M A) (k : A -> M B) : M B :=
  match c with
  | (tr, Ok a) => let (tr', r) := k a in (tr ++ tr', r)
  | (tr, Raise e) => (tr, Raise e)
  | (tr, SysExit arg) => (tr, SysExit arg)
  end.

Definition emit (e : event) : M unit := ([e], Ok tt).
Definition raise {A} (e : exn) : M A := ([], Raise e).
Definition sys_exit {A} (arg : exit_arg) : M A := ([], SysExit arg).

(** [x.attr] or [x[...]] where [x] may be [None] *)
Definition some_or_raise {A} (e : exn) (o : option A) : M A :=
  match o with
  | Some a => ret a
  | None => raise e
  end.

Declare Scope py_scope.
Delimit Scope py_scope with py.
Notation "x <- c ;; k" := (bind c (fun x => k))
  (at level 61, c at next level, right associativity) : py_scope.
Notation "c ;; k" := (bind c (fun _ => k))
  (at level 61, right associativity) : py_scope.
Local Open Scope py_scope.

Definition trace {A} (c : M A) : list event := fst c.
Definition outcome {A} (c : M A) : result A := snd c.

(** [for x in xs: body], where the body ends an iteration normally or with
    [break]. *)
Inductive flow : Type := Continue | Break.

Fixpoint for_each {A} (body : A -> M flow) (xs : list A) : M unit :=
  match xs with
  | [] => ret tt
  | x :: xs' =>
      f <- body x ;;
      match f with
      | Continue => for_each body xs'
      | Break => ret tt
      end
  end.

(** A loop without [break] that updates local variables [S]. *)
Fixpoint for_state {A S} (body : S -> A -> M S) (xs : list A) (s : S) : M S :=
  match xs with
  | [] => ret s
  | x :: xs' => s' <- body s x ;; for_state body xs' s'
  end.

(** [range(start, stop)] *)
Definition range (start stop : Z) : list Z :=
  map (fun i => (start + Z.of_nat i)%Z) (seq 0 (Z.to_nat (stop - start))).

(** [zip] of four lists *)
Fixpoint zip4 {A B C D} (la : list A) (lb : list B) (lc : list C) (ld : list D)
  : list (A * B * C * D) :=
  match la, lb, lc, ld with
  | a :: la', b :: lb', c :: lc', d :: ld' => (a, b, c, d) :: zip4 la' lb' lc' ld'
  | _, _, _, _ => []
  end.

(** [os.path.join(a, b)] *)
Definition path_join (a b : pystr) : pystr :=
  if startswith b (lit "/") then b
  else match a with
       | [] => b
       | _ :: _ => if endswith a (lit "/") then a ++ b else a ++ lit "/" ++ b
       end.

(** *** The outside world *)

(** What [requests.get] gives: an exception when the server cannot be
    reached (with the text of the exception), or a response.
    [http_error] is the text of the error [raise_for_status] builds for
    the response. *)
Inductive http (A : Type) : Type :=
| Unreachable (error : pystr)
| Response (status_code : Z) (http_error : pystr) (content : A).

Arguments Unreachable {A} error.
Arguments Response {A} status_code http_error content.

(** The listing page of a year, as [fetch] and the HTML parser return it:
    a client error, or the page.  [None] for the page is a page without
    the [container-fluid] division; otherwise the [li] elements below it
    in document order, each with the [href] of its first anchor ([None]
    when the item has no anchor or the anchor no [href]). *)
Inductive listing_response : Type :=
| ClientError (error : pystr)
| ListingPage (container : option (list (option pystr))).

(** A [meta] tag found by name: absent, without [content], or with it. *)
Inductive meta_tag : Type :=
| NoTag
| NoContent
| Content (text : pystr).

(** An abstract page after parsing: the text of the paragraph following
    the [h4] heading [Abstract] ([None] when the heading or the paragraph
    is missing), the first [citation_title] tag, the [citation_author]
    tags in document order ([None] for a tag without [content]). *)
Record abstract_html : Type := {
  abstract_paragraph : option pystr;
  citation_title : meta_tag;
  citation_author : list (option pystr)
}.

Record World : Type := {
  (** [GET https://papers.nips.cc/]: the texts of the [li] elements *)
  root_page : http (list pystr);
  listing : pystr -> listing_response;
  abstract_page : pystr -> http abstract_html;
  (** the body parsed by [response.json()]; [None] when it is not JSON *)
  metadata_document : pystr -> http (option Json.value);
  pdf_document : pystr -> http pystr;
  path_exists : pystr -> bool;
  int_max_str_digits : nat
}.

(** *** [getdata.py] *)

Definition base_url : pystr := lit "https://papers.nips.cc".

Definition get_conference_url (year : Z) : pystr :=
  base_url ++ lit "/paper/" ++ str_of_int year.

(** [fetch]: the page, or a diagnostic and [sys.exit(1)]. *)
Definition fetch (w : World) (url : pystr) : M (option (list (option pystr))) :=
  match listing w url with
  | ListingPage page => ret page
  | ClientError e =>
      emit (Print (lit "Error fetching " ++ url ++ lit ": " ++ e)) ;;
      sys_exit (ExitCode 1)
  end.

(** The substitution of line 70 and of line 71, [kind] being [Metadata]
    or [Paper]. *)
Definition substitute (kind : pystr) (paper_base_url : pystr) : pystr :=
  replace (replace paper_base_url (lit "Abstract") kind) (lit "hash") (lit "file").

Definition paper_lists : Type :=
  (list pystr * list pystr * list pystr * list pystr)%type.

(** The body of the loop of [get_paper_paths], lines 63 to 71. *)
Definition paper_paths_step (acc : paper_lists) (li : option pystr) : M paper_lists :=
  let '(paper_ids, abstract_paths, metadata_paths, pdf_paths) := acc in
  paper_temp_url <- some_or_raise AttributeError li ;;
  segment <- some_or_raise IndexError (item_last (split "/" paper_temp_url)) ;;
  paper_id <- some_or_raise IndexError (item_first (split "-" segment)) ;;
  stem <- some_or_raise IndexError (item_first (rsplit1 "." paper_temp_url)) ;;
  let paper_base_url := base_url ++ stem in
  ret (paper_ids ++ [paper_id],
       abstract_paths ++ [base_url ++ paper_temp_url],
       metadata_paths ++ [substitute (lit "Metadata") paper_base_url ++ lit ".json"],
       pdf_paths ++ [substitute (lit "Paper") paper_base_url ++ lit ".pdf"]).

Definition get_paper_paths (w : World) (year : Z) : M paper_lists :=
  let url := get_conference_url year in
  page <- fetch w url ;;
  items <- some_or_raise AttributeError page ;;
  for_state paper_paths_step items ([], [], [], []).

Definition get_metadata (w : World) (meta_path : pystr) : M Json.value :=
  match metadata_document w meta_path with
  | Unreachable _ => raise RequestException
  | Response status_code _ body =>
      if negb (status_code =? 200)%Z then ret (Json.Obj [])
      else some_or_raise JSONDecodeError body
  end.

(** [response.raise_for_status()]: an error for the statuses 400 to 599. *)
Definition raises_for_status (status_code : Z) : bool :=
  ((400 <=? status_code) && (status_code <? 600))%Z.

Definition get_pdf (w : World) (pdf_path : pystr) : M (option pystr) :=
  let failed (e : pystr) :=
    emit (Print (lit "Error downloading PDF from " ++ pdf_path ++ lit ": " ++ e)) ;;
    ret None in
  match pdf_document w pdf_path with
  | Unreachable e => failed e
  | Response status_code http_error content =>
      if raises_for_status status_code then failed http_error
      else ret (Some content)
  end.

(** Line 99: [" ".join(abstract_text.split())] *)
Definition collapse_whitespace (text : pystr) : pystr :=
  join (lit " ") (split_ws text).

Definition meta_content (tag : meta_tag) : M pystr :=
  match tag with
  | NoTag => raise TypeError
  | NoContent => raise KeyError
  | Content text => ret text
  end.

Definition get_abstract (w : World) (abstract_path : pystr) : M Json.value :=
  match abstract_page w abstract_path with
  | Unreachable _ => raise RequestException
  | Response status_code _ soup =>
      if negb (status_code =? 200)%Z then ret (Json.Str [])
      else
        abstract_text <- some_or_raise AttributeError (abstract_paragraph soup) ;;
        let abstract_text := collapse_whitespace abstract_text in
        title <- meta_content (citation_title soup) ;;
        authors <- for_state
                     (fun authors author =>
                        content <- some_or_raise KeyError author ;;
                        ret (authors ++ [Json.Str content]))
                     (citation_author soup) [] ;;
        ret (Json.Obj [(lit "title", Json.Str title);
                       (lit "authors", Json.Arr authors);
                       (lit "abstract", Json.Str abstract_text)])
  end.

(** The year a list item of the root page ends with, line 114; [None]
    when the item raises [IndexError] or [ValueError] and is skipped. *)
Definition item_year (w : World) (text : pystr) : option Z :=
  match item_last (split_ws text) with
  | Some token => int_of_str (int_max_str_digits w) (strip (lit "()") token)
  | None => None
  end.

(** [max(years)] for a list that is not empty, [None] otherwise: the
    first element, replaced along the list by each greater one. *)
Definition py_max (years : list Z) : option Z :=
  match years with
  | [] => None
  | y :: years' =>
      Some (fold_left (fun m x => if (m <? x)%Z then x else m) years' y)
  end.

Definition latest_of_items (w : World) (items : list pystr) : Z :=
  let years :=
    fold_left (fun years text =>
                 match item_year w text with
                 | Some year => years ++ [year]
                 | None => years
                 end) items [] in
  match py_max years with
  | Some m => m
  | None => 2023%Z
  end.

Definition get_latest_conference_year (w : World) : M Z :=
  match root_page w with
  | Unreachable _ => raise RequestException
  | Response _ _ items => ret (latest_of_items w items)
  end.

Record Args : Type := {
  start_year : Z;
  end_year : Z;
  output_dir : pystr
}.

(** The options given on the command line, each one optional. *)
Record CommandLine : Type := {
  opt_start_year : option Z;
  opt_end_year : option Z;
  opt_output_dir : option pystr
}.

Definition default {A} (d : A) (o : option A) : A :=
  match o with
  | Some a => a
  | None => d
  end.

Definition get_args (w : World) (argv : CommandLine) : M Args :=
  latest_year <- get_latest_conference_year w ;;
  ret {| start_year := default 1987%Z (opt_start_year argv);
         end_year := default latest_year (opt_end_year argv);
         output_dir := default (lit "data") (opt_output_dir argv) |}.

Definition check_args (args : Args) : M unit :=
  if (start_year args <? 1987)%Z
  then sys_exit (ExitMessage (lit "Start year must be 1987 or later"))
  else if (end_year args <? start_year args)%Z
       then sys_exit (ExitMessage (lit "Start year must be less than or equal to end year"))
       else ret tt.

(** [with open(path, "w") as f: json.dump(value, f, indent=4)] *)
Definition dump_json (path : pystr) (value : Json.value) : M unit :=
  emit (Open path) ;;
  emit (Write path (Json.dumps value)).

(** [with open(path, "wb") as f: f.write(pdf)] *)
Definition write_pdf (path : pystr) (pdf : option pystr) : M unit :=
  emit (Open path) ;;
  match pdf with
  | Some content => emit (Write path content)
  | None => raise TypeError
  end.

(** The body of the inner loop of [main], lines 153 to 172. *)
Definition archive_paper (w : World) (year_dir : pystr)
           (paper : pystr * pystr * pystr * pystr) : M flow :=
  let '(paper_id, abstract_path, metadata_path, pdf_path) := paper in
  emit (Print (lit "Downloading " ++ paper_id)) ;;
  let save_dir := path_join year_dir paper_id in
  emit (Makedirs save_dir) ;;
  abstract <- get_abstract w abstract_path ;;
  metadata <- get_metadata w metadata_path ;;
  pdf <- get_pdf w pdf_path ;;
  dump_json (path_join save_dir (paper_id ++ lit "_abstract.json")) abstract ;;
  dump_json (path_join save_dir (paper_id ++ lit "_metadata.json")) metadata ;;
  write_pdf (path_join save_dir (paper_id ++ lit ".pdf")) pdf ;;
  ret Break.

(** The body of the outer loop of [main], lines 148 to 172. *)
Definition archive_year (w : World) (year : Z) : M flow :=
  let year_dir := path_join (lit "../data") (str_of_int year) in
  lists <- get_paper_paths w year ;;
  let '(paper_ids, abstract_paths, metadata_paths, pdf_paths) := lists in
  for_each (archive_paper w year_dir)
           (zip4 paper_ids abstract_paths metadata_paths pdf_paths) ;;
  ret Continue.

Definition main (w : World) (argv : CommandLine) : M unit :=
  args <- get_args w argv ;;
  let start_year := start_year args in
  let end_year := end_year args in
  let output_dir := output_dir args in
  if negb (path_exists w output_dir)
  then sys_exit (ExitMessage (lit "Output directory " ++ output_dir
                              ++ lit " does not exist"))
  else for_each (archive_year w) (range start_year (end_year + 1)).

(** *** Vocabulary of the properties *)

(** The four lists of [get_paper_paths] after one more paper. *)
Definition append_paper (acc : paper_lists)
           (paper_id abstract_url metadata_url pdf_url : pystr) : paper_lists :=
  let '(paper_ids, abstract_paths, metadata_paths, pdf_paths) := acc in
  (paper_ids ++ [paper_id], abstract_paths ++ [abstract_url],
   metadata_paths ++ [metadata_url], pdf_paths ++ [pdf_url]).

(** What the loop body of [get_paper_paths] derives from one href. *)
Definition paper_of_href (href : pystr) : pystr * pystr * pystr * pystr :=
  let segment := default [] (item_last (split "/" href)) in
  let paper_id := default [] (item_first (split "-" segment)) in
  let stem := default [] (item_first (rsplit1 "." href)) in
  (paper_id,
   base_url ++ href,
   substitute (lit "Metadata") (base_url ++ stem) ++ lit ".json",
   substitute (lit "Paper") (base_url ++ stem) ++ lit ".pdf").

(** The two document kinds of lines 70 and 71. *)
Definition is_kind (kind : pystr) : Prop :=
  kind = lit "Metadata" \/ kind = lit "Paper".



(** What the first testable property asks of the two derived URLs. *)
Definition derived_urls_ok (metadata_url pdf_url : pystr) : Prop :=
  contains metadata_url (lit "Metadata") = true /\
  contains metadata_url (lit "file") = true /\
  endswith metadata_url (lit ".json") = true /\
  contains pdf_url (lit "Paper") = true /\
  contains pdf_url (lit "file") = true /\
  endswith pdf_url (lit ".pdf") = true.

(** The papers the inner loop of [main] iterates over. *)
Definition papers_of (lists : paper_lists) : list (pystr * pystr * pystr * pystr) :=
  let '(paper_ids, abstract_paths, metadata_paths, pdf_paths) := lists in
  zip4 paper_ids abstract_paths metadata_paths pdf_paths.

(** The directory [main] computes for a year. *)
Definition year_dir_of (year : Z) : pystr :=
  path_join (lit "../data") (str_of_int year).

(** [a == b] on strings *)
Fixpoint str_eqb (a b : pystr) : bool :=
  match a, b with
  | [], [] => true
  | c :: a', d :: b' => Ascii.eqb c d && str_eqb a' b'
  | _, _ => false
  end.

(** The content of the file at [path] after the events of a trace: [Open]
    creates the file or empties it, [Write] appends.  [None] when the
    trace never opened the file. *)
Definition apply_event (path : pystr) (content : option pystr) (e : event)
  : option pystr :=
  match e with
  | Open p => if str_eqb p path then Some [] else content
  | Write p data =>
      if str_eqb p path then option_map (fun c => c ++ data) content else content
  | Print _ | Makedirs _ => content
  end.

Definition file_content (tr : list event) (path : pystr) : option pystr :=
  fold_left (apply_event path) tr None.

(** The paths [main] opens for a paper. *)
Definition artifact_path (year_dir paper_id suffix : pystr) : pystr :=
  path_join (path_join year_dir paper_id) (paper_id ++ suffix).

(** The years of the list items that parse, in document order. *)
Definition parsed_years (w : World) (items : list pystr) : list Z :=
  flat_map (fun text => match item_year w text with
                        | Some year => [year]
                        | None => []
                        end) items.

End Crawler.

(* ================================================================== *)
(** ** A site with one listing page *)
(* ================================================================== *)

Module Scenario.

Import Crawler.

Definition href_1234 : pystr := lit "/paper_files/paper/2020/hash/1234-Abstract.html".
Definition href_5678 : pystr := lit "/paper_files/paper/2020/hash/5678-Abstract.html".

(** The paragraph of an abstract, with a line break in it. *)
Definition paragraph_1234 : pystr := lit "  We  study
   crawlers. ".

Definition soup_1234 : abstract_html :=
  {| abstract_paragraph := Some paragraph_1234;
     citation_title := Content (lit "On Crawlers");
     citation_author := [Some (lit "A. Author"); Some (lit "B. Author")] |}.

Definition metadata_1234 : Json.value :=
  Json.Obj [(lit "title", Json.Str (lit "On Crawlers"));
            (lit "page_first", Json.Int 1)].

(** The listing page of 2020 has two papers, every other listing page has
    none; every document is served with status 200; every path exists. *)
Definition site : World :=
  {| root_page :=
       Response 200 [] [lit "NeurIPS (2023)"; lit "garbage"; lit "Workshop (1999)"];
     listing := fun url =>
       if str_eqb url (lit "https://papers.nips.cc/paper/2020")
       then ListingPage (Some [Some href_1234; Some href_5678])
       else ListingPage (Some []);
     abstract_page := fun _ => Response 200 [] soup_1234;
     metadata_document := fun _ => Response 200 [] (Some metadata_1234);
     pdf_document := fun _ => Response 200 [] (lit "%PDF-1.4");
     path_exists := fun _ => true;
     int_max_str_digits := 4300 |}.

(** The same site with one of the three documents of a paper answered
    differently. *)
Definition with_abstract (r : http abstract_html) (w : World) : World :=
  {| root_page := root_page w; listing := listing w;
     abstract_page := fun _ => r;
     metadata_document := metadata_document w;
     pdf_document := pdf_document w;
     path_exists := path_exists w;
     int_max_str_digits := int_max_str_digits w |}.

Definition with_pdf (r : http pystr) (w : World) : World :=
  {| root_page := root_page w; listing := listing w;
     abstract_page := abstract_page w;
     metadata_document := metadata_document w;
     pdf_document := fun _ => r;
     path_exists := path_exists w;
     int_max_str_digits := int_max_str_digits w |}.

(** The site answering 404 for the abstract page, 404 for the PDF, and
    300 for the PDF. *)
Definition site_abstract_404 : World :=
  with_abstract (Response 404 (lit "404 Client Error") soup_1234) site.

Definition site_pdf_404 : World :=
  with_pdf (Response 404 (lit "404 Client Error") []) site.

Definition site_pdf_300 : World :=
  with_pdf (Response 300 (lit "300") (lit "choices")) site.

Definition command_line (start_year end_year : Z) (output_dir : string)
  : CommandLine :=
  {| opt_start_year := Some start_year;
     opt_end_year := Some end_year;
     opt_output_dir := Some (lit output_dir) |}.

End Scenario.

(* ================================================================== *)
(** ** Further sites and projections *)
(* ================================================================== *)

Module Sites.

Import Crawler.

(** The four components of what the loop body derives from an href. *)
Definition paper_id_of (href : pystr) : pystr :=
  let '(paper_id, _, _, _) := paper_of_href href in paper_id.

Definition abstract_url_of (href : pystr) : pystr :=
  let '(_, abstract_url, _, _) := paper_of_href href in abstract_url.

Definition metadata_url_of (href : pystr) : pystr :=
  let '(_, _, metadata_url, _) := paper_of_href href in metadata_url.

Definition pdf_url_of (href : pystr) : pystr :=
  let '(_, _, _, pdf_url) := paper_of_href href in pdf_url.

(** The href without its extension, line 69: [rsplit('.', 1)[0]]. *)
Definition extension_stripped (href : pystr) : pystr :=
  default [] (item_first (rsplit1 "." href)).

(** A site with another root page, other listing pages, another metadata
    document, or another filesystem. *)
Definition with_root (r : http (list pystr)) (w : World) : World :=
  {| root_page := r; listing := listing w;
     abstract_page := abstract_page w;
     metadata_document := metadata_document w;
     pdf_document := pdf_document w;
     path_exists := path_exists w;
     int_max_str_digits := int_max_str_digits w |}.

Definition with_listing (r : listing_response) (w : World) : World :=
  {| root_page := root_page w; listing := fun _ => r;
     abstract_page := abstract_page w;
     metadata_document := metadata_document w;
     pdf_document := pdf_document w;
     path_exists := path_exists w;
     int_max_str_digits := int_max_str_digits w |}.

Definition with_metadata (r : http (option Json.value)) (w : World) : World :=
  {| root_page := root_page w; listing := listing w;
     abstract_page := abstract_page w;
     metadata_document := fun _ => r;
     pdf_document := pdf_document w;
     path_exists := path_exists w;
     int_max_str_digits := int_max_str_digits w |}.

Definition with_paths (exists_ : pystr -> bool) (w : World) : World :=
  {| root_page := root_page w; listing := listing w;
     abstract_page := abstract_page w;
     metadata_document := metadata_document w;
     pdf_document := pdf_document w;
     path_exists := exists_;
     int_max_str_digits := int_max_str_digits w |}.

Definition site_root_unreachable : World :=
  with_root (Unreachable (lit "Connection refused")) Scenario.site.

Definition site_listing_fails : World :=
  with_listing (ClientError (lit "404, message='Not Found'")) Scenario.site.

Definition site_empty_listing : World :=
  with_listing (ListingPage (Some [])) Scenario.site.

Definition site_no_container : World :=
  with_listing (ListingPage None) Scenario.site.

Definition site_item_without_href : World :=
  with_listing (ListingPage (Some [Some Scenario.href_1234; None])) Scenario.site.

Definition site_metadata_404 : World :=
  with_metadata (Response 404 (lit "404 Client Error") None) Scenario.site.

Definition site_metadata_unreachable : World :=
  with_metadata (Unreachable (lit "Connection refused")) Scenario.site.

Definition site_abstract_unreachable : World :=
  Scenario.with_abstract (Unreachable (lit "Connection refused")) Scenario.site.

Definition soup_without_paragraph : abstract_html :=
  {| abstract_paragraph := None;
     citation_title := Content (lit "On Crawlers");
     citation_author := [] |}.

Definition site_abstract_without_paragraph : World :=
  Scenario.with_abstract (Response 200 [] soup_without_paragraph) Scenario.site.

Definition site_without_directories : World :=
  with_paths (fun _ => false) Scenario.site.

End Sites.

(* ================================================================== *)
(** ** Facts about the string operations *)
(* ================================================================== *)

Module PyStrFacts.

Lemma mem_In c chars : mem c chars = true <-> In c chars.
Proof.
  induction chars as [|d chars IH]; simpl.
  - split; [discriminate | tauto].
  - rewrite orb_true_iff, IH, Ascii.eqb_eq. split; intros [H|H]; auto.
Qed.

Lemma mem_false_In c chars : mem c chars = false <-> ~ In c chars.
Proof.
  rewrite <- mem_In. destruct (mem c chars); split; congruence.
Qed.

Lemma mem_app c a b : mem c (a ++ b) = mem c a || mem c b.
Proof.
  induction a as [|d a IH]; simpl; [reflexivity|].
  now rewrite IH, orb_assoc.
Qed.

Lemma startswith_iff s p : startswith s p = true <-> exists r, s = p ++ r.
Proof.
  revert s. induction p as [|a p IH]; intros s; simpl.
  - split; [exists s; reflexivity | reflexivity].
  - destruct s as [|c s].
    + split; [discriminate | intros [r H]; discriminate].
    + rewrite andb_true_iff, Ascii.eqb_eq, IH. split.
      * intros [-> [r ->]]. now exists r.
      * intros [r H]. injection H as -> ->. split; [reflexivity | now exists r].
Qed.

Lemma startswith_app p r : startswith (p ++ r) p = true.
Proof. apply startswith_iff. now exists r. Qed.

Lemma startswith_nil s : startswith s [] = true.
Proof. now destruct s. Qed.

Lemma startswith_head c s a p :
  startswith (c :: s) (a :: p) = true -> c = a /\ startswith s p = true.
Proof.
  simpl. rewrite andb_true_iff, Ascii.eqb_eq. tauto.
Qed.

Lemma contains_cons c s t :
  contains (c :: s) t = startswith (c :: s) t || contains s t.
Proof. reflexivity. Qed.

Lemma contains_iff s t : contains s t = true <-> exists u v, s = u ++ t ++ v.
Proof.
  induction s as [|c s IH].
  - simpl. rewrite orb_false_r, startswith_iff. split.
    + intros [r H]. exists [], r. exact H.
    + intros [u [v H]]. destruct u; [now exists v | discriminate].
  - rewrite contains_cons, orb_true_iff, startswith_iff, IH. split.
    + intros [[r H] | [u [v H]]].
      * exists [], r. exact H.
      * exists (c :: u), v. simpl. now rewrite H.
    + intros [u [v H]]. destruct u as [|d u].
      * left. now exists v.
      * right. injection H as _ H. now exists u, v.
Qed.

Lemma contains_app_l u s t : contains s t = true -> contains (u ++ s) t = true.
Proof.
  rewrite !contains_iff. intros [a [b ->]]. exists (u ++ a), b.
  now rewrite app_assoc.
Qed.

Lemma contains_app_r s v t : contains s t = true -> contains (s ++ v) t = true.
Proof.
  rewrite !contains_iff. intros [a [b ->]]. exists a, (b ++ v).
  now rewrite <- !app_assoc.
Qed.

Lemma contains_startswith s t : startswith s t = true -> contains s t = true.
Proof.
  intros H. destruct s; simpl in *; rewrite H; reflexivity.
Qed.

Lemma endswith_app s p : endswith (s ++ p) p = true.
Proof.
  unfold endswith. rewrite rev_app_distr. apply startswith_app.
Qed.

(** A word that starts inside [u ++ x :: v] and none of whose characters
    is [x] lies inside [u]; when [u] is not empty, the first character of
    the word need not differ from [x]. *)
Lemma startswith_app_barrier u x v t :
  mem x t = false ->
  startswith (u ++ x :: v) t = true -> startswith u t = true.
Proof.
  revert t. induction u as [|c u IH]; intros t Hx H.
  - destruct t as [|a t]; [reflexivity|].
    apply startswith_head in H. destruct H as [-> _].
    simpl in Hx. now rewrite Ascii.eqb_refl in Hx.
  - destruct t as [|a t]; [reflexivity|].
    simpl in H. apply andb_true_iff in H. destruct H as [H1 H2].
    simpl in Hx. apply orb_false_iff in Hx. destruct Hx as [_ Hx].
    simpl. rewrite H1. simpl. now apply IH.
Qed.

Lemma startswith_cons_barrier c u x v a t :
  mem x t = false ->
  startswith (c :: u ++ x :: v) (a :: t) = true ->
  startswith (c :: u) (a :: t) = true.
Proof.
  intros Hx H. simpl in H. apply andb_true_iff in H. destruct H as [H1 H2].
  simpl. rewrite H1. simpl. now apply (startswith_app_barrier u x v).
Qed.

(** No occurrence of a word starts in a prefix that lacks its first
    character. *)
Lemma contains_skip_prefix q x t0 t' :
  mem t0 q = false -> contains (q ++ x) (t0 :: t') = contains x (t0 :: t').
Proof.
  induction q as [|a q IH]; intros H; [reflexivity|].
  simpl in H. apply orb_false_iff in H. destruct H as [Ha Hq].
  change ((a :: q) ++ x) with (a :: (q ++ x)).
  rewrite contains_cons, (IH Hq).
  simpl. now rewrite Ascii.eqb_sym, Ha.
Qed.

(** *** [replace] *)

Section Replace.

Variables (o : ascii) (old' new : pystr).

Let old : pystr := o :: old'.
Let R : pystr -> pystr := replace_scan old new 0.

Lemma replace_scan_skip k s :
  replace_scan old new k s = R (skipn k s).
Proof.
  revert k. induction s as [|c s IH]; intros k.
  - now destruct k.
  - destruct k as [|k]; [reflexivity|]. simpl. apply IH.
Qed.

Lemma replace_scan_match r : R (old ++ r) = new ++ R r.
Proof.
  unfold R, old. change ((o :: old') ++ r) with (o :: (old' ++ r)).
  cbn [replace_scan].
  pose proof (startswith_app (o :: old') r) as H.
  change ((o :: old') ++ r) with (o :: (old' ++ r)) in H. rewrite H.
  f_equal. rewrite replace_scan_skip. cbn [length]. rewrite Nat.sub_1_r.
  cbn [Nat.pred]. now rewrite skipn_app, skipn_all, Nat.sub_diag.
Qed.

Lemma replace_scan_nomatch c s :
  startswith (c :: s) old = false -> R (c :: s) = c :: R s.
Proof.
  intros H. unfold R. cbn [replace_scan]. now rewrite H.
Qed.

(** The scan, as an induction principle. *)
Lemma replace_scan_ind (P : pystr -> pystr -> Prop) :
  P [] [] ->
  (forall r, P r (R r) -> P (old ++ r) (new ++ R r)) ->
  (forall c s, startswith (c :: s) old = false ->
               P s (R s) -> P (c :: s) (c :: R s)) ->
  forall s, P s (R s).
Proof.
  intros Hnil Hmatch Hstep s.
  remember (length s) as n eqn:Hn. revert s Hn.
  induction n as [n IH] using lt_wf_ind. intros s Hn.
  destruct s as [|c s]; [exact Hnil|].
  destruct (startswith (c :: s) old) eqn:E.
  - apply startswith_iff in E. destruct E as [r E]. rewrite E.
    rewrite replace_scan_match. apply Hmatch.
    apply (IH (length r)); [|reflexivity].
    subst n. rewrite E. unfold old. rewrite length_app. simpl. lia.
  - rewrite (replace_scan_nomatch _ _ E). apply Hstep; [exact E|].
    apply (IH (length s)); [|reflexivity]. subst n. simpl. lia.
Qed.

(** Characters that cannot start an occurrence are copied. *)
Lemma replace_scan_through t v :
  mem o t = false -> R (t ++ v) = t ++ R v.
Proof.
  induction t as [|a t IH]; intros H; [reflexivity|].
  simpl in H. apply orb_false_iff in H. destruct H as [Ha Ht].
  change ((a :: t) ++ v) with (a :: (t ++ v)).
  rewrite replace_scan_nomatch.
  - simpl. now rewrite IH.
  - unfold old. simpl. rewrite Ascii.eqb_sym, Ha. reflexivity.
Qed.

(** The first occurrence of [old] is replaced by [new]. *)
Lemma replace_scan_contains_new s :
  contains s old = true -> contains (R s) new = true.
Proof.
  apply (replace_scan_ind
           (fun s out => contains s old = true -> contains out new = true)).
  - simpl. discriminate.
  - intros r _ _. apply contains_startswith, startswith_app.
  - intros c s0 E IH H. rewrite contains_cons, E in H. simpl in H.
    apply (contains_app_l [c]). now apply IH.
Qed.

(** A word [t] survives the replacement when its first character is not in
    [old] and the first character of [old] is not in [t]. *)
Lemma replace_scan_keeps t0 t' s :
  mem t0 old = false -> mem o (t0 :: t') = false ->
  contains s (t0 :: t') = true -> contains (R s) (t0 :: t') = true.
Proof.
  intros Ht0 Ho.
  apply (replace_scan_ind
           (fun s out => contains s (t0 :: t') = true ->
                         contains out (t0 :: t') = true)).
  - trivial.
  - intros r IH H. apply contains_app_l, IH.
    (* the occurrence of [t] cannot start inside the matched [old] *)
    now rewrite (contains_skip_prefix old r t0 t' Ht0) in H.
  - intros c s0 E IH H. rewrite contains_cons in H.
    apply orb_true_iff in H. destruct H as [H|H].
    + apply startswith_iff in H. destruct H as [v H]. rewrite <- (replace_scan_nomatch _ _ E).
      rewrite H, (replace_scan_through _ _ Ho).
      apply contains_startswith, startswith_app.
    + apply (contains_app_l [c]). now apply IH.
Qed.

(** What the output starts with, the input starts with, for a word free of
    the first character of [new]. *)
Lemma replace_scan_startswith_inv n0 new' t :
  new = n0 :: new' -> mem n0 t = false ->
  forall s, startswith (R s) t = true -> startswith s t = true.
Proof.
  intros Hnew. induction t as [|a t IH]; intros Hn s H.
  - apply startswith_nil.
  - simpl in Hn. apply orb_false_iff in Hn. destruct Hn as [Ha Hn].
    destruct s as [|c s]; [discriminate H|].
    destruct (startswith (c :: s) old) eqn:E.
    + apply startswith_iff in E. destruct E as [r E]. rewrite E in H.
      rewrite replace_scan_match, Hnew in H. simpl in H.
      rewrite Ha in H. discriminate H.
    + rewrite (replace_scan_nomatch _ _ E) in H.
      apply startswith_head in H. destruct H as [-> H].
      simpl. rewrite Ascii.eqb_refl. simpl. now apply IH.
Qed.

(** No occurrence of a word appears that was not there, when the word and
    [new] do not contain each other's first character. *)
Lemma replace_scan_no_new_occurrence n0 new' t0 t' s :
  new = n0 :: new' -> mem n0 (t0 :: t') = false -> mem t0 new = false ->
  contains s (t0 :: t') = false -> contains (R s) (t0 :: t') = false.
Proof.
  intros Hnew Hn Ht.
  apply (replace_scan_ind
           (fun s out => contains s (t0 :: t') = false ->
                         contains out (t0 :: t') = false)).
  - trivial.
  - intros r IH H.
    assert (Hr : contains r (t0 :: t') = false).
    { destruct (contains r (t0 :: t')) eqn:Er; [|reflexivity].
      now rewrite (contains_app_l old _ _ Er) in H. }
    now rewrite (contains_skip_prefix new (R r) t0 t' Ht), IH.
  - intros c s0 E IH H. rewrite contains_cons in H.
    apply orb_false_iff in H. destruct H as [H1 H2].
    rewrite contains_cons. apply orb_false_iff. split; [|now apply IH].
    destruct (startswith (c :: R s0) (t0 :: t')) eqn:E'; [|reflexivity].
    rewrite <- (replace_scan_nomatch _ _ E) in E'.
    apply (replace_scan_startswith_inv _ _ _ Hnew Hn) in E'. congruence.
Qed.

(** After the replacement no occurrence of [old] is left, when [old] and
    [new] do not contain each other's first character. *)
Lemma replace_scan_removes n0 new' s :
  new = n0 :: new' -> mem n0 old = false -> mem o new = false ->
  contains (R s) old = false.
Proof.
  intros Hnew Hn Ho.
  apply (replace_scan_ind (fun _ out => contains out old = false)).
  - reflexivity.
  - intros r IH. unfold old. now rewrite (contains_skip_prefix new (R r) o old' Ho).
  - intros c s0 E IH. rewrite contains_cons. apply orb_false_iff.
    split; [|exact IH].
    destruct (startswith (c :: R s0) old) eqn:E'; [|reflexivity].
    rewrite <- (replace_scan_nomatch _ _ E) in E'.
    apply (replace_scan_startswith_inv _ _ _ Hnew Hn) in E'. congruence.
Qed.

(** The scan of [u ++ x :: v] is the scan of [u] followed by the scan of
    the rest, when [x] is not a character of [old] past its first. *)
Lemma replace_scan_app_barrier u x v :
  mem x old' = false -> R (u ++ x :: v) = R u ++ R (x :: v).
Proof.
  intros Hx.
  apply (replace_scan_ind
           (fun u out => R (u ++ x :: v) = out ++ R (x :: v))).
  - reflexivity.
  - intros r IH. now rewrite <- !app_assoc, replace_scan_match, IH.
  - intros c s0 E IH.
    change ((c :: s0) ++ x :: v) with (c :: (s0 ++ x :: v)).
    rewrite replace_scan_nomatch; [simpl; now rewrite IH|].
    destruct (startswith (c :: s0 ++ x :: v) old) eqn:E'; [|reflexivity].
    apply (startswith_cons_barrier c s0 x v o old' Hx) in E'.
    unfold old in E. congruence.
Qed.


End Replace.

(** *** Ends of strings and decimal numerals *)

Lemma endswith_free a s c :
  s <> [] -> mem c s = false -> endswith (a ++ s) [c] = false.
Proof.
  intros Hne Hc. unfold endswith. rewrite rev_app_distr.
  destruct (rev s) as [|x r] eqn:Er.
  - apply (f_equal (@rev ascii)) in Er. rewrite rev_involutive in Er.
    now subst s.
  - assert (Hx : In x s) by (apply in_rev; rewrite Er; now left).
    apply mem_false_In in Hc. cbn.
    destruct (Ascii.eqb_spec x c); [subst; contradiction | reflexivity].
Qed.

Lemma string_of_uint_chars d :
  mem "/" (lit (NilEmpty.string_of_uint d)) = false.
Proof. induction d; cbn; try exact IHd; reflexivity. Qed.

(** [str(n)] is not empty and has no slash. *)
Lemma str_of_int_chars n :
  str_of_int n <> [] /\ mem "/" (str_of_int n) = false.
Proof.
  unfold str_of_int. destruct n as [|p|p]; cbn [Z.to_int].
  - split; [discriminate | reflexivity].
  - split.
    + pose proof (DecimalPos.Unsigned.to_uint_nonnil p) as H.
      cbn. now destruct (Pos.to_uint p).
    + apply string_of_uint_chars.
  - split; [discriminate|]. cbn. apply string_of_uint_chars.
Qed.

(** *** [split] and [rsplit] *)

Lemma split_nonempty sep s : split sep s <> [].
Proof.
  destruct s as [|c s]; simpl; [discriminate|].
  destruct (Ascii.eqb c sep); [discriminate|].
  destruct (split sep s); discriminate.
Qed.

Lemma split_absent sep s : mem sep s = false -> split sep s = [s].
Proof.
  induction s as [|c s IH]; intros H; [reflexivity|].
  simpl in H. apply orb_false_iff in H. destruct H as [Hc Hs].
  simpl. rewrite Ascii.eqb_sym, Hc, (IH Hs). reflexivity.
Qed.

(** Splitting distributes over a separator. *)
Lemma split_app sep a b :
  split sep (a ++ sep :: b) = split sep a ++ split sep b.
Proof.
  induction a as [|c a IH]; simpl.
  - now rewrite Ascii.eqb_refl.
  - destruct (Ascii.eqb c sep); [now rewrite IH|].
    rewrite IH. destruct (split sep a) as [|w ws] eqn:E; [|reflexivity].
    now destruct (split_nonempty sep a).
Qed.

Lemma item_last_app {A} (l1 l2 : list A) :
  l2 <> [] -> item_last (l1 ++ l2) = item_last l2.
Proof.
  intros H. induction l1 as [|x l1 IH]; [reflexivity|].
  simpl. destruct (l1 ++ l2) eqn:E; [|exact IH].
  apply app_eq_nil in E. destruct E as [_ E]. contradiction.
Qed.

Lemma item_first_app {A} (l1 l2 : list A) :
  l1 <> [] -> item_first (l1 ++ l2) = item_first l1.
Proof. destruct l1; [contradiction | reflexivity]. Qed.

(** The last segment of a path. *)
Lemma split_last sep a b :
  mem sep b = false -> item_last (split sep (a ++ sep :: b)) = Some b.
Proof.
  intros H. rewrite split_app, item_last_app by apply split_nonempty.
  now rewrite (split_absent sep b H).
Qed.

(** The text before the first separator. *)
Lemma split_first sep a b :
  mem sep a = false -> item_first (split sep (a ++ sep :: b)) = Some a.
Proof.
  intros H. rewrite split_app, item_first_app by apply split_nonempty.
  now rewrite (split_absent sep a H).
Qed.

Lemma item_last_some {A} (l : list A) : l <> [] -> exists x, item_last l = Some x.
Proof.
  induction l as [|x l IH]; [contradiction|]. intros _.
  destruct l as [|y l]; [now exists x|].
  apply IH. discriminate.
Qed.

Lemma rpartition_absent sep s : mem sep s = false -> rpartition sep s = None.
Proof.
  induction s as [|c s IH]; intros H; [reflexivity|].
  simpl in H. apply orb_false_iff in H. destruct H as [Hc Hs].
  simpl. now rewrite (IH Hs), Ascii.eqb_sym, Hc.
Qed.

Lemma rpartition_last sep a b :
  mem sep b = false -> rpartition sep (a ++ sep :: b) = Some (a, b).
Proof.
  intros H. induction a as [|c a IH]; simpl.
  - now rewrite (rpartition_absent sep b H), Ascii.eqb_refl.
  - now rewrite IH.
Qed.

(** What [rpartition] cuts off is a suffix. *)
Lemma rpartition_app sep s a b :
  rpartition sep s = Some (a, b) -> s = a ++ sep :: b.
Proof.
  revert a b. induction s as [|c s IH]; intros a b H; [discriminate|].
  simpl in H. destruct (rpartition sep s) as [[a' b']|] eqn:E.
  - injection H as <- <-. simpl. now rewrite (IH a' b' eq_refl).
  - destruct (Ascii.eqb c sep) eqn:Ec; [|discriminate].
    injection H as <- <-. apply Ascii.eqb_eq in Ec. now subst c.
Qed.

(** The first piece of [rsplit(sep, 1)] is a prefix of the string. *)
Lemma rsplit1_first sep s :
  exists stem ext, item_first (rsplit1 sep s) = Some stem /\ s = stem ++ ext.
Proof.
  unfold rsplit1. destruct (rpartition sep s) as [[a b]|] eqn:E.
  - exists a, (sep :: b). split; [reflexivity|]. now apply rpartition_app.
  - exists s, []. split; [reflexivity|]. now rewrite app_nil_r.
Qed.

End PyStrFacts.

(* ================================================================== *)
(** ** Laws of the effect monad and of the loops *)
(* ================================================================== *)

Module EffectFacts.

Import Crawler.
Local Open Scope py_scope.

Lemma bind_ret_l {A B} (a : A) (k : A -> M B) : (x <- ret a ;; k x) = k a.
Proof. unfold bind, ret. now destruct (k a). Qed.

Lemma bind_ret_r {A} (c : M A) : (x <- c ;; ret x) = c.
Proof.
  destruct c as [tr [a | e | arg]]; cbn; [|reflexivity|reflexivity].
  now rewrite app_nil_r.
Qed.

Lemma bind_assoc {A B C} (c : M A) (k : A -> M B) (h : B -> M C) :
  (y <- (x <- c ;; k x) ;; h y) = (x <- c ;; y <- k x ;; h y).
Proof.
  destruct c as [tr [a | e | arg]]; cbn; [|reflexivity|reflexivity].
  destruct (k a) as [tr' [b | e | arg]]; cbn; [|reflexivity|reflexivity].
  destruct (h b) as [tr'' r]. now rewrite app_assoc.
Qed.

Lemma bind_raise {A B} (e : exn) (k : A -> M B) : (x <- raise e ;; k x) = raise e.
Proof. reflexivity. Qed.

Lemma bind_sys_exit {A B} (arg : exit_arg) (k : A -> M B) :
  (x <- sys_exit arg ;; k x) = sys_exit arg.
Proof. reflexivity. Qed.

End EffectFacts.

(* ================================================================== *)
(** ** The Link Deriver: [get_paper_paths] *)
(* ================================================================== *)

Module LinkDeriver.

Import PyStrFacts EffectFacts Crawler.
Local Open Scope py_scope.

(** The loop body on an item whose pieces are known. *)
Lemma paper_paths_step_eq acc href segment paper_id stem :
  item_last (split "/" href) = Some segment ->
  item_first (split "-" segment) = Some paper_id ->
  item_first (rsplit1 "." href) = Some stem ->
  paper_paths_step acc (Some href) =
  ret (append_paper acc paper_id (base_url ++ href)
         (substitute (lit "Metadata") (base_url ++ stem) ++ lit ".json")
         (substitute (lit "Paper") (base_url ++ stem) ++ lit ".pdf")).
Proof.
  intros H1 H2 H3. destruct acc as [[[ids abs] metas] pdfs].
  unfold paper_paths_step, append_paper. cbn [some_or_raise].
  rewrite bind_ret_l, H1. cbn [some_or_raise].
  rewrite bind_ret_l, H2. cbn [some_or_raise].
  rewrite bind_ret_l, H3. cbn [some_or_raise].
  now rewrite bind_ret_l.
Qed.


Lemma paper_paths_step_paper_of_href acc href :
  paper_paths_step acc (Some href) =
  ret (let '(paper_id, abstract_url, metadata_url, pdf_url) := paper_of_href href in
       append_paper acc paper_id abstract_url metadata_url pdf_url).
Proof.
  destruct (item_last_some (split "/" href) (split_nonempty _ _)) as [segment H1].
  destruct (split "-" segment) as [|paper_id rest] eqn:H2;
    [now destruct (split_nonempty "-" segment)|].
  destruct (rsplit1_first "." href) as [stem [ext [H3 _]]].
  rewrite (paper_paths_step_eq acc href segment paper_id stem H1);
    [| now rewrite H2 | exact H3].
  unfold paper_of_href. now rewrite H1, H3; cbn [default]; rewrite H2.
Qed.

Lemma zip4_app {A B C D} (la la' : list A) (lb lb' : list B)
      (lc lc' : list C) (ld ld' : list D) :
  length la = length lb -> length la = length lc -> length la = length ld ->
  zip4 (la ++ la') (lb ++ lb') (lc ++ lc') (ld ++ ld')
  = zip4 la lb lc ld ++ zip4 la' lb' lc' ld'.
Proof.
  revert lb lc ld. induction la as [|a la IH]; intros [|b lb] [|c lc] [|d ld];
    try discriminate; intros Hb Hc Hd; [reflexivity|].
  cbn [length] in Hb, Hc, Hd. cbn [zip4 app]. f_equal. apply IH; lia.
Qed.

(** The lists of [get_paper_paths] are aligned and hold, href by href and
    in document order, what the loop body derives. *)
Lemma paper_paths_loop hrefs : forall acc,
  let '(ids, abs, metas, pdfs) := acc in
  length ids = length abs -> length ids = length metas ->
  length ids = length pdfs ->
  exists lists,
    for_state paper_paths_step (map Some hrefs) acc = ret lists /\
    papers_of lists = papers_of acc ++ map paper_of_href hrefs.
Proof.
  induction hrefs as [|href hrefs IH]; intros [[[ids abs] metas] pdfs] Ha Hm Hp.
  - exists (ids, abs, metas, pdfs). split; [reflexivity|].
    now rewrite app_nil_r.
  - cbn [map for_state]. rewrite paper_paths_step_paper_of_href, bind_ret_l.
    destruct (paper_of_href href) as [[[paper_id a] m] p] eqn:E.
    cbn [append_paper].
    specialize (IH (ids ++ [paper_id], abs ++ [a], metas ++ [m], pdfs ++ [p])).
    cbn beta iota in IH. rewrite !length_app in IH. cbn [length] in IH.
    destruct IH as [lists [Hrun Hpapers]]; try lia.
    exists lists. split; [exact Hrun|]. rewrite Hpapers.
    unfold papers_of at 1. rewrite (zip4_app ids [_] abs [_] metas [_] pdfs [_] Ha Hm Hp).
    unfold papers_of. now rewrite <- app_assoc.
Qed.

(** The Link Deriver on a page all of whose items have an href. *)
Lemma get_paper_paths_papers w year hrefs :
  listing w (get_conference_url year) = ListingPage (Some (map Some hrefs)) ->
  exists lists,
    get_paper_paths w year = ret lists /\
    papers_of lists = map paper_of_href hrefs.
Proof.
  intros H. unfold get_paper_paths, fetch. rewrite H.
  rewrite bind_ret_l. cbn [some_or_raise]. rewrite bind_ret_l.
  exact (paper_paths_loop hrefs ([], [], [], []) eq_refl eq_refl eq_refl).
Qed.

(** The document kind appears in the substituted URL when the token
    [Abstract] occurs in the base. *)
Lemma substitute_contains_kind kind paper_base_url :
  is_kind kind ->
  contains paper_base_url (lit "Abstract") = true ->
  contains (substitute kind paper_base_url) kind = true.
Proof.
  intros [-> | ->] H; unfold substitute.
  - apply (replace_scan_keeps "h" (lit "ash") (lit "file") "M" (lit "etadata"));
      [reflexivity | reflexivity |].
    now apply (replace_scan_contains_new "A" (lit "bstract")).
  - apply (replace_scan_keeps "h" (lit "ash") (lit "file") "P" (lit "aper"));
      [reflexivity | reflexivity |].
    now apply (replace_scan_contains_new "A" (lit "bstract")).
Qed.

(** [file] appears in the substituted URL when the token [hash] occurs in
    the base. *)
Lemma substitute_contains_file kind paper_base_url :
  contains paper_base_url (lit "hash") = true ->
  contains (substitute kind paper_base_url) (lit "file") = true.
Proof.
  intros H. unfold substitute.
  apply (replace_scan_contains_new "h" (lit "ash")).
  now apply (replace_scan_keeps "A" (lit "bstract") kind "h" (lit "ash")).
Qed.

Lemma rsplit1_extension stem ext :
  mem "." ext = false ->
  item_first (rsplit1 "." (stem ++ "."%char :: ext)) = Some stem.
Proof.
  intros H. unfold rsplit1. now rewrite (rpartition_last "." stem ext H).
Qed.

(** The two URLs derived from a base in which both tokens occur. *)
Lemma derived_urls_ok_of_tokens paper_base_url :
  contains paper_base_url (lit "Abstract") = true ->
  contains paper_base_url (lit "hash") = true ->
  derived_urls_ok (substitute (lit "Metadata") paper_base_url ++ lit ".json")
                  (substitute (lit "Paper") paper_base_url ++ lit ".pdf").
Proof.
  intros HA Hh. unfold derived_urls_ok. repeat split.
  - apply contains_app_r, substitute_contains_kind; [now left | exact HA].
  - apply contains_app_r, substitute_contains_file, Hh.
  - apply endswith_app.
  - apply contains_app_r, substitute_contains_kind; [now right | exact HA].
  - apply contains_app_r, substitute_contains_file, Hh.
  - apply endswith_app.
Qed.

(** C1 (amended).  For an anchor href of the form
    [.../Abstract-hash-<id>.html], where [<id>] has no slash, the Link
    Deriver produces the paper_id [Abstract] (the last slash-delimited
    segment truncated at its first dash), not [<id>]; the metadata URL
    contains [Metadata] and [file] and ends in [.json], and the PDF URL
    contains [Paper] and [file] and ends in [.pdf].  The paper_id is
    [<id>] for every href of the form [<dir>/<id>-Abstract.html] with
    [<id>] free of slash and dash; there the metadata URL contains
    [Metadata] and ends in [.json], the PDF URL contains [Paper] and ends
    in [.pdf], and both contain [file] when [hash] occurs in
    [<dir>/<id>]. *)
Theorem link_deriver_paper_id_and_urls
        (acc : paper_lists) (p id : pystr) (Hid : mem "/" id = false) :
  (exists metadata_url pdf_url,
      paper_paths_step acc (Some (p ++ lit "/Abstract-hash-" ++ id ++ lit ".html")) =
      ret (append_paper acc (lit "Abstract")
             (base_url ++ p ++ lit "/Abstract-hash-" ++ id ++ lit ".html")
             metadata_url pdf_url) /\
      derived_urls_ok metadata_url pdf_url)
  /\
  (mem "-" id = false ->
   exists metadata_url pdf_url,
     paper_paths_step acc (Some (p ++ lit "/" ++ id ++ lit "-Abstract.html")) =
     ret (append_paper acc id
            (base_url ++ p ++ lit "/" ++ id ++ lit "-Abstract.html")
            metadata_url pdf_url) /\
     contains metadata_url (lit "Metadata") = true /\
     endswith metadata_url (lit ".json") = true /\
     contains pdf_url (lit "Paper") = true /\
     endswith pdf_url (lit ".pdf") = true /\
     (contains (p ++ lit "/" ++ id) (lit "hash") = true ->
      derived_urls_ok metadata_url pdf_url)).
Proof.
  split.
  - set (stem := p ++ lit "/Abstract-hash-" ++ id).
    assert (Hhref : p ++ lit "/Abstract-hash-" ++ id ++ lit ".html"
                    = stem ++ "."%char :: lit "html").
    { unfold stem. now rewrite <- !app_assoc. }
    exists (substitute (lit "Metadata") (base_url ++ stem) ++ lit ".json"),
           (substitute (lit "Paper") (base_url ++ stem) ++ lit ".pdf").
    split.
    + apply (paper_paths_step_eq acc _ (lit "Abstract-hash-" ++ id ++ lit ".html")).
      * apply (split_last "/" p (lit "Abstract-hash-" ++ id ++ lit ".html")).
        now rewrite !mem_app, Hid.
      * apply (split_first "-" (lit "Abstract") (lit "hash-" ++ id ++ lit ".html")).
        reflexivity.
      * rewrite Hhref. now apply rsplit1_extension.
    + apply derived_urls_ok_of_tokens; unfold stem.
      * apply contains_app_l, contains_app_l.
        apply (contains_app_l [ "/"%char ]).
        apply (contains_startswith _ _ (startswith_app (lit "Abstract") _)).
      * apply contains_app_l, contains_app_l.
        apply (contains_app_l (lit "/Abstract-")).
        apply (contains_startswith _ _ (startswith_app (lit "hash") _)).
  - intros Hdash.
    set (stem := p ++ lit "/" ++ id ++ lit "-Abstract").
    assert (Hhref : p ++ lit "/" ++ id ++ lit "-Abstract.html"
                    = stem ++ "."%char :: lit "html").
    { unfold stem. now rewrite <- !app_assoc. }
    assert (HA : contains (base_url ++ stem) (lit "Abstract") = true).
    { unfold stem. apply contains_app_l, contains_app_l.
      apply (contains_app_l [ "/"%char ]), contains_app_l.
      apply (contains_app_l [ "-"%char ]).
      apply (contains_startswith _ _ (startswith_app (lit "Abstract") [])). }
    exists (substitute (lit "Metadata") (base_url ++ stem) ++ lit ".json"),
           (substitute (lit "Paper") (base_url ++ stem) ++ lit ".pdf").
    split; [|split; [|split; [|split; [|split]]]].
    + apply (paper_paths_step_eq acc _ (id ++ lit "-Abstract.html")).
      * apply (split_last "/" p (id ++ lit "-Abstract.html")).
        now rewrite !mem_app, Hid.
      * now apply (split_first "-" id (lit "Abstract.html")).
      * rewrite Hhref. now apply rsplit1_extension.
    + apply contains_app_r, substitute_contains_kind; [now left | exact HA].
    + apply endswith_app.
    + apply contains_app_r, substitute_contains_kind; [now right | exact HA].
    + apply endswith_app.
    + intros Hhash. apply derived_urls_ok_of_tokens; [exact HA|].
      unfold stem. apply contains_app_l.
      replace (p ++ lit "/" ++ id ++ lit "-Abstract")
        with ((p ++ lit "/" ++ id) ++ lit "-Abstract")
        by (now rewrite <- !app_assoc).
      now apply contains_app_r.
Qed.

(** The first form at the identifier [1234]; the second form under a
    directory with [hash] and under one without. *)
Lemma link_deriver_paper_id_and_urls_witness :
  mem "/" (lit "1234") = false /\
  mem "-" (lit "1234") = false /\
  contains (lit "/paper_files/paper/2020/hash" ++ lit "/" ++ lit "1234") (lit "hash")
  = true /\
  (exists metadata_url pdf_url,
      paper_paths_step ([], [], [], [])
        (Some (lit "/paper/2020" ++ lit "/Abstract-hash-" ++ lit "1234" ++ lit ".html")) =
      ret (append_paper ([], [], [], []) (lit "Abstract")
             (base_url ++ lit "/paper/2020" ++ lit "/Abstract-hash-"
                       ++ lit "1234" ++ lit ".html")
             metadata_url pdf_url) /\
      derived_urls_ok metadata_url pdf_url) /\
  (exists metadata_url pdf_url,
     paper_paths_step ([], [], [], [])
       (Some (lit "/paper_files/paper/2020/hash" ++ lit "/" ++ lit "1234"
                  ++ lit "-Abstract.html")) =
     ret (append_paper ([], [], [], []) (lit "1234")
            (base_url ++ lit "/paper_files/paper/2020/hash" ++ lit "/"
                      ++ lit "1234" ++ lit "-Abstract.html")
            metadata_url pdf_url) /\
     derived_urls_ok metadata_url pdf_url) /\
  (exists metadata_url pdf_url,
     paper_paths_step ([], [], [], [])
       (Some (lit "/x" ++ lit "/" ++ lit "1234" ++ lit "-Abstract.html")) =
     ret (append_paper ([], [], [], []) (lit "1234")
            (base_url ++ lit "/x" ++ lit "/" ++ lit "1234" ++ lit "-Abstract.html")
            metadata_url pdf_url) /\
     contains metadata_url (lit "Metadata") = true /\
     contains pdf_url (lit "Paper") = true).
Proof.
  split; [reflexivity|]. split; [reflexivity|]. split; [reflexivity|].
  split; [|split].
  - exact (proj1 (link_deriver_paper_id_and_urls ([], [], [], [])
                    (lit "/paper/2020") (lit "1234") eq_refl)).
  - destruct (proj2 (link_deriver_paper_id_and_urls ([], [], [], [])
                       (lit "/paper_files/paper/2020/hash") (lit "1234") eq_refl)
                    eq_refl)
      as [m [pdf [Hstep [_ [_ [_ [_ Hok]]]]]]].
    exists m, pdf. split; [exact Hstep | exact (Hok eq_refl)].
  - destruct (proj2 (link_deriver_paper_id_and_urls ([], [], [], [])
                       (lit "/x") (lit "1234") eq_refl)
                    eq_refl)
      as [m [pdf [Hstep [Hm [_ [Hp _]]]]]].
    exists m, pdf. split; [exact Hstep | split; [exact Hm | exact Hp]].
Defined.

(** C1, as stated, fails: on [/paper/2020/Abstract-hash-1234.html] the
    paper_id is [Abstract], not [1234]. *)
Lemma link_deriver_paper_id_counterexample :
  paper_paths_step ([], [], [], [])
    (Some (lit "/paper/2020/Abstract-hash-1234.html")) =
  ret ([lit "Abstract"],
       [lit "https://papers.nips.cc/paper/2020/Abstract-hash-1234.html"],
       [lit "https://papers.nips.cc/paper/2020/Metadata-file-1234.json"],
       [lit "https://papers.nips.cc/paper/2020/Paper-file-1234.pdf"])
  /\ lit "Abstract" <> lit "1234".
Proof.
  split; [vm_compute; reflexivity | discriminate].
Qed.

(** *** The substitution, token by token *)

Section Tokens.

Variable kind : pystr.
Hypothesis Hkind : is_kind kind.

Lemma kind_cases (P : pystr -> Prop) : P (lit "Metadata") -> P (lit "Paper") -> P kind.
Proof. destruct Hkind as [-> | ->]; tauto. Qed.

Lemma replace_Abstract_app u v :
  replace (u ++ lit "Abstract" ++ v) (lit "Abstract") kind =
  replace u (lit "Abstract") kind ++ kind ++ replace v (lit "Abstract") kind.
Proof.
  etransitivity.
  - exact (replace_scan_app_barrier "A" (lit "bstract") kind
             u "A" (lit "bstract" ++ v) eq_refl).
  - apply (f_equal (app _)). exact (replace_scan_match "A" (lit "bstract") kind v).
Qed.

Lemma replace_hash_kind_app a b :
  replace (a ++ kind ++ b) (lit "hash") (lit "file") =
  replace a (lit "hash") (lit "file") ++ kind ++ replace b (lit "hash") (lit "file").
Proof.
  apply kind_cases.
  - etransitivity.
    + exact (replace_scan_app_barrier "h" (lit "ash") (lit "file")
               a "M" (lit "etadata" ++ b) eq_refl).
    + apply (f_equal (app _)).
      exact (replace_scan_through "h" (lit "ash") (lit "file")
               (lit "Metadata") b eq_refl).
  - etransitivity.
    + exact (replace_scan_app_barrier "h" (lit "ash") (lit "file")
               a "P" (lit "aper" ++ b) eq_refl).
    + apply (f_equal (app _)).
      exact (replace_scan_through "h" (lit "ash") (lit "file")
               (lit "Paper") b eq_refl).
Qed.

Lemma substitute_Abstract_app u v :
  substitute kind (u ++ lit "Abstract" ++ v) =
  substitute kind u ++ kind ++ substitute kind v.
Proof.
  unfold substitute. now rewrite replace_Abstract_app, replace_hash_kind_app.
Qed.

Lemma replace_Abstract_sep_hash u x v :
  mem x (lit "Abstract") = false ->
  replace (u ++ x :: lit "hash" ++ v) (lit "Abstract") kind =
  replace u (lit "Abstract") kind ++ x :: lit "hash"
  ++ replace v (lit "Abstract") kind.
Proof.
  intros Hx.
  assert (Hx' : mem x (lit "bstract") = false /\ Ascii.eqb x "A" = false).
  { change (Ascii.eqb x "A" || mem x (lit "bstract") = false) in Hx.
    apply orb_false_iff in Hx. tauto. }
  destruct Hx' as [Hx1 Hx2].
  etransitivity.
  - exact (replace_scan_app_barrier "A" (lit "bstract") kind
             u x (lit "hash" ++ v) Hx1).
  - apply (f_equal (app _)).
    apply (replace_scan_through "A" (lit "bstract") kind (x :: lit "hash") v).
    change (Ascii.eqb "A" x || mem "A" (lit "hash") = false).
    now rewrite Ascii.eqb_sym, Hx2.
Qed.

Lemma replace_hash_sep_hash a x b :
  mem x (lit "hash") = false ->
  replace (a ++ x :: lit "hash" ++ b) (lit "hash") (lit "file") =
  replace a (lit "hash") (lit "file") ++ x :: lit "file"
  ++ replace b (lit "hash") (lit "file").
Proof.
  intros Hx.
  assert (Hx' : mem x (lit "ash") = false /\ Ascii.eqb x "h" = false).
  { change (Ascii.eqb x "h" || mem x (lit "ash") = false) in Hx.
    apply orb_false_iff in Hx. tauto. }
  destruct Hx' as [Hx1 Hx2].
  etransitivity.
  - exact (replace_scan_app_barrier "h" (lit "ash") (lit "file")
             a x (lit "hash" ++ b) Hx1).
  - apply (f_equal (app _)). etransitivity.
    + apply (replace_scan_through "h" (lit "ash") (lit "file") [x] (lit "hash" ++ b)).
      change (Ascii.eqb "h" x || false = false).
      now rewrite Ascii.eqb_sym, Hx2.
    + cbn [app]. apply (f_equal (cons x)).
      exact (replace_scan_match "h" (lit "ash") (lit "file") b).
Qed.

Lemma substitute_sep_hash u x v :
  mem x (lit "Abstract") = false -> mem x (lit "hash") = false ->
  substitute kind (u ++ x :: lit "hash" ++ v) =
  substitute kind u ++ x :: lit "file" ++ substitute kind v.
Proof.
  intros HA Hh. unfold substitute.
  now rewrite (replace_Abstract_sep_hash _ _ _ HA), (replace_hash_sep_hash _ _ _ Hh).
Qed.

Lemma substitute_removes_Abstract paper_base_url :
  contains (substitute kind paper_base_url) (lit "Abstract") = false.
Proof.
  unfold substitute.
  apply (replace_scan_no_new_occurrence "h" (lit "ash") (lit "file")
           "f" (lit "ile") "A" (lit "bstract")); try reflexivity.
  apply kind_cases.
  - exact (replace_scan_removes "A" (lit "bstract") (lit "Metadata")
             "M" (lit "etadata") paper_base_url eq_refl eq_refl eq_refl).
  - exact (replace_scan_removes "A" (lit "bstract") (lit "Paper")
             "P" (lit "aper") paper_base_url eq_refl eq_refl eq_refl).
Qed.

Lemma substitute_removes_hash paper_base_url :
  contains (substitute kind paper_base_url) (lit "hash") = false.
Proof.
  exact (replace_scan_removes "h" (lit "ash") (lit "file") "f" (lit "ile")
           (replace paper_base_url (lit "Abstract") kind)
           eq_refl eq_refl eq_refl).
Qed.

End Tokens.

(** No occurrence of a word appears by appending an extension that the
    word cannot run into. *)
Lemma contains_app_extension s x e t :
  contains s t = false -> mem x t = false -> contains e t = false ->
  contains (s ++ x :: e) t = false.
Proof.
  intros Hs Hx He. induction s as [|c s IH].
  - cbn [app]. rewrite contains_cons, He, orb_false_r.
    destruct t as [|a t]; [discriminate Hs|].
    cbn [mem] in Hx. apply orb_false_iff in Hx. destruct Hx as [Hxa _].
    cbn. now rewrite Hxa.
  - rewrite contains_cons in Hs. apply orb_false_iff in Hs. destruct Hs as [H1 H2].
    change ((c :: s) ++ x :: e) with (c :: (s ++ x :: e)).
    rewrite contains_cons, (IH H2), orb_false_r.
    destruct (startswith (c :: s ++ x :: e) t) eqn:E; [|reflexivity].
    apply (startswith_app_barrier (c :: s) x e t Hx) in E. congruence.
Qed.

(** What [rsplit('.', 1)] cuts off is an extension: nothing, or a dot and
    a text without dot. *)
Lemma rpartition_suffix_free sep s : forall a b,
  rpartition sep s = Some (a, b) -> mem sep b = false.
Proof.
  induction s as [|c s IH]; intros a b H; [discriminate|].
  cbn [rpartition] in H. destruct (rpartition sep s) as [[a' b']|] eqn:E.
  - injection H as _ <-. exact (IH a' b' eq_refl).
  - destruct (Ascii.eqb c sep); [|discriminate]. injection H as _ <-.
    clear IH. induction s as [|d s IHs]; [reflexivity|].
    cbn [rpartition] in E. destruct (rpartition sep s) as [[a' b']|];
      [discriminate|].
    destruct (Ascii.eqb d sep) eqn:Ed; [discriminate|].
    cbn [mem]. rewrite Ascii.eqb_sym, Ed. now apply IHs.
Qed.

Lemma extension_stripped_spec href :
  exists ext,
    href = Sites.extension_stripped href ++ ext /\
    (ext = [] \/ exists e, ext = "."%char :: e /\ mem "." e = false).
Proof.
  unfold Sites.extension_stripped, rsplit1.
  destruct (rpartition "." href) as [[a b]|] eqn:E.
  - exists ("."%char :: b). split; [now apply rpartition_app|].
    right. exists b. split; [reflexivity|].
    exact (rpartition_suffix_free "." href a b E).
  - exists []. split; [cbn; now rewrite app_nil_r | now left].
Qed.

(** The base endpoint holds neither token, and no occurrence can start in
    it: the substitution copies it and goes on behind it. *)
Lemma substitute_base kind u :
  substitute kind (base_url ++ u) = base_url ++ substitute kind u.
Proof.
  unfold substitute.
  assert (HA : replace (base_url ++ u) (lit "Abstract") kind
               = base_url ++ replace u (lit "Abstract") kind)
    by exact (replace_scan_through "A" (lit "bstract") kind base_url u eq_refl).
  rewrite HA.
  change (base_url ++ replace u (lit "Abstract") kind)
    with ("h"%char :: lit "ttps://papers.nips.cc" ++ replace u (lit "Abstract") kind).
  change (base_url ++ replace (replace u (lit "Abstract") kind) (lit "hash") (lit "file"))
    with ("h"%char :: lit "ttps://papers.nips.cc"
          ++ replace (replace u (lit "Abstract") kind) (lit "hash") (lit "file")).
  etransitivity.
  - exact (replace_scan_nomatch "h" (lit "ash") (lit "file") "h"
             (lit "ttps://papers.nips.cc" ++ replace u (lit "Abstract") kind)
             eq_refl).
  - apply (f_equal (cons "h"%char)).
    exact (replace_scan_through "h" (lit "ash") (lit "file")
             (lit "ttps://papers.nips.cc") _ eq_refl).
Qed.

(** A derived URL holds no token: the extension appended after the
    substitution brings none. *)
Lemma derived_url_without_tokens kind paper_base_url e :
  is_kind kind -> e = lit "json" \/ e = lit "pdf" ->
  contains (substitute kind paper_base_url ++ "."%char :: e) (lit "Abstract") = false /\
  contains (substitute kind paper_base_url ++ "."%char :: e) (lit "hash") = false.
Proof.
  intros Hkind He. split.
  - apply contains_app_extension;
      [now apply substitute_removes_Abstract | reflexivity |].
    destruct He as [-> | ->]; reflexivity.
  - apply contains_app_extension;
      [apply substitute_removes_hash | reflexivity |].
    destruct He as [-> | ->]; reflexivity.
Qed.

Lemma substitute_eq kind s :
  substitute kind s
  = replace (replace s (lit "Abstract") kind) (lit "hash") (lit "file").
Proof. reflexivity. Qed.

(** The derivation of a step, with the substitution named. *)
Lemma paper_paths_step_substitute (acc : paper_lists) (href : pystr) :
  paper_paths_step acc (Some href) =
  ret (append_paper acc (Sites.paper_id_of href) (base_url ++ href)
         (substitute (lit "Metadata") (base_url ++ Sites.extension_stripped href)
          ++ lit ".json")
         (substitute (lit "Paper") (base_url ++ Sites.extension_stripped href)
          ++ lit ".pdf")).
Proof. rewrite paper_paths_step_paper_of_href. reflexivity. Qed.

(** C10.  The Link Deriver derives the metadata and the PDF URL of an
    anchor by substituting in the whole of the base endpoint followed by
    the href without its extension, the [Abstract] replacement first and
    the [hash] replacement on its result, and appends the extension
    afterwards.  No occurrence of either token is left anywhere in the
    two URLs; an occurrence of [Abstract] at any position of the href is
    replaced by the document kind, and an occurrence of [hash] after any
    separator character (a directory segment as well as the inside of an
    identifier) by [file]. *)
Theorem substitution_is_global (acc : paper_lists) (href : pystr) :
  let stem := Sites.extension_stripped href in
  let metadata_url :=
    replace (replace (base_url ++ stem) (lit "Abstract") (lit "Metadata"))
            (lit "hash") (lit "file") ++ lit ".json" in
  let pdf_url :=
    replace (replace (base_url ++ stem) (lit "Abstract") (lit "Paper"))
            (lit "hash") (lit "file") ++ lit ".pdf" in
  (exists ext,
      href = stem ++ ext /\
      (ext = [] \/ exists e, ext = "."%char :: e /\ mem "." e = false))
  /\
  paper_paths_step acc (Some href) =
  ret (append_paper acc (Sites.paper_id_of href) (base_url ++ href)
         metadata_url pdf_url)
  /\
  (contains metadata_url (lit "Abstract") = false /\
   contains metadata_url (lit "hash") = false /\
   contains pdf_url (lit "Abstract") = false /\
   contains pdf_url (lit "hash") = false)
  /\
  (forall u v,
      stem = u ++ lit "Abstract" ++ v ->
      metadata_url = base_url ++ substitute (lit "Metadata") u ++ lit "Metadata"
                     ++ substitute (lit "Metadata") v ++ lit ".json" /\
      pdf_url = base_url ++ substitute (lit "Paper") u ++ lit "Paper"
                ++ substitute (lit "Paper") v ++ lit ".pdf")
  /\
  (forall u x v,
      mem x (lit "Abstract") = false -> mem x (lit "hash") = false ->
      stem = u ++ x :: lit "hash" ++ v ->
      metadata_url = base_url ++ substitute (lit "Metadata") u ++ x :: lit "file"
                     ++ substitute (lit "Metadata") v ++ lit ".json" /\
      pdf_url = base_url ++ substitute (lit "Paper") u ++ x :: lit "file"
                ++ substitute (lit "Paper") v ++ lit ".pdf").
Proof.
  cbn zeta.
  rewrite <- !(substitute_eq (lit "Metadata")
                  (base_url ++ Sites.extension_stripped href)).
  rewrite <- !(substitute_eq (lit "Paper")
                  (base_url ++ Sites.extension_stripped href)).
  pose proof (paper_paths_step_substitute acc href) as Hstep.
  pose proof (derived_url_without_tokens (lit "Metadata")
                (base_url ++ Sites.extension_stripped href) (lit "json")
                (or_introl eq_refl) (or_introl eq_refl)) as Hm.
  pose proof (derived_url_without_tokens (lit "Paper")
                (base_url ++ Sites.extension_stripped href) (lit "pdf")
                (or_intror eq_refl) (or_intror eq_refl)) as Hp.
  assert (HA : forall kind, is_kind kind -> forall u v e,
             Sites.extension_stripped href = u ++ lit "Abstract" ++ v ->
             substitute kind (base_url ++ Sites.extension_stripped href) ++ e
             = base_url ++ substitute kind u ++ kind ++ substitute kind v ++ e).
  { intros kind Hkind u v e ->.
    rewrite substitute_base, (substitute_Abstract_app kind Hkind).
    now rewrite <- !app_assoc. }
  assert (Hh : forall kind, is_kind kind -> forall u x v e,
             mem x (lit "Abstract") = false -> mem x (lit "hash") = false ->
             Sites.extension_stripped href = u ++ x :: lit "hash" ++ v ->
             substitute kind (base_url ++ Sites.extension_stripped href) ++ e
             = base_url ++ substitute kind u ++ x :: lit "file"
               ++ substitute kind v ++ e).
  { intros kind Hkind u x v e H1 H2 ->.
    rewrite substitute_base, (substitute_sep_hash kind u x v H1 H2).
    rewrite <- !app_assoc. cbn [app]. now rewrite <- !app_assoc. }
  split; [apply extension_stripped_spec|]. split; [exact Hstep|].
  split; [|split].
  - destruct Hm as [H1 H2], Hp as [H3 H4]. repeat split; assumption.
  - intros u v E. split.
    + exact (HA (lit "Metadata") (or_introl eq_refl) u v (lit ".json") E).
    + exact (HA (lit "Paper") (or_intror eq_refl) u v (lit ".pdf") E).
  - intros u x v H1 H2 E. split.
    + exact (Hh (lit "Metadata") (or_introl eq_refl) u x v (lit ".json") H1 H2 E).
    + exact (Hh (lit "Paper") (or_intror eq_refl) u x v (lit ".pdf") H1 H2 E).
Qed.

(** Occurrences are taken from the left and do not overlap, as in
    [str.replace]: of the two occurrences of [hash] in [hashash], the
    first is replaced and the rest of the second is copied. *)
Lemma substitute_overlapping_hash :
  substitute (lit "Metadata") (lit "hashash") = lit "fileash".
Proof. reflexivity. Qed.

(** An href with the token [hash] as a directory and inside the
    identifier. *)
Lemma substitution_is_global_witness :
  mem "/" (lit "Abstract") = false /\ mem "/" (lit "hash") = false /\
  Sites.extension_stripped (lit "/paper/hash/12-hash3-Abstract.html")
  = lit "/paper" ++ "/"%char :: lit "hash" ++ lit "/12-hash3-Abstract" /\
  paper_paths_step ([], [], [], [])
    (Some (lit "/paper/hash/12-hash3-Abstract.html")) =
  ret ([lit "12"],
       [lit "https://papers.nips.cc/paper/hash/12-hash3-Abstract.html"],
       [lit "https://papers.nips.cc/paper/file/12-file3-Metadata.json"],
       [lit "https://papers.nips.cc/paper/file/12-file3-Paper.pdf"]) /\
  replace (replace (base_url ++ lit "/paper/hash/12-hash3-Abstract")
                   (lit "Abstract") (lit "Metadata")) (lit "hash") (lit "file")
  ++ lit ".json"
  = base_url ++ substitute (lit "Metadata") (lit "/paper") ++ "/"%char :: lit "file"
    ++ substitute (lit "Metadata") (lit "/12-hash3-Abstract") ++ lit ".json".
Proof.
  pose proof (substitution_is_global ([], [], [], [])
                (lit "/paper/hash/12-hash3-Abstract.html"))
    as [_ [Hstep [_ [_ Hsep]]]].
  split; [reflexivity|]. split; [reflexivity|]. split; [reflexivity|]. split.
  - rewrite Hstep. vm_compute. reflexivity.
  - exact (proj1 (Hsep (lit "/paper") "/"%char (lit "/12-hash3-Abstract")
                       eq_refl eq_refl eq_refl)).
Defined.

(** *** What the three URLs of a paper share *)









End LinkDeriver.

(* ================================================================== *)
(** ** Whitespace collapsing *)
(* ================================================================== *)

Module Whitespace.

Import Crawler.

(** A word: not empty, and without whitespace. *)
Definition spaceless (w : pystr) : Prop := forallb (fun c => negb (isspace c)) w = true.
Definition word (w : pystr) : Prop := w <> [] /\ spaceless w.

Lemma spaceless_app a b : spaceless (a ++ b) <-> spaceless a /\ spaceless b.
Proof. unfold spaceless. now rewrite forallb_app, andb_true_iff. Qed.

Lemma spaceless_cons c a : spaceless (c :: a) <-> isspace c = false /\ spaceless a.
Proof.
  unfold spaceless. cbn [forallb]. rewrite andb_true_iff, negb_true_iff. tauto.
Qed.

Lemma spaceless_nil : spaceless [].
Proof. reflexivity. Qed.

Lemma spaceless_rev a : spaceless (rev a) <-> spaceless a.
Proof.
  induction a as [|c a IH]; [reflexivity|].
  cbn [rev]. rewrite spaceless_app, IH, !spaceless_cons.
  pose proof spaceless_nil. tauto.
Qed.

(** The scan produces words only. *)
Lemma split_scan_words s : forall acc,
  spaceless acc -> Forall word (split_scan acc s).
Proof.
  assert (Hflush : forall acc rest,
             spaceless acc -> Forall word rest -> Forall word (flush acc rest)).
  { intros [|c acc] rest Hacc Hrest; [exact Hrest|].
    constructor; [|exact Hrest]. split.
    - simpl. now destruct (rev acc).
    - now apply spaceless_rev. }
  induction s as [|c s IH]; intros acc Hacc; simpl.
  - now apply Hflush.
  - destruct (isspace c) eqn:E.
    + apply Hflush; [exact Hacc|]. now apply IH.
    + apply IH. now apply spaceless_cons.
Qed.

Lemma split_ws_words s : Forall word (split_ws s).
Proof. now apply split_scan_words. Qed.

(** The scan passes over a run without whitespace. *)
Lemma split_scan_run w : forall acc rest,
  spaceless w -> split_scan acc (w ++ rest) = split_scan (rev w ++ acc) rest.
Proof.
  induction w as [|c w IH]; intros acc rest H; [reflexivity|].
  apply spaceless_cons in H. destruct H as [Hc Hw].
  simpl. rewrite Hc, (IH _ _ Hw), <- app_assoc. reflexivity.
Qed.

Lemma flush_word w rest : w <> [] -> flush (rev w) rest = w :: rest.
Proof.
  intros H. unfold flush. destruct (rev w) eqn:E.
  - apply (f_equal (@rev ascii)) in E. rewrite rev_involutive in E. now subst.
  - now rewrite <- E, rev_involutive.
Qed.

(** Splitting the words joined by single spaces gives the words back. *)
Lemma split_ws_join ws : Forall word ws -> split_ws (join (lit " ") ws) = ws.
Proof.
  unfold split_ws. induction 1 as [|w ws [Hne Hsp] Hws IH]; [reflexivity|].
  destruct ws as [|w' ws].
  - simpl join. rewrite <- (app_nil_r w) at 1.
    rewrite (split_scan_run w [] [] Hsp), app_nil_r. simpl.
    now apply flush_word.
  - change (join (lit " ") (w :: w' :: ws))
      with (w ++ " "%char :: join (lit " ") (w' :: ws)).
    rewrite (split_scan_run w [] _ Hsp), app_nil_r.
    change (split_scan (rev w) (" "%char :: join (lit " ") (w' :: ws)))
      with (flush (rev w) (split_scan [] (join (lit " ") (w' :: ws)))).
    now rewrite IH, flush_word.
Qed.

(** C9.  The whitespace collapsing applied to the abstract text is
    idempotent: applied twice, it gives what it gives applied once. *)
Theorem collapse_whitespace_idempotent (s : pystr) :
  collapse_whitespace (collapse_whitespace s) = collapse_whitespace s.
Proof.
  unfold collapse_whitespace. now rewrite (split_ws_join _ (split_ws_words s)).
Qed.

(** The collapsed text has neither whitespace at its ends nor any other
    whitespace than single spaces between words. *)
Lemma collapse_whitespace_example :
  collapse_whitespace Scenario.paragraph_1234 = lit "We study crawlers.".
Proof. reflexivity. Qed.

End Whitespace.

(* ================================================================== *)
(** ** The Year Resolver: [get_latest_conference_year] *)
(* ================================================================== *)

Module YearResolver.

Import Crawler.

Section Years.

Variable w : World.

(** The loop of lines 112 to 117 collects the years that parse. *)
Lemma collect_years items : forall acc,
  fold_left (fun years text =>
               match item_year w text with
               | Some year => years ++ [year]
               | None => years
               end) items acc
  = acc ++ parsed_years w items.
Proof.
  induction items as [|text items IH]; intros acc; simpl.
  - now rewrite app_nil_r.
  - rewrite IH. destruct (item_year w text); [|reflexivity].
    now rewrite <- app_assoc.
Qed.

Lemma latest_of_items_eq items :
  latest_of_items w items =
  match py_max (parsed_years w items) with
  | Some m => m
  | None => 2023%Z
  end.
Proof. unfold latest_of_items. now rewrite (collect_years items []). Qed.

Lemma py_max_none years : py_max years = None <-> years = [].
Proof.
  destruct years as [|y years]; [tauto|]. split; discriminate.
Qed.

(** The scan of [max] ends on an element it has seen, which none of them
    exceeds. *)
Lemma max_scan_spec years : forall m,
  let r := fold_left (fun m x => if (m <? x)%Z then x else m) years m in
  (r = m \/ In r years) /\ (m <= r)%Z /\ Forall (fun y => (y <= r)%Z) years.
Proof.
  induction years as [|y years IH]; intros m; cbn [fold_left].
  - split; [now left|]. split; [lia | constructor].
  - destruct (IH (if (m <? y)%Z then y else m)) as [Hin [Hle Hall]].
    destruct (Z.ltb_spec m y).
    + split; [right; destruct Hin as [-> | Hin]; [now left | now right]|].
      split; [lia|]. constructor; [lia | exact Hall].
    + split; [destruct Hin as [-> | Hin]; [now left | right; now right]|].
      split; [lia|]. constructor; [lia | exact Hall].
Qed.

(** [max] returns an element that no element exceeds. *)
Lemma py_max_spec years m :
  py_max years = Some m ->
  In m years /\ Forall (fun y => (y <= m)%Z) years.
Proof.
  destruct years as [|y years]; [discriminate|]. intros [= <-].
  destruct (max_scan_spec years y) as [Hin [Hle Hall]]. split.
  - destruct Hin as [-> | Hin]; [now left | now right].
  - constructor; [exact Hle | exact Hall].
Qed.

(** An item that does not parse changes nothing. *)
Lemma parsed_years_skip a text b :
  item_year w text = None ->
  parsed_years w (a ++ text :: b) = parsed_years w (a ++ b).
Proof.
  intros H. unfold parsed_years. rewrite !flat_map_app. simpl. now rewrite H.
Qed.

End Years.

(** C7.  The Year Resolver returns the greatest of the years of the list
    items whose last whitespace-delimited token, with the parentheses around
    it stripped, parses as an integer; an item that does not parse is
    skipped; without any item that parses the result is the fallback year
    2023.  On the items [NeurIPS (2023)], [garbage], [Workshop (1999)] the
    result is 2023. *)
Theorem year_resolver_returns_maximum (w : World) :
  (forall status_code http_error items,
      root_page w = Response status_code http_error items ->
      get_latest_conference_year w = ret (latest_of_items w items))
  /\
  (forall items,
      (parsed_years w items = [] -> latest_of_items w items = 2023%Z) /\
      (parsed_years w items <> [] ->
       In (latest_of_items w items) (parsed_years w items) /\
       Forall (fun y => (y <= latest_of_items w items)%Z) (parsed_years w items)))
  /\
  (forall a text b,
      item_year w text = None ->
      latest_of_items w (a ++ text :: b) = latest_of_items w (a ++ b))
  /\
  parsed_years w [lit "NeurIPS (2023)"; lit "garbage"; lit "Workshop (1999)"]
  = [2023%Z; 1999%Z]
  /\
  latest_of_items w [lit "NeurIPS (2023)"; lit "garbage"; lit "Workshop (1999)"]
  = 2023%Z.
Proof.
  split; [|split; [|split; [|split]]].
  - intros status_code http_error items H.
    unfold get_latest_conference_year. now rewrite H.
  - intros items. rewrite latest_of_items_eq. split.
    + intros ->. reflexivity.
    + intros Hne. destruct (py_max (parsed_years w items)) as [m|] eqn:E.
      * now apply py_max_spec.
      * apply py_max_none in E. contradiction.
  - intros a text b H.
    now rewrite !latest_of_items_eq, (parsed_years_skip w a text b H).
  - reflexivity.
  - reflexivity.
Qed.

(** The root page of the scenario. *)
Lemma year_resolver_returns_maximum_witness :
  root_page Scenario.site =
    Response 200 [] [lit "NeurIPS (2023)"; lit "garbage"; lit "Workshop (1999)"] /\
  item_year Scenario.site (lit "garbage") = None /\
  get_latest_conference_year Scenario.site = ret 2023%Z /\
  latest_of_items Scenario.site [lit "NeurIPS (2023)"; lit "garbage"] =
  latest_of_items Scenario.site [lit "NeurIPS (2023)"].
Proof.
  pose proof (year_resolver_returns_maximum Scenario.site) as [Hret [_ [Hskip _]]].
  split; [reflexivity|]. split; [reflexivity|]. split.
  - exact (Hret 200%Z [] _ eq_refl).
  - exact (Hskip [lit "NeurIPS (2023)"] (lit "garbage") [] eq_refl).
Defined.

End YearResolver.

(* ================================================================== *)
(** ** The Orchestrator and the Paper Archiver: [main] *)
(* ================================================================== *)

Module Orchestrator.

Import PyStrFacts EffectFacts Crawler.
Local Open Scope py_scope.

(** *** Loops *)

(** A loop whose body always ends in [break] runs its body once. *)
Lemma for_each_break {A} (body : A -> M flow) x xs :
  (forall f, outcome (body x) = Ok f -> f = Break) ->
  for_each body (x :: xs) = (_ <- body x ;; ret tt).
Proof.
  intros H. cbn [for_each]. destruct (body x) as [tr [f | e | arg]] eqn:E;
    [|reflexivity|reflexivity].
  now rewrite (H f eq_refl).
Qed.

(** A loop whose body never breaks goes on with the next element. *)
Lemma for_each_continue {A} (body : A -> M flow) x xs :
  (forall f, outcome (body x) = Ok f -> f = Continue) ->
  for_each body (x :: xs) = (_ <- body x ;; for_each body xs).
Proof.
  intros H. cbn [for_each]. destruct (body x) as [tr [f | e | arg]] eqn:E;
    [|reflexivity|reflexivity].
  now rewrite (H f eq_refl).
Qed.

Lemma range_cons start stop :
  (start < stop)%Z -> range start stop = start :: range (start + 1) stop.
Proof.
  intros H. unfold range.
  replace (Z.to_nat (stop - start)) with (S (Z.to_nat (stop - (start + 1)))) by lia.
  cbn [seq map]. f_equal; [lia|].
  rewrite <- seq_shift, map_map. apply map_ext. intros i. lia.
Qed.

Lemma range_empty start stop : (stop <= start)%Z -> range start stop = [].
Proof.
  intros H. unfold range. now replace (Z.to_nat (stop - start)) with 0 by lia.
Qed.

(** *** The three fetchers *)

(** [get_pdf] never raises, and touches no file. *)
Lemma get_pdf_total w pdf_path :
  exists tr pdf,
    get_pdf w pdf_path = (tr, Ok pdf) /\
    forall path content, fold_left (apply_event path) tr content = content.
Proof.
  unfold get_pdf. destruct (pdf_document w pdf_path) as [e | status err content].
  - eexists _, None. split; reflexivity.
  - destruct (raises_for_status status).
    + eexists _, None. split; reflexivity.
    + eexists _, (Some content). split; reflexivity.
Qed.

(** *** Paths *)

Lemma str_eqb_eq a b : str_eqb a b = true <-> a = b.
Proof.
  revert b. induction a as [|c a IH]; intros [|d b]; simpl;
    try (split; [discriminate | discriminate]); [tauto|].
  rewrite andb_true_iff, Ascii.eqb_eq, IH. split.
  - now intros [-> ->].
  - now intros [= -> ->].
Qed.

Lemma str_eqb_refl a : str_eqb a a = true.
Proof. now apply str_eqb_eq. Qed.

Lemma str_eqb_neq a b : a <> b -> str_eqb a b = false.
Proof.
  intros H. destruct (str_eqb a b) eqn:E; [|reflexivity].
  apply str_eqb_eq in E. contradiction.
Qed.

Lemma path_join_inj a b1 b2 :
  startswith b1 (lit "/") = startswith b2 (lit "/") ->
  path_join a b1 = path_join a b2 -> b1 = b2.
Proof.
  unfold path_join. intros ->. destruct (startswith b2 (lit "/")); [trivial|].
  destruct a as [|c a]; [trivial|].
  destruct (endswith (c :: a) (lit "/")); intros H.
  - now apply app_inv_head in H.
  - apply app_inv_head in H. now injection H.
Qed.

(** Two files of one paper with different suffixes are different files. *)
Lemma artifact_path_neq year_dir paper_id s1 s2 :
  startswith s1 (lit "/") = false -> startswith s2 (lit "/") = false ->
  s1 <> s2 ->
  str_eqb (artifact_path year_dir paper_id s1) (artifact_path year_dir paper_id s2)
  = false.
Proof.
  intros H1 H2 Hne. apply str_eqb_neq. unfold artifact_path. intros H.
  apply path_join_inj in H.
  - now apply app_inv_head in H.
  - destruct paper_id as [|c paper_id]; [|reflexivity].
    cbn [app]. now rewrite H1, H2.
Qed.

(** The directory of a paper under the directory of its year. *)
Lemma artifact_path_under year_dir paper_id suffix :
  paper_id <> [] ->
  mem "/" paper_id = false -> startswith suffix (lit "/") = false ->
  year_dir <> [] -> endswith year_dir (lit "/") = false ->
  artifact_path year_dir paper_id suffix =
  year_dir ++ lit "/" ++ paper_id ++ lit "/" ++ paper_id ++ suffix.
Proof.
  intros Hpid Hid Hs Hne Hend. unfold artifact_path.
  assert (Hid' : forall b, startswith b (lit "/") = false ->
                           startswith (paper_id ++ b) (lit "/") = false).
  { intros b Hb'. destruct paper_id as [|c paper_id]; [exact Hb'|].
    cbn [mem] in Hid. apply orb_false_iff in Hid. destruct Hid as [Hc _].
    cbn. now rewrite Ascii.eqb_sym, Hc. }
  assert (Hdir : path_join year_dir paper_id = year_dir ++ lit "/" ++ paper_id).
  { unfold path_join. rewrite <- (app_nil_r paper_id) at 1.
    rewrite (Hid' [] eq_refl).
    destruct year_dir; [contradiction|]. now rewrite Hend. }
  rewrite Hdir. unfold path_join. rewrite (Hid' suffix Hs).
  destruct (year_dir ++ lit "/" ++ paper_id) as [|c r] eqn:E.
  - destruct year_dir; [contradiction | discriminate].
  - rewrite <- E.
    destruct paper_id as [|d paper_id]; [contradiction|].
    + assert (Hlast : endswith (year_dir ++ lit "/" ++ d :: paper_id) (lit "/") = false).
      { unfold endswith. rewrite !rev_app_distr.
        destruct (rev (d :: paper_id)) as [|x r'] eqn:Er.
        - apply (f_equal (@rev ascii)) in Er. rewrite rev_involutive in Er.
          discriminate.
        - assert (Hx : In x (d :: paper_id)).
          { apply in_rev. rewrite Er. now left. }
          apply mem_false_In in Hid. cbn.
          destruct (Ascii.eqb_spec x "/"); [subst; contradiction | reflexivity]. }
      rewrite Hlast. now rewrite <- !app_assoc.
Qed.

(** *** The archiver *)

(** One pass of the inner loop, given what the three fetchers return. *)
Lemma archive_paper_eq w year_dir paper_id a m p abstract metadata tr pdf :
  get_abstract w a = ret abstract ->
  get_metadata w m = ret metadata ->
  get_pdf w p = (tr, Ok pdf) ->
  let abstract_file := artifact_path year_dir paper_id (lit "_abstract.json") in
  let metadata_file := artifact_path year_dir paper_id (lit "_metadata.json") in
  let pdf_file := artifact_path year_dir paper_id (lit ".pdf") in
  archive_paper w year_dir (paper_id, a, m, p) =
  ([Print (lit "Downloading " ++ paper_id); Makedirs (path_join year_dir paper_id)]
   ++ tr
   ++ [Open abstract_file; Write abstract_file (Json.dumps abstract);
       Open metadata_file; Write metadata_file (Json.dumps metadata);
       Open pdf_file]
   ++ match pdf with
      | Some content => [Write pdf_file content]
      | None => []
      end,
   match pdf with
   | Some _ => Ok Break
   | None => Raise TypeError
   end).
Proof.
  intros Ha Hm Hp. unfold archive_paper, artifact_path.
  rewrite Ha, Hm, Hp.
  destruct pdf; cbn [bind emit ret raise dump_json write_pdf app]; reflexivity.
Qed.

(** The files of a paper after one pass of the inner loop. *)
Lemma archive_paper_files w year_dir paper_id a m p abstract metadata tr pdf :
  get_abstract w a = ret abstract ->
  get_metadata w m = ret metadata ->
  get_pdf w p = (tr, Ok pdf) ->
  let files := file_content (trace (archive_paper w year_dir (paper_id, a, m, p))) in
  files (artifact_path year_dir paper_id (lit "_abstract.json"))
  = Some (Json.dumps abstract) /\
  files (artifact_path year_dir paper_id (lit "_metadata.json"))
  = Some (Json.dumps metadata) /\
  files (artifact_path year_dir paper_id (lit ".pdf"))
  = Some (match pdf with Some content => content | None => [] end).
Proof.
  intros Ha Hm Hp files. subst files.
  destruct (get_pdf_total w p) as [tr' [pdf' [Hp' Htr]]].
  rewrite Hp in Hp'. injection Hp' as <- <-.
  rewrite (archive_paper_eq w year_dir paper_id a m p _ _ _ _ Ha Hm Hp).
  cbn zeta. unfold file_content, trace. cbn [fst].
  rewrite !fold_left_app. cbn [fold_left apply_event]. rewrite !Htr.
  pose proof (artifact_path_neq year_dir paper_id) as Hneq.
  repeat split;
    destruct pdf; cbn [fold_left apply_event option_map app];
    repeat (rewrite str_eqb_refl
            || rewrite Hneq by (reflexivity || discriminate));
    reflexivity.
Qed.

(** *** Outcomes *)

Lemma outcome_bind_inv {A B} (c : M A) (k : A -> M B) r :
  outcome (x <- c ;; k x) = Ok r ->
  exists a, outcome c = Ok a /\ outcome (k a) = Ok r.
Proof.
  destruct c as [tr [a | e | arg]]; cbn; [|discriminate|discriminate].
  intros H. exists a. split; [reflexivity|]. now destruct (k a).
Qed.

Lemma bind_ext {A B} (c : M A) (k k' : A -> M B) :
  (forall a, k a = k' a) -> (x <- c ;; k x) = (x <- c ;; k' x).
Proof.
  intros H. destruct c as [tr [a | e | arg]]; cbn; [|reflexivity|reflexivity].
  now rewrite H.
Qed.

(** A pass of the inner loop that ends normally ends in [break]. *)
Lemma archive_paper_breaks w year_dir paper f :
  outcome (archive_paper w year_dir paper) = Ok f -> f = Break.
Proof.
  destruct paper as [[[paper_id a] m] p]. unfold archive_paper. intros H.
  repeat (apply outcome_bind_inv in H; destruct H as [? [_ H]]).
  cbn in H. now injection H.
Qed.

(** A pass of the outer loop that ends normally goes on. *)
Lemma archive_year_continues w year f :
  outcome (archive_year w year) = Ok f -> f = Continue.
Proof.
  unfold archive_year. intros H.
  apply outcome_bind_inv in H. destruct H as [[[[ids abs] metas] pdfs] [_ H]].
  apply outcome_bind_inv in H. destruct H as [? [_ H]].
  cbn in H. now injection H.
Qed.

(** The fetchers of the abstract and of the metadata perform no event. *)
Lemma for_state_pure {A S} (body : S -> A -> M S) xs :
  (forall s x, trace (body s x) = []) ->
  forall s, trace (for_state body xs s) = [].
Proof.
  intros Hbody. induction xs as [|x xs IH]; intros s; [reflexivity|].
  cbn [for_state]. specialize (Hbody s x).
  destruct (body s x) as [tr [s' | e | arg]]; cbn in *; try exact Hbody.
  specialize (IH s'). destruct (for_state body xs s') as [tr' r]. cbn in *.
  now rewrite Hbody, IH.
Qed.

Lemma get_abstract_pure w abstract_path : trace (get_abstract w abstract_path) = [].
Proof.
  unfold get_abstract.
  destruct (abstract_page w abstract_path) as [e | status err soup]; [reflexivity|].
  destruct (negb (status =? 200)%Z); [reflexivity|].
  destruct (abstract_paragraph soup); [|reflexivity]. cbn [some_or_raise].
  rewrite bind_ret_l.
  destruct (citation_title soup); try reflexivity. cbn [meta_content].
  rewrite bind_ret_l.
  match goal with
  | |- trace (bind (for_state ?body ?xs ?s) _) = _ =>
      pose proof (for_state_pure body xs) as Hpure;
      destruct (for_state body xs s) as [tr [authors | e | arg]] eqn:E
  end.
  all: assert (Htr : tr = [])
    by (rewrite <- (Hpure (fun s x => ltac:(destruct x; reflexivity)) []), E;
        reflexivity).
  all: subst tr; reflexivity.
Qed.

Lemma get_metadata_pure w meta_path : trace (get_metadata w meta_path) = [].
Proof.
  unfold get_metadata.
  destruct (metadata_document w meta_path) as [e | status err body]; [reflexivity|].
  destruct (negb (status =? 200)%Z); [reflexivity|].
  now destruct body.
Qed.

Lemma pure_ok {A} (c : M A) a : trace c = [] -> outcome c = Ok a -> c = ret a.
Proof. destruct c as [tr r]. cbn. now intros -> ->. Qed.

(** A pass that ends normally has fetched the three documents. *)
Lemma archive_paper_ok_inv w year_dir paper_id a m p f :
  outcome (archive_paper w year_dir (paper_id, a, m, p)) = Ok f ->
  exists abstract metadata tr content,
    get_abstract w a = ret abstract /\
    get_metadata w m = ret metadata /\
    get_pdf w p = (tr, Ok (Some content)).
Proof.
  unfold archive_paper. intros H.
  apply outcome_bind_inv in H. destruct H as [? [_ H]].
  apply outcome_bind_inv in H. destruct H as [? [_ H]].
  apply outcome_bind_inv in H. destruct H as [abstract [Ha H]].
  apply outcome_bind_inv in H. destruct H as [metadata [Hm H]].
  apply outcome_bind_inv in H. destruct H as [pdf [Hp H]].
  apply outcome_bind_inv in H. destruct H as [? [_ H]].
  apply outcome_bind_inv in H. destruct H as [? [_ H]].
  apply outcome_bind_inv in H. destruct H as [? [H _]].
  destruct pdf as [content|]; [|discriminate H].
  exists abstract, metadata, (trace (get_pdf w p)), content.
  split; [apply pure_ok; [apply get_abstract_pure | exact Ha]|].
  split; [apply pure_ok; [apply get_metadata_pure | exact Hm]|].
  destruct (get_pdf w p) as [tr r]. cbn in *. now rewrite Hp.
Qed.

(** C4.  In every year the Orchestrator archives the first paper of the
    listing page only: the inner loop stops after the pass on the first
    paper, whatever papers follow it, and the outer loop goes on with the
    next year.  A pass that ends normally has fetched the three documents
    of that paper and has written them: the abstract file holds the dump
    of what [get_abstract] returned, the metadata file the dump of what
    [get_metadata] returned, the PDF file the bytes [get_pdf] returned. *)
Theorem only_first_paper_archived (w : World) :
  (forall year_dir paper papers,
      for_each (archive_paper w year_dir) (paper :: papers) =
      (_ <- archive_paper w year_dir paper ;; ret tt))
  /\
  (forall year,
      archive_year w year =
      (lists <- get_paper_paths w year ;;
       match papers_of lists with
       | [] => ret Continue
       | paper :: _ => _ <- archive_paper w (year_dir_of year) paper ;; ret Continue
       end))
  /\
  (forall year years,
      for_each (archive_year w) (year :: years) =
      (_ <- archive_year w year ;; for_each (archive_year w) years))
  /\
  (forall year_dir paper_id a m p f,
      outcome (archive_paper w year_dir (paper_id, a, m, p)) = Ok f ->
      let files := file_content (trace (archive_paper w year_dir (paper_id, a, m, p))) in
      f = Break /\
      exists abstract metadata tr content,
        get_abstract w a = ret abstract /\
        get_metadata w m = ret metadata /\
        get_pdf w p = (tr, Ok (Some content)) /\
        files (artifact_path year_dir paper_id (lit "_abstract.json"))
        = Some (Json.dumps abstract) /\
        files (artifact_path year_dir paper_id (lit "_metadata.json"))
        = Some (Json.dumps metadata) /\
        files (artifact_path year_dir paper_id (lit ".pdf")) = Some content).
Proof.
  split; [|split; [|split]].
  - intros year_dir paper papers. apply for_each_break.
    intros f. apply archive_paper_breaks.
  - intros year. unfold archive_year. apply bind_ext.
    intros [[[ids abs] metas] pdfs]. unfold papers_of, year_dir_of.
    destruct (zip4 ids abs metas pdfs) as [|paper papers].
    + cbn [for_each]. now rewrite bind_ret_l.
    + rewrite for_each_break by (intros f; apply archive_paper_breaks).
      rewrite bind_assoc. apply bind_ext. intros _. now rewrite bind_ret_l.
  - intros year years. apply for_each_continue.
    intros f. apply archive_year_continues.
  - intros year_dir paper_id a m p f H files. split.
    + now apply archive_paper_breaks in H.
    + destruct (archive_paper_ok_inv _ _ _ _ _ _ _ H)
        as [abstract [metadata [tr [content [Ha [Hm Hp]]]]]].
      exists abstract, metadata, tr, content.
      split; [exact Ha|]. split; [exact Hm|]. split; [exact Hp|].
      exact (archive_paper_files w year_dir paper_id a m p _ _ _ _ Ha Hm Hp).
Qed.

(** A pass on the site of the scenario ends in [break], with the three
    files holding what the site serves. *)
Lemma only_first_paper_archived_witness :
  outcome (archive_paper Scenario.site (year_dir_of 2020)
             (lit "1234", lit "a", lit "m", lit "p")) = Ok Break /\
  get_metadata Scenario.site (lit "m") = ret Scenario.metadata_1234 /\
  get_pdf Scenario.site (lit "p") = ([], Ok (Some (lit "%PDF-1.4"))) /\
  file_content
    (trace (archive_paper Scenario.site (year_dir_of 2020)
              (lit "1234", lit "a", lit "m", lit "p")))
    (artifact_path (year_dir_of 2020) (lit "1234") (lit "_metadata.json"))
  = Some (Json.dumps Scenario.metadata_1234) /\
  file_content
    (trace (archive_paper Scenario.site (year_dir_of 2020)
              (lit "1234", lit "a", lit "m", lit "p")))
    (artifact_path (year_dir_of 2020) (lit "1234") (lit ".pdf"))
  = Some (lit "%PDF-1.4").
Proof.
  split; [reflexivity|]. split; [reflexivity|]. split; [reflexivity|].
  destruct (proj2 (proj2 (proj2 (only_first_paper_archived Scenario.site)))
              (year_dir_of 2020) (lit "1234") (lit "a") (lit "m") (lit "p")
              Break eq_refl)
    as [_ [abstract [metadata [tr [content [_ [Hm [Hp [_ [Hf2 Hf3]]]]]]]]]].
  assert (Hmeta : metadata = Scenario.metadata_1234)
    by (apply (f_equal outcome) in Hm; now injection Hm).
  assert (Hcontent : content = lit "%PDF-1.4")
    by (apply (f_equal outcome) in Hp; now injection Hp).
  subst metadata content. split; [exact Hf2 | exact Hf3].
Defined.

(** On the site of the scenario, the second paper of 2020 is never
    archived, and the year 2021, whose listing page is empty, is run
    through after 2020. *)
Lemma second_paper_not_archived :
  outcome (main Scenario.site (Scenario.command_line 2020 2021 "data")) = Ok tt /\
  file_content
    (trace (main Scenario.site (Scenario.command_line 2020 2021 "data")))
    (lit "../data/2020/1234/1234.pdf") = Some (lit "%PDF-1.4") /\
  file_content
    (trace (main Scenario.site (Scenario.command_line 2020 2021 "data")))
    (lit "../data/2020/5678/5678.pdf") = None.
Proof. repeat split; vm_compute; reflexivity. Qed.

(** *** The year range *)

(** [main] goes from the arguments to the loop over the years without
    consulting [check_args]. *)
Lemma main_unchecked w argv args :
  get_args w argv = ret args ->
  path_exists w (output_dir args) = true ->
  main w argv =
  for_each (archive_year w) (range (start_year args) (end_year args + 1)).
Proof.
  intros Hargs Hdir. unfold main. rewrite Hargs, bind_ret_l.
  now rewrite Hdir.
Qed.

(** With a start year after the end year, [main] does nothing and ends
    normally. *)
Lemma main_empty_range w argv args :
  get_args w argv = ret args ->
  path_exists w (output_dir args) = true ->
  (end_year args < start_year args)%Z ->
  main w argv = ret tt /\ exit_status (outcome (main w argv)) = 0%Z.
Proof.
  intros Hargs Hdir Hlt. rewrite (main_unchecked w argv args Hargs Hdir).
  rewrite range_empty by lia. split; reflexivity.
Qed.

(** With a start year before 1987, [main] starts with the listing page of
    that year. *)
Lemma main_early_start w argv args :
  get_args w argv = ret args ->
  path_exists w (output_dir args) = true ->
  (start_year args <= end_year args)%Z ->
  main w argv =
  (_ <- archive_year w (start_year args) ;;
   for_each (archive_year w) (range (start_year args + 1) (end_year args + 1))).
Proof.
  intros Hargs Hdir Hle. rewrite (main_unchecked w argv args Hargs Hdir).
  rewrite range_cons by lia. apply for_each_continue.
  intros f. apply archive_year_continues.
Qed.

(** C2: the code at the failing inputs.  [check_args] rejects a start year
    of 1986 and a start year after the end year, and accepts 1987 to 1987;
    but [main] never calls it: with the years 2021 to 2020 it ends
    normally, with status 0 and nothing done, and with the years 1986 to
    1986 it asks the site for the listing page of 1986 and ends normally
    when the site serves one. *)
Theorem year_range_not_checked :
  check_args {| start_year := 1986; end_year := 1986; output_dir := lit "data" |}
  = sys_exit (ExitMessage (lit "Start year must be 1987 or later"))
  /\
  check_args {| start_year := 2021; end_year := 2020; output_dir := lit "data" |}
  = sys_exit (ExitMessage (lit "Start year must be less than or equal to end year"))
  /\
  check_args {| start_year := 1987; end_year := 1987; output_dir := lit "data" |}
  = ret tt
  /\
  main Scenario.site (Scenario.command_line 2021 2020 "data") = ret tt
  /\
  exit_status (outcome (main Scenario.site (Scenario.command_line 2021 2020 "data")))
  = 0%Z
  /\
  main Scenario.site (Scenario.command_line 1986 1986 "data")
  = (_ <- archive_year Scenario.site 1986 ;; ret tt)
  /\
  main Scenario.site (Scenario.command_line 1986 1986 "data") = ret tt.
Proof.
  repeat split; vm_compute; reflexivity.
Qed.

(** *** The output directory *)

(** The directory given on the command line is tested for existence and
    otherwise unused: two runs that differ in it only, and whose
    directories both exist, are the same run. *)
Lemma main_ignores_output_dir w start_year end_year dir dir' :
  path_exists w dir = true -> path_exists w dir' = true ->
  main w {| opt_start_year := start_year; opt_end_year := end_year;
            opt_output_dir := Some dir |}
  = main w {| opt_start_year := start_year; opt_end_year := end_year;
              opt_output_dir := Some dir' |}.
Proof.
  intros Hdir Hdir'. unfold main, get_args. cbn [opt_start_year opt_end_year opt_output_dir default].
  rewrite !bind_assoc. apply bind_ext. intros latest_year.
  rewrite !bind_ret_l. cbn [Crawler.start_year Crawler.end_year output_dir].
  now rewrite Hdir, Hdir'.
Qed.

(** The three files of a paper are written under [../data], in the
    directory of the year and of the paper. *)
Lemma artifact_under_data year paper_id suffix :
  paper_id <> [] -> mem "/" paper_id = false ->
  startswith suffix (lit "/") = false ->
  artifact_path (year_dir_of year) paper_id suffix =
  lit "../data/" ++ str_of_int year ++ lit "/" ++ paper_id ++ lit "/"
  ++ paper_id ++ suffix.
Proof.
  intros Hne Hid Hs.
  destruct (str_of_int_chars year) as [Hyne Hy].
  assert (Hdir : year_dir_of year = lit "../data/" ++ str_of_int year).
  { unfold year_dir_of, path_join.
    destruct (str_of_int year) as [|c r] eqn:E; [contradiction|].
    cbn [mem] in Hy. apply orb_false_iff in Hy. destruct Hy as [Hc _].
    cbn. now rewrite Ascii.eqb_sym, Hc. }
  rewrite (artifact_path_under (year_dir_of year) paper_id suffix Hne Hid Hs).
  - rewrite Hdir. now rewrite <- !app_assoc.
  - rewrite Hdir. discriminate.
  - rewrite Hdir. now apply endswith_free.
Qed.

(** C3: the code at the failing input.  With [--output_dir out] and the
    year 2020, the three files of the paper 1234 are written under
    [../data/2020/1234/], and nothing is written under [out/2020/1234/]. *)
Theorem artifacts_not_under_output_dir :
  main Scenario.site (Scenario.command_line 2020 2020 "out") =
  ([Print (lit "Downloading 1234");
    Makedirs (lit "../data/2020/1234");
    Open (lit "../data/2020/1234/1234_abstract.json");
    Write (lit "../data/2020/1234/1234_abstract.json")
          (Json.dumps
             (Json.Obj [(lit "title", Json.Str (lit "On Crawlers"));
                        (lit "authors", Json.Arr [Json.Str (lit "A. Author");
                                                  Json.Str (lit "B. Author")]);
                        (lit "abstract", Json.Str (lit "We study crawlers."))]));
    Open (lit "../data/2020/1234/1234_metadata.json");
    Write (lit "../data/2020/1234/1234_metadata.json")
          (Json.dumps Scenario.metadata_1234);
    Open (lit "../data/2020/1234/1234.pdf");
    Write (lit "../data/2020/1234/1234.pdf") (lit "%PDF-1.4")],
   Ok tt)
  /\
  (let files :=
     file_content (trace (main Scenario.site (Scenario.command_line 2020 2020 "out"))) in
   files (lit "out/2020/1234/1234_abstract.json") = None /\
   files (lit "out/2020/1234/1234_metadata.json") = None /\
   files (lit "out/2020/1234/1234.pdf") = None).
Proof.
  split; [vm_compute; reflexivity|]. repeat split; vm_compute; reflexivity.
Qed.

(** *** The abstract of a paper *)

(** On a status other than 200, [get_abstract] returns the empty string. *)
Lemma get_abstract_failure w abstract_path status_code http_error soup :
  abstract_page w abstract_path = Response status_code http_error soup ->
  status_code <> 200%Z ->
  get_abstract w abstract_path = ret (Json.Str []).
Proof.
  intros H Hs. unfold get_abstract. rewrite H.
  destruct (Z.eqb_spec status_code 200); [contradiction | reflexivity].
Qed.

(** On the same condition, [get_metadata] returns the empty mapping. *)
Lemma get_metadata_failure w meta_path status_code http_error body :
  metadata_document w meta_path = Response status_code http_error body ->
  status_code <> 200%Z ->
  get_metadata w meta_path = ret (Json.Obj []).
Proof.
  intros H Hs. unfold get_metadata. rewrite H.
  destruct (Z.eqb_spec status_code 200); [contradiction | reflexivity].
Qed.

Lemma collect_authors authors : forall acc,
  for_state (fun authors author =>
               content <- some_or_raise KeyError author ;;
               ret (authors ++ [Json.Str content]))
            (map Some authors) acc
  = ret (acc ++ map Json.Str authors).
Proof.
  induction authors as [|x authors IH]; intros acc; cbn [for_state map].
  - now rewrite app_nil_r.
  - cbn [some_or_raise]. rewrite !bind_ret_l, IH. now rewrite <- app_assoc.
Qed.

(** On status 200 and a page with the expected elements, [get_abstract]
    returns the record of title, authors and collapsed abstract. *)
Lemma get_abstract_success w abstract_path http_error soup text title authors :
  abstract_page w abstract_path = Response 200 http_error soup ->
  abstract_paragraph soup = Some text ->
  citation_title soup = Content title ->
  citation_author soup = map Some authors ->
  get_abstract w abstract_path =
  ret (Json.Obj [(lit "title", Json.Str title);
                 (lit "authors", Json.Arr (map Json.Str authors));
                 (lit "abstract", Json.Str (collapse_whitespace text))]).
Proof.
  intros H Ht Hc Ha. unfold get_abstract. rewrite H. cbn [Z.eqb Pos.eqb negb].
  rewrite Ht, Hc, Ha. cbn [some_or_raise meta_content].
  now rewrite !bind_ret_l, collect_authors, bind_ret_l.
Qed.

(** C5, as stated, fails: when the abstract page answers 404,
    [get_abstract] returns the empty string, not the empty mapping, and
    the file [1234_abstract.json] holds two double quotes, not a pair of
    braces. *)
Lemma failed_abstract_fetch_counterexample :
  abstract_page Scenario.site_abstract_404
    (lit "https://papers.nips.cc/paper_files/paper/2020/hash/1234-Abstract.html")
  = Response 404 (lit "404 Client Error") Scenario.soup_1234
  /\
  get_abstract Scenario.site_abstract_404
    (lit "https://papers.nips.cc/paper_files/paper/2020/hash/1234-Abstract.html")
  = ret (Json.Str [])
  /\
  file_content
    (trace (main Scenario.site_abstract_404 (Scenario.command_line 2020 2020 "data")))
    (lit "../data/2020/1234/1234_abstract.json")
  = Some [Json.dquote; Json.dquote]
  /\
  [Json.dquote; Json.dquote] <> Json.dumps (Json.Obj [])
  /\
  Json.dumps (Json.Obj []) = lit "{}".
Proof.
  repeat split; try (vm_compute; reflexivity). discriminate.
Qed.

(** C5 (amended).  Whenever the abstract-page fetch returns a status other
    than 200, the abstract result is the empty string, so the written
    abstract file holds two double quotes; on status 200, for a page with
    the expected elements, it is the record of the title, the authors in
    document order and the whitespace-collapsed abstract. *)
Theorem abstract_result_by_status
        (w : World) (abstract_path : pystr)
        (status_code : Z) (http_error : pystr) (soup : abstract_html)
        (Hpage : abstract_page w abstract_path
                 = Response status_code http_error soup) :
  (status_code <> 200%Z ->
   get_abstract w abstract_path = ret (Json.Str []) /\
   Json.dumps (Json.Str []) = [Json.dquote; Json.dquote] /\
   forall year_dir paper_id m p metadata,
     get_metadata w m = ret metadata ->
     file_content (trace (archive_paper w year_dir (paper_id, abstract_path, m, p)))
                  (artifact_path year_dir paper_id (lit "_abstract.json"))
     = Some [Json.dquote; Json.dquote])
  /\
  (status_code = 200%Z ->
   forall text title authors,
     abstract_paragraph soup = Some text ->
     citation_title soup = Content title ->
     citation_author soup = map Some authors ->
     get_abstract w abstract_path =
     ret (Json.Obj [(lit "title", Json.Str title);
                    (lit "authors", Json.Arr (map Json.Str authors));
                    (lit "abstract", Json.Str (collapse_whitespace text))])).
Proof.
  split.
  - intros Hs.
    pose proof (get_abstract_failure w abstract_path _ _ _ Hpage Hs) as Ha.
    split; [exact Ha|]. split; [reflexivity|].
    intros year_dir paper_id m p metadata Hm.
    destruct (get_pdf_total w p) as [tr [pdf [Hp _]]].
    exact (proj1 (archive_paper_files w year_dir paper_id abstract_path m p
                    _ _ _ _ Ha Hm Hp)).
  - intros -> text title authors Ht Hc Hau.
    exact (get_abstract_success w abstract_path _ _ _ _ _ Hpage Ht Hc Hau).
Qed.

(** The abstract page answered with 404 and with 200. *)
Lemma abstract_result_by_status_witness :
  abstract_page Scenario.site_abstract_404 (lit "a")
  = Response 404 (lit "404 Client Error") Scenario.soup_1234 /\
  404%Z <> 200%Z /\
  get_abstract Scenario.site_abstract_404 (lit "a") = ret (Json.Str []) /\
  abstract_page Scenario.site (lit "a") = Response 200 [] Scenario.soup_1234 /\
  get_abstract Scenario.site (lit "a") =
  ret (Json.Obj [(lit "title", Json.Str (lit "On Crawlers"));
                 (lit "authors", Json.Arr (map Json.Str [lit "A. Author";
                                                         lit "B. Author"]));
                 (lit "abstract",
                  Json.Str (collapse_whitespace Scenario.paragraph_1234))]).
Proof.
  split; [reflexivity|]. split; [discriminate|]. split; [|split; [reflexivity|]].
  - exact (proj1 (proj1 (abstract_result_by_status Scenario.site_abstract_404
                           (lit "a") 404%Z (lit "404 Client Error")
                           Scenario.soup_1234 eq_refl)
                        ltac:(discriminate))).
  - exact (proj2 (abstract_result_by_status Scenario.site (lit "a") 200%Z []
                    Scenario.soup_1234 eq_refl)
                 eq_refl Scenario.paragraph_1234 (lit "On Crawlers")
                 [lit "A. Author"; lit "B. Author"] eq_refl eq_refl eq_refl).
Defined.

(** *** A PDF that could not be fetched *)

(** C6, as stated, fails: a response with status 300 is not a 2xx
    response, yet [get_pdf] returns its body and the archiver writes it. *)
Lemma pdf_fetch_non_2xx_counterexample :
  pdf_document Scenario.site_pdf_300
    (lit "https://papers.nips.cc/paper_files/paper/2020/file/1234-Paper.pdf")
  = Response 300 (lit "300") (lit "choices") /\
  ~ (200 <= 300 < 300)%Z /\
  get_pdf Scenario.site_pdf_300
    (lit "https://papers.nips.cc/paper_files/paper/2020/file/1234-Paper.pdf")
  = ret (Some (lit "choices")) /\
  outcome (main Scenario.site_pdf_300 (Scenario.command_line 2020 2020 "data"))
  = Ok tt /\
  file_content
    (trace (main Scenario.site_pdf_300 (Scenario.command_line 2020 2020 "data")))
    (lit "../data/2020/1234/1234.pdf")
  = Some (lit "choices").
Proof.
  split; [reflexivity|]. split; [lia|]. repeat split; vm_compute; reflexivity.
Qed.

(** C6 (amended).  When the PDF fetch fails, by a network error or by a
    status from 400 to 599, the PDF fetcher prints a diagnostic and
    returns the absent result, and the run continues past the fetch: the
    two JSON files are written; then the write of the absent value
    raises, unguarded, after the PDF file has been opened, so that the
    file is left empty, and the exception ends the loop over the papers. *)
Theorem pdf_fetch_failure_raises_at_write
        (w : World) (pdf_path : pystr)
        (Hfail : (exists e, pdf_document w pdf_path = Unreachable e) \/
                 (exists status_code http_error content,
                     pdf_document w pdf_path = Response status_code http_error content /\
                     (400 <= status_code < 600)%Z)) :
  (exists line, get_pdf w pdf_path = ([Print line], Ok None))
  /\
  (forall year_dir paper_id a m abstract metadata papers,
      get_abstract w a = ret abstract ->
      get_metadata w m = ret metadata ->
      let run := archive_paper w year_dir (paper_id, a, m, pdf_path) in
      outcome run = Raise TypeError /\
      file_content (trace run) (artifact_path year_dir paper_id (lit "_abstract.json"))
      = Some (Json.dumps abstract) /\
      file_content (trace run) (artifact_path year_dir paper_id (lit "_metadata.json"))
      = Some (Json.dumps metadata) /\
      file_content (trace run) (artifact_path year_dir paper_id (lit ".pdf"))
      = Some [] /\
      outcome (for_each (archive_paper w year_dir)
                        ((paper_id, a, m, pdf_path) :: papers))
      = Raise TypeError).
Proof.
  assert (Hpdf : exists line, get_pdf w pdf_path = ([Print line], Ok None)).
  { unfold get_pdf. destruct Hfail as [[e ->] | [status [err [content [-> Hs]]]]].
    - eexists. reflexivity.
    - unfold raises_for_status.
      replace ((400 <=? status)%Z && (status <? 600)%Z) with true by lia.
      eexists. reflexivity. }
  split; [exact Hpdf|].
  destruct Hpdf as [line Hpdf].
  intros year_dir paper_id a m abstract metadata papers Ha Hm run.
  pose proof (archive_paper_eq w year_dir paper_id a m pdf_path _ _ _ _ Ha Hm Hpdf)
    as Hrun. cbn zeta in Hrun.
  pose proof (archive_paper_files w year_dir paper_id a m pdf_path _ _ _ _ Ha Hm Hpdf)
    as [Hf1 [Hf2 Hf3]].
  assert (Hout : outcome run = Raise TypeError) by (subst run; now rewrite Hrun).
  repeat split; try assumption.
  cbn [for_each]. fold run. destruct run as [tr r]. cbn in Hout. now subst r.
Qed.

(** The PDF answered with 404. *)
Lemma pdf_fetch_failure_raises_at_write_witness :
  ((exists e, pdf_document Scenario.site_pdf_404 (lit "p") = Unreachable e) \/
   (exists status_code http_error content,
       pdf_document Scenario.site_pdf_404 (lit "p")
       = Response status_code http_error content /\
       (400 <= status_code < 600)%Z)) /\
  (exists line, get_pdf Scenario.site_pdf_404 (lit "p") = ([Print line], Ok None)) /\
  outcome (archive_paper Scenario.site_pdf_404 (year_dir_of 2020)
             (lit "1234", lit "a", lit "m", lit "p"))
  = Raise TypeError.
Proof.
  assert (Hfail : (exists e, pdf_document Scenario.site_pdf_404 (lit "p")
                             = Unreachable e) \/
                  (exists status_code http_error content,
                      pdf_document Scenario.site_pdf_404 (lit "p")
                      = Response status_code http_error content /\
                      (400 <= status_code < 600)%Z)).
  { right. exists 404%Z, (lit "404 Client Error"), []. split; [reflexivity | lia]. }
  destruct (pdf_fetch_failure_raises_at_write Scenario.site_pdf_404 (lit "p") Hfail)
    as [Hpdf Hrun].
  split; [exact Hfail|]. split; [exact Hpdf|].
  exact (proj1 (Hrun (year_dir_of 2020) (lit "1234") (lit "a") (lit "m")
                     _ _ [] eq_refl eq_refl)).
Defined.

(** On the site that answers 404 for the PDF, the run of the years 2020
    and 2021 ends in 2020 with the exception, the PDF file empty. *)
Lemma pdf_404_ends_run :
  outcome (main Scenario.site_pdf_404 (Scenario.command_line 2020 2021 "data"))
  = Raise TypeError /\
  exit_status
    (outcome (main Scenario.site_pdf_404 (Scenario.command_line 2020 2021 "data")))
  = 1%Z /\
  file_content
    (trace (main Scenario.site_pdf_404 (Scenario.command_line 2020 2021 "data")))
    (lit "../data/2020/1234/1234.pdf") = Some [].
Proof. repeat split; vm_compute; reflexivity. Qed.

End Orchestrator.

(* ================================================================== *)
(** ** The fetchers of the three documents *)
(* ================================================================== *)

Module Fetchers.

Import PyStrFacts EffectFacts Crawler Orchestrator.
Local Open Scope py_scope.

(** The metadata document by status: on a status other than 200 the
    result is the empty mapping and the metadata file holds a pair of
    braces; on status 200 the parsed document is returned and written as
    it is; a body that is not JSON raises. *)
Theorem metadata_result_by_status
        (w : World) (meta_path : pystr)
        (status_code : Z) (http_error : pystr) (body : option Json.value)
        (Hdoc : metadata_document w meta_path
                = Response status_code http_error body) :
  (status_code <> 200%Z ->
   get_metadata w meta_path = ret (Json.Obj []) /\
   forall year_dir paper_id a p abstract,
     get_abstract w a = ret abstract ->
     file_content (trace (archive_paper w year_dir (paper_id, a, meta_path, p)))
                  (artifact_path year_dir paper_id (lit "_metadata.json"))
     = Some (lit "{}"))
  /\
  (status_code = 200%Z ->
   (forall document,
       body = Some document ->
       get_metadata w meta_path = ret document /\
       forall year_dir paper_id a p abstract,
         get_abstract w a = ret abstract ->
         file_content (trace (archive_paper w year_dir (paper_id, a, meta_path, p)))
                      (artifact_path year_dir paper_id (lit "_metadata.json"))
         = Some (Json.dumps document)) /\
   (body = None -> get_metadata w meta_path = raise JSONDecodeError)).
Proof.
  split.
  - intros Hs.
    pose proof (get_metadata_failure w meta_path _ _ _ Hdoc Hs) as Hm.
    split; [exact Hm|].
    intros year_dir paper_id a p abstract Ha.
    destruct (get_pdf_total w p) as [tr [pdf [Hp _]]].
    exact (proj1 (proj2 (archive_paper_files w year_dir paper_id a meta_path p
                           _ _ _ _ Ha Hm Hp))).
  - intros ->. split.
    + intros document ->.
      assert (Hm : get_metadata w meta_path = ret document)
        by (unfold get_metadata; now rewrite Hdoc).
      split; [exact Hm|].
      intros year_dir paper_id a p abstract Ha.
      destruct (get_pdf_total w p) as [tr [pdf [Hp _]]].
      exact (proj1 (proj2 (archive_paper_files w year_dir paper_id a meta_path p
                             _ _ _ _ Ha Hm Hp))).
    + intros ->. unfold get_metadata. now rewrite Hdoc.
Qed.

(** The metadata document answered with 404, and with 200. *)
Lemma metadata_result_by_status_witness :
  metadata_document Sites.site_metadata_404 (lit "m")
  = Response 404 (lit "404 Client Error") None /\
  404%Z <> 200%Z /\
  get_metadata Sites.site_metadata_404 (lit "m") = ret (Json.Obj []) /\
  metadata_document Scenario.site (lit "m")
  = Response 200 [] (Some Scenario.metadata_1234) /\
  get_metadata Scenario.site (lit "m") = ret Scenario.metadata_1234.
Proof.
  split; [reflexivity|]. split; [discriminate|]. split; [|split; [reflexivity|]].
  - exact (proj1 (proj1 (metadata_result_by_status Sites.site_metadata_404
                           (lit "m") 404%Z (lit "404 Client Error") None eq_refl)
                        ltac:(discriminate))).
  - exact (proj1 (proj1 (proj2 (metadata_result_by_status Scenario.site (lit "m")
                                  200%Z [] (Some Scenario.metadata_1234) eq_refl)
                               eq_refl)
                        Scenario.metadata_1234 eq_refl)).
Defined.

(** An abstract page or a metadata document that cannot be reached is not
    caught: the pass on the paper ends with the exception after the
    directory of the paper has been created, and no file is opened. *)
Theorem unreachable_document_ends_pass
        (w : World) (year_dir paper_id a m p : pystr) :
  (forall e,
      abstract_page w a = Unreachable e ->
      archive_paper w year_dir (paper_id, a, m, p) =
      ([Print (lit "Downloading " ++ paper_id);
        Makedirs (path_join year_dir paper_id)],
       Raise RequestException))
  /\
  (forall abstract e,
      get_abstract w a = ret abstract ->
      metadata_document w m = Unreachable e ->
      archive_paper w year_dir (paper_id, a, m, p) =
      ([Print (lit "Downloading " ++ paper_id);
        Makedirs (path_join year_dir paper_id)],
       Raise RequestException))
  /\
  (forall path,
      file_content [Print (lit "Downloading " ++ paper_id);
                    Makedirs (path_join year_dir paper_id)] path = None).
Proof.
  split; [|split].
  - intros e H. unfold archive_paper, get_abstract. now rewrite H.
  - intros abstract e Ha H. unfold archive_paper. rewrite Ha.
    unfold get_metadata. now rewrite H.
  - reflexivity.
Qed.

(** The abstract page, and then the metadata document, out of reach. *)
Lemma unreachable_document_ends_pass_witness :
  abstract_page Sites.site_abstract_unreachable (lit "a")
  = Unreachable (lit "Connection refused") /\
  outcome (archive_paper Sites.site_abstract_unreachable (year_dir_of 2020)
             (lit "1234", lit "a", lit "m", lit "p"))
  = Raise RequestException /\
  metadata_document Sites.site_metadata_unreachable (lit "m")
  = Unreachable (lit "Connection refused") /\
  outcome (archive_paper Sites.site_metadata_unreachable (year_dir_of 2020)
             (lit "1234", lit "a", lit "m", lit "p"))
  = Raise RequestException.
Proof.
  split; [reflexivity|]. split; [|split; [reflexivity|]].
  - rewrite (proj1 (unreachable_document_ends_pass
                      Sites.site_abstract_unreachable (year_dir_of 2020)
                      (lit "1234") (lit "a") (lit "m") (lit "p"))
                   (lit "Connection refused") eq_refl).
    reflexivity.
  - rewrite (proj1 (proj2 (unreachable_document_ends_pass
                             Sites.site_metadata_unreachable (year_dir_of 2020)
                             (lit "1234") (lit "a") (lit "m") (lit "p")))
                   _ (lit "Connection refused") eq_refl eq_refl).
    reflexivity.
Defined.

(** A loop over the author tags meets a tag without [content]. *)
Lemma collect_authors_missing authors : forall acc,
  In None authors ->
  for_state (fun authors author =>
               content <- some_or_raise KeyError author ;;
               ret (authors ++ [Json.Str content]))
            authors acc
  = raise KeyError.
Proof.
  induction authors as [|[x|] authors IH]; intros acc Hin.
  - contradiction.
  - cbn [for_state some_or_raise]. rewrite !bind_ret_l. apply IH.
    destruct Hin as [H | H]; [discriminate | exact H].
  - reflexivity.
Qed.

(** An abstract page served with status 200 that lacks an expected
    element raises, and the first element missing decides which
    exception: the paragraph after the heading, then the title tag and
    its [content], then the [content] of every author tag. *)
Theorem abstract_page_without_element
        (w : World) (abstract_path http_error : pystr) (soup : abstract_html)
        (Hpage : abstract_page w abstract_path = Response 200 http_error soup) :
  (abstract_paragraph soup = None ->
   get_abstract w abstract_path = raise AttributeError)
  /\
  (forall text,
      abstract_paragraph soup = Some text ->
      (citation_title soup = NoTag ->
       get_abstract w abstract_path = raise TypeError) /\
      (citation_title soup = NoContent ->
       get_abstract w abstract_path = raise KeyError) /\
      (forall title,
          citation_title soup = Content title ->
          In None (citation_author soup) ->
          get_abstract w abstract_path = raise KeyError)).
Proof.
  split.
  - intros H. unfold get_abstract. now rewrite Hpage, H.
  - intros text Ht. repeat split.
    + intros H. unfold get_abstract. now rewrite Hpage, Ht, H.
    + intros H. unfold get_abstract. now rewrite Hpage, Ht, H.
    + intros title H Hin. unfold get_abstract. rewrite Hpage, Ht, H.
      cbn [Z.eqb Pos.eqb negb some_or_raise meta_content].
      now rewrite !bind_ret_l, (collect_authors_missing _ [] Hin).
Qed.

(** A page without the paragraph. *)
Lemma abstract_page_without_element_witness :
  abstract_page Sites.site_abstract_without_paragraph (lit "a")
  = Response 200 [] Sites.soup_without_paragraph /\
  abstract_paragraph Sites.soup_without_paragraph = None /\
  get_abstract Sites.site_abstract_without_paragraph (lit "a")
  = raise AttributeError.
Proof.
  split; [reflexivity|]. split; [reflexivity|].
  exact (proj1 (abstract_page_without_element
                  Sites.site_abstract_without_paragraph (lit "a") []
                  Sites.soup_without_paragraph eq_refl)
               eq_refl).
Defined.

(** [get_pdf] never raises and never exits.  The body of the response is
    returned, without any event, exactly when the document is answered
    with a status that is not between 400 and 599; in every other case
    the result is the absent value after exactly one diagnostic line,
    which carries the error of the transport or of the status. *)
Theorem get_pdf_never_raises (w : World) (pdf_path : pystr) :
  exists tr pdf,
    get_pdf w pdf_path = (tr, Ok pdf) /\
    (forall content,
        pdf = Some content <->
        exists status_code http_error,
          pdf_document w pdf_path = Response status_code http_error content /\
          ~ (400 <= status_code < 600)%Z) /\
    (forall content, pdf = Some content -> tr = []) /\
    (pdf = None ->
     exists e, tr = [Print (lit "Error downloading PDF from " ++ pdf_path
                            ++ lit ": " ++ e)]) /\
    (forall e,
        pdf_document w pdf_path = Unreachable e ->
        pdf = None /\
        tr = [Print (lit "Error downloading PDF from " ++ pdf_path
                     ++ lit ": " ++ e)]) /\
    (forall status_code http_error content,
        pdf_document w pdf_path = Response status_code http_error content ->
        (400 <= status_code < 600)%Z ->
        pdf = None /\
        tr = [Print (lit "Error downloading PDF from " ++ pdf_path
                     ++ lit ": " ++ http_error)]).
Proof.
  unfold get_pdf. destruct (pdf_document w pdf_path) as [e | status err content].
  - eexists _, None. split; [reflexivity|].
    split; [|split; [|split; [|split]]].
    + intros content. split; [discriminate|].
      intros [? [? [? _]]]. discriminate.
    + discriminate.
    + intros _. now exists e.
    + intros e' [= <-]. now split.
    + discriminate.
  - unfold raises_for_status.
    destruct ((400 <=? status)%Z && (status <? 600)%Z) eqn:E.
    + eexists _, None. split; [reflexivity|].
      split; [|split; [|split; [|split]]].
      * intros c. split; [discriminate|].
        intros [s' [e' [[= <- _ _] Hs]]]. lia.
      * discriminate.
      * intros _. now exists err.
      * discriminate.
      * intros s' e' c [= <- <- _] _. now split.
    + eexists _, (Some content). split; [reflexivity|].
      split; [|split; [|split; [|split]]].
      * intros c. split.
        -- intros [= <-]. exists status, err. split; [reflexivity | lia].
        -- intros [s' [e' [[= _ _ <-] _]]]. reflexivity.
      * reflexivity.
      * discriminate.
      * discriminate.
      * intros s' e' c [= <- _ _] Hs. lia.
Qed.

(** The document of the site is answered with status 200 and is returned;
    answered with status 404 it is not. *)
Lemma get_pdf_never_raises_witness :
  get_pdf Scenario.site (lit "p") = ([], Ok (Some (lit "%PDF-1.4"))) /\
  get_pdf Scenario.site_pdf_404 (lit "p") =
  ([Print (lit "Error downloading PDF from p: 404 Client Error")], Ok None).
Proof.
  split.
  - destruct (get_pdf_never_raises Scenario.site (lit "p"))
      as [tr [pdf [Heq [Hbody [Hquiet _]]]]].
    assert (Hpdf : pdf = Some (lit "%PDF-1.4")).
    { apply Hbody. exists 200%Z, []. split; [reflexivity | lia]. }
    rewrite Heq, (Hquiet _ Hpdf), Hpdf. reflexivity.
  - destruct (get_pdf_never_raises Scenario.site_pdf_404 (lit "p"))
      as [tr [pdf [Heq [_ [_ [_ [_ Hstatus]]]]]]].
    destruct (Hstatus 404%Z (lit "404 Client Error") [] eq_refl
                ltac:(lia)) as [-> ->].
    rewrite Heq. reflexivity.
Defined.

End Fetchers.

(* ================================================================== *)
(** ** The listing page of a year *)
(* ================================================================== *)

Module Listing.

Import PyStrFacts EffectFacts Crawler Sites LinkDeriver Orchestrator.
Local Open Scope py_scope.

(** *** The four lists *)

Lemma paper_of_href_components href :
  paper_of_href href =
  (paper_id_of href, abstract_url_of href, metadata_url_of href, pdf_url_of href).
Proof.
  unfold paper_id_of, abstract_url_of, metadata_url_of, pdf_url_of.
  now destruct (paper_of_href href) as [[[paper_id a] m] p].
Qed.

Lemma paper_paths_loop_lists hrefs : forall ids abs metas pdfs,
  for_state paper_paths_step (map Some hrefs) (ids, abs, metas, pdfs) =
  ret (ids ++ map paper_id_of hrefs, abs ++ map abstract_url_of hrefs,
       metas ++ map metadata_url_of hrefs, pdfs ++ map pdf_url_of hrefs).
Proof.
  induction hrefs as [|href hrefs IH]; intros ids abs metas pdfs.
  - cbn [map for_state]. now rewrite !app_nil_r.
  - cbn [map for_state].
    rewrite paper_paths_step_paper_of_href, bind_ret_l, paper_of_href_components.
    cbn [append_paper]. rewrite IH. now rewrite <- !app_assoc.
Qed.

(** On a listing page all of whose items have an href, the Link Deriver
    returns four lists as long as the page has items: the identifiers,
    the abstract URLs, the metadata URLs and the PDF URLs of the items,
    in document order, so that the four entries at one index belong to
    one item. *)
Theorem get_paper_paths_lists (w : World) (year : Z) (hrefs : list pystr)
        (Hpage : listing w (get_conference_url year)
                 = ListingPage (Some (map Some hrefs))) :
  get_paper_paths w year =
  ret (map paper_id_of hrefs, map abstract_url_of hrefs,
       map metadata_url_of hrefs, map pdf_url_of hrefs)
  /\
  papers_of (map paper_id_of hrefs, map abstract_url_of hrefs,
             map metadata_url_of hrefs, map pdf_url_of hrefs)
  = map paper_of_href hrefs
  /\
  (forall k href,
      nth_error hrefs k = Some href ->
      nth_error (map paper_id_of hrefs) k = Some (paper_id_of href) /\
      nth_error (map abstract_url_of hrefs) k = Some (base_url ++ href) /\
      nth_error (map metadata_url_of hrefs) k = Some (metadata_url_of href) /\
      nth_error (map pdf_url_of hrefs) k = Some (pdf_url_of href)).
Proof.
  split; [|split].
  - unfold get_paper_paths, fetch. rewrite Hpage, bind_ret_l.
    cbn [some_or_raise]. rewrite bind_ret_l.
    exact (paper_paths_loop_lists hrefs [] [] [] []).
  - clear Hpage. unfold papers_of. induction hrefs as [|href hrefs IH];
      [reflexivity|].
    cbn [map zip4]. now rewrite IH, paper_of_href_components.
  - intros k href Hk. repeat split.
    + now apply map_nth_error.
    + exact (map_nth_error abstract_url_of k hrefs Hk).
    + now apply map_nth_error.
    + now apply map_nth_error.
Qed.

(** The listing page of 2020 of the scenario. *)
Lemma get_paper_paths_lists_witness :
  listing Scenario.site (get_conference_url 2020)
  = ListingPage (Some (map Some [Scenario.href_1234; Scenario.href_5678])) /\
  get_paper_paths Scenario.site 2020 =
  ret ([lit "1234"; lit "5678"],
       [lit "https://papers.nips.cc/paper_files/paper/2020/hash/1234-Abstract.html";
        lit "https://papers.nips.cc/paper_files/paper/2020/hash/5678-Abstract.html"],
       [lit "https://papers.nips.cc/paper_files/paper/2020/file/1234-Metadata.json";
        lit "https://papers.nips.cc/paper_files/paper/2020/file/5678-Metadata.json"],
       [lit "https://papers.nips.cc/paper_files/paper/2020/file/1234-Paper.pdf";
        lit "https://papers.nips.cc/paper_files/paper/2020/file/5678-Paper.pdf"]).
Proof.
  split; [reflexivity|].
  rewrite (proj1 (get_paper_paths_lists Scenario.site 2020
                    [Scenario.href_1234; Scenario.href_5678] eq_refl)).
  vm_compute. reflexivity.
Defined.

(** *** Pages that cannot be used *)

Lemma paper_paths_step_none acc : paper_paths_step acc None = raise AttributeError.
Proof. now destruct acc as [[[ids abs] metas] pdfs]. Qed.

Lemma paper_paths_loop_none items : forall acc,
  In None items -> for_state paper_paths_step items acc = raise AttributeError.
Proof.
  induction items as [|[href|] items IH]; intros acc Hin.
  - contradiction.
  - cbn [for_state]. rewrite paper_paths_step_paper_of_href, bind_ret_l.
    apply IH. destruct Hin as [H | H]; [discriminate | exact H].
  - cbn [for_state]. now rewrite paper_paths_step_none.
Qed.

(** A listing page without the container, or with one item that has no
    anchor or no href, wherever the item stands, makes the Link Deriver
    raise: no list is returned, and the year ends with the exception
    before anything is printed, created or written. *)
Theorem malformed_listing_page (w : World) (year : Z) :
  (listing w (get_conference_url year) = ListingPage None ->
   get_paper_paths w year = raise AttributeError /\
   archive_year w year = raise AttributeError)
  /\
  (forall items,
      listing w (get_conference_url year) = ListingPage (Some items) ->
      In None items ->
      get_paper_paths w year = raise AttributeError /\
      archive_year w year = raise AttributeError).
Proof.
  split.
  - intros H.
    assert (Hg : get_paper_paths w year = raise AttributeError)
      by (unfold get_paper_paths, fetch; now rewrite H).
    split; [exact Hg|]. unfold archive_year. now rewrite Hg.
  - intros items H Hin.
    assert (Hg : get_paper_paths w year = raise AttributeError).
    { unfold get_paper_paths, fetch. rewrite H, bind_ret_l.
      cbn [some_or_raise]. rewrite bind_ret_l.
      now apply paper_paths_loop_none. }
    split; [exact Hg|]. unfold archive_year. now rewrite Hg.
Qed.

(** A page without container, and a page whose second item has no href. *)
Lemma malformed_listing_page_witness :
  listing site_no_container (get_conference_url 2020) = ListingPage None /\
  archive_year site_no_container 2020 = raise AttributeError /\
  listing site_item_without_href (get_conference_url 2020)
  = ListingPage (Some [Some Scenario.href_1234; None]) /\
  In None [Some Scenario.href_1234; None] /\
  archive_year site_item_without_href 2020 = raise AttributeError.
Proof.
  split; [reflexivity|]. split; [|split; [reflexivity|split]].
  - exact (proj2 (proj1 (malformed_listing_page site_no_container 2020) eq_refl)).
  - right. now left.
  - exact (proj2 (proj2 (malformed_listing_page site_item_without_href 2020)
                        [Some Scenario.href_1234; None] eq_refl
                        (or_intror (or_introl eq_refl)))).
Defined.

(** A listing page with a container and no item gives four empty lists:
    the year ends normally without any event, and so does a run over
    years that all have such a page. *)
Theorem empty_listing_page (w : World) (years : list Z)
        (Hpages : forall year, In year years ->
                    listing w (get_conference_url year) = ListingPage (Some [])) :
  (forall year, In year years ->
     get_paper_paths w year = ret ([], [], [], []) /\
     archive_year w year = ret Continue)
  /\
  for_each (archive_year w) years = ret tt.
Proof.
  assert (Hyear : forall year, In year years ->
            get_paper_paths w year = ret ([], [], [], []) /\
            archive_year w year = ret Continue).
  { intros year Hin.
    assert (Hg : get_paper_paths w year = ret ([], [], [], []))
      by (unfold get_paper_paths, fetch; now rewrite (Hpages year Hin)).
    split; [exact Hg|]. unfold archive_year. now rewrite Hg. }
  split; [exact Hyear|].
  induction years as [|year years IH]; [reflexivity|].
  cbn [for_each]. rewrite (proj2 (Hyear year (or_introl eq_refl))), bind_ret_l.
  apply IH.
  - intros y Hy. apply Hpages. now right.
  - intros y Hy. apply Hyear. now right.
Qed.

(** Two years of a site whose listing pages are empty. *)
Lemma empty_listing_page_witness :
  (forall year, In year [2020%Z; 2021%Z] ->
     listing site_empty_listing (get_conference_url year) = ListingPage (Some [])) /\
  for_each (archive_year site_empty_listing) [2020%Z; 2021%Z] = ret tt.
Proof.
  assert (H : forall year, In year [2020%Z; 2021%Z] ->
            listing site_empty_listing (get_conference_url year)
            = ListingPage (Some []))
    by reflexivity.
  split; [exact H|].
  exact (proj2 (empty_listing_page site_empty_listing [2020%Z; 2021%Z] H)).
Defined.

(** A listing page that cannot be fetched is fatal: the diagnostic is
    printed, the process exits with status 1, and the years that follow
    are not run. *)
Theorem listing_fetch_failure_is_fatal
        (w : World) (year : Z) (e : pystr)
        (Hfail : listing w (get_conference_url year) = ClientError e) :
  let diagnostic :=
    Print (lit "Error fetching " ++ get_conference_url year ++ lit ": " ++ e) in
  archive_year w year = ([diagnostic], SysExit (ExitCode 1))
  /\
  (forall years,
      for_each (archive_year w) (year :: years)
      = ([diagnostic], SysExit (ExitCode 1)))
  /\
  exit_status (outcome (archive_year w year)) = 1%Z.
Proof.
  assert (H : archive_year w year
              = ([Print (lit "Error fetching " ++ get_conference_url year
                         ++ lit ": " ++ e)], SysExit (ExitCode 1)))
    by (unfold archive_year, get_paper_paths, fetch; now rewrite Hfail).
  cbn zeta. split; [exact H|]. split.
  - intros years. cbn [for_each]. now rewrite H.
  - now rewrite H.
Qed.

(** The site whose listing pages answer 404, run over two years. *)
Lemma listing_fetch_failure_is_fatal_witness :
  listing site_listing_fails (get_conference_url 2020)
  = ClientError (lit "404, message='Not Found'") /\
  main site_listing_fails (Scenario.command_line 2020 2021 "data") =
  ([Print (lit "Error fetching https://papers.nips.cc/paper/2020: 404, message='Not Found'")],
   SysExit (ExitCode 1)).
Proof.
  split; [reflexivity|].
  pose proof (proj1 (proj2 (listing_fetch_failure_is_fatal site_listing_fails 2020
                              (lit "404, message='Not Found'") eq_refl))
                    [2021%Z]) as H.
  rewrite (main_unchecked site_listing_fails
             (Scenario.command_line 2020 2021 "data")
             {| start_year := 2020; end_year := 2021; output_dir := lit "data" |}
             eq_refl eq_refl).
  exact H.
Defined.

End Listing.

(* ================================================================== *)
(** ** Identifiers and the files of a paper *)
(* ================================================================== *)

Module Archive.

Import PyStrFacts EffectFacts Crawler Sites LinkDeriver Orchestrator.
Local Open Scope py_scope.

(** *** The identifier *)

(** The pieces of a split have no separator, and only characters of the
    string that was split. *)
Lemma split_pieces sep s :
  Forall (fun piece => mem sep piece = false /\ forall c, In c piece -> In c s)
         (split sep s).
Proof.
  induction s as [|c s IH]; cbn [split].
  - constructor; [|constructor]. split; [reflexivity | contradiction].
  - destruct (Ascii.eqb c sep) eqn:E.
    + constructor.
      * split; [reflexivity | contradiction].
      * eapply Forall_impl; [|exact IH]. cbn beta.
        intros piece [Hsep Hin]. split; [exact Hsep|]. intros x Hx. right. auto.
    + destruct (split sep s) as [|piece pieces]; [constructor; [|constructor]|].
      * split; [|intros x [<- | []]; now left].
        cbn [mem]. now rewrite Ascii.eqb_sym, E.
      * inversion IH as [|? ? [Hsep Hin] Hrest]; subst. constructor.
        -- split.
           ++ cbn [mem]. now rewrite Ascii.eqb_sym, E, Hsep.
           ++ intros x [<- | Hx]; [now left | right; auto].
        -- eapply Forall_impl; [|exact Hrest]. cbn beta.
           intros q [Hq Hqin]. split; [exact Hq|]. intros x Hx. right. auto.
Qed.

Lemma item_last_In {A} (l : list A) x : item_last l = Some x -> In x l.
Proof.
  induction l as [|y l IH]; [discriminate|]. destruct l as [|z l].
  - intros [= <-]. now left.
  - intros H. right. now apply IH.
Qed.

Lemma item_first_In {A} (l : list A) x : item_first l = Some x -> In x l.
Proof. destruct l; [discriminate|]. intros [= <-]. now left. Qed.

Lemma year_dir_of_eq year :
  year_dir_of year = lit "../data/" ++ str_of_int year /\
  endswith (year_dir_of year) (lit "/") = false.
Proof.
  destruct (str_of_int_chars year) as [Hne Hy].
  assert (H : year_dir_of year = lit "../data/" ++ str_of_int year).
  { unfold year_dir_of, path_join.
    destruct (str_of_int year) as [|c r] eqn:E; [contradiction|].
    cbn [mem] in Hy. apply orb_false_iff in Hy. destruct Hy as [Hc _].
    cbn. now rewrite Ascii.eqb_sym, Hc. }
  split; [exact H|]. rewrite H. now apply endswith_free.
Qed.

(** Whatever the href, the identifier derived from it has no slash and no
    dash, so that the directory of the paper is the directory of the year
    followed by a slash and the identifier: joining never replaces the
    directory of the year. *)
Theorem paper_id_free_of_separators (href : pystr) :
  mem "/" (paper_id_of href) = false /\
  mem "-" (paper_id_of href) = false /\
  forall year,
    path_join (year_dir_of year) (paper_id_of href) =
    lit "../data/" ++ str_of_int year ++ lit "/" ++ paper_id_of href.
Proof.
  assert (Hid : mem "/" (paper_id_of href) = false /\
                mem "-" (paper_id_of href) = false).
  { unfold paper_id_of, paper_of_href.
    destruct (item_last_some (split "/" href) (split_nonempty _ _)) as [segment H1].
    rewrite H1. cbn [default].
    destruct (split "-" segment) as [|paper_id rest] eqn:H2;
      [now destruct (split_nonempty "-" segment)|].
    cbn [item_first default].
    pose proof (split_pieces "/" href) as Hslash.
    rewrite Forall_forall in Hslash.
    destruct (Hslash segment (item_last_In _ _ H1)) as [Hseg _].
    pose proof (split_pieces "-" segment) as Hdash.
    rewrite H2 in Hdash. inversion Hdash as [|? ? [Hd Hin] _]; subst.
    split; [|exact Hd].
    apply mem_false_In. intros Hc. apply Hin in Hc.
    now apply mem_false_In in Hseg. }
  destruct Hid as [Hslash Hdash]. split; [exact Hslash|]. split; [exact Hdash|].
  intros year. destruct (year_dir_of_eq year) as [Heq Hend].
  unfold path_join.
  assert (Hstart : startswith (paper_id_of href) (lit "/") = false).
  { destruct (paper_id_of href) as [|c r]; [reflexivity|].
    cbn [mem] in Hslash. apply orb_false_iff in Hslash. destruct Hslash as [Hc _].
    cbn. now rewrite Ascii.eqb_sym, Hc. }
  rewrite Hstart, Hend, Heq.
  change (lit "../data/" ++ str_of_int year)
    with ("."%char :: lit "./data/" ++ str_of_int year).
  cbn iota. change ("."%char :: lit "./data/" ++ str_of_int year)
    with (lit "../data/" ++ str_of_int year).
  now rewrite <- !app_assoc.
Qed.

(** The places of the files of a paper: under the directory of the year,
    in a directory named after the identifier, with the identifier at
    the head of the file name.  An href that gives an empty identifier
    (one that ends with a slash, or whose last segment starts with a
    dash) puts the files into the directory of the year itself. *)
Theorem artifact_paths_of_href (href : pystr) (year : Z) (suffix : pystr)
        (Hsuffix : In suffix [lit "_abstract.json"; lit "_metadata.json"; lit ".pdf"]) :
  (paper_id_of href <> [] ->
   artifact_path (year_dir_of year) (paper_id_of href) suffix =
   lit "../data/" ++ str_of_int year ++ lit "/" ++ paper_id_of href ++ lit "/"
   ++ paper_id_of href ++ suffix)
  /\
  (paper_id_of href = [] ->
   artifact_path (year_dir_of year) (paper_id_of href) suffix =
   lit "../data/" ++ str_of_int year ++ lit "/" ++ suffix).
Proof.
  assert (Hs : startswith suffix (lit "/") = false)
    by (destruct Hsuffix as [<- | [<- | [<- | []]]]; reflexivity).
  destruct (paper_id_free_of_separators href) as [Hslash [_ Hdir]].
  split.
  - intros Hne. now apply artifact_under_data.
  - intros Hid. unfold artifact_path. rewrite (Hdir year), Hid.
    cbn [app]. unfold path_join. rewrite Hs.
    replace (lit "../data/" ++ str_of_int year ++ lit "/" ++ [])
      with ((lit "../data/" ++ str_of_int year) ++ lit "/")
      by (now rewrite <- app_assoc).
    rewrite endswith_app.
    destruct ((lit "../data/" ++ str_of_int year) ++ lit "/") eqn:E;
      [discriminate E|].
    now rewrite <- E, <- !app_assoc.
Qed.

(** The hrefs [/paper/2020/hash/1234-Abstract.html] and [/paper/2020/]. *)
Lemma artifact_paths_of_href_witness :
  In (lit ".pdf") [lit "_abstract.json"; lit "_metadata.json"; lit ".pdf"] /\
  paper_id_of (lit "/paper/2020/hash/1234-Abstract.html") <> [] /\
  artifact_path (year_dir_of 2020)
    (paper_id_of (lit "/paper/2020/hash/1234-Abstract.html")) (lit ".pdf")
  = lit "../data/2020/1234/1234.pdf" /\
  paper_id_of (lit "/paper/2020/") = [] /\
  artifact_path (year_dir_of 2020) (paper_id_of (lit "/paper/2020/")) (lit ".pdf")
  = lit "../data/2020/.pdf".
Proof.
  assert (Hin : In (lit ".pdf")
                   [lit "_abstract.json"; lit "_metadata.json"; lit ".pdf"])
    by (right; right; now left).
  split; [exact Hin|]. split; [discriminate|]. split; [|split; [reflexivity|]].
  - rewrite (proj1 (artifact_paths_of_href
                      (lit "/paper/2020/hash/1234-Abstract.html") 2020
                      (lit ".pdf") Hin)) by discriminate.
    reflexivity.
  - rewrite (proj2 (artifact_paths_of_href (lit "/paper/2020/") 2020
                      (lit ".pdf") Hin)) by reflexivity.
    reflexivity.
Defined.

(** *** The three files *)

(** The three files of a paper are three different files, whatever the
    directory of the year and the identifier. *)
Theorem artifact_files_distinct (year_dir paper_id : pystr) :
  artifact_path year_dir paper_id (lit "_abstract.json")
  <> artifact_path year_dir paper_id (lit "_metadata.json") /\
  artifact_path year_dir paper_id (lit "_abstract.json")
  <> artifact_path year_dir paper_id (lit ".pdf") /\
  artifact_path year_dir paper_id (lit "_metadata.json")
  <> artifact_path year_dir paper_id (lit ".pdf").
Proof.
  repeat split; intros H; apply str_eqb_eq in H;
    rewrite artifact_path_neq in H; discriminate || reflexivity.
Qed.

(** A file opened in a trace holds what the trace wrote after opening it
    last, whatever happened before the trace. *)
Lemma file_content_after_open earlier tr path :
  In (Open path) tr ->
  file_content (earlier ++ tr) path = file_content tr path.
Proof.
  intros Hin. apply in_split in Hin. destruct Hin as [a [b ->]].
  unfold file_content. rewrite !fold_left_app. cbn [fold_left apply_event].
  now rewrite str_eqb_refl.
Qed.

(** A pass over a paper whose files exist already, from an earlier run or
    from another paper with the same identifier, replaces their content:
    after the pass the three files hold what this pass fetched, and
    nothing of what they held. *)
Theorem archive_overwrites
        (w : World) (year_dir paper_id a m p : pystr)
        (abstract metadata : Json.value) (tr : list event) (content : pystr)
        (Ha : get_abstract w a = ret abstract)
        (Hm : get_metadata w m = ret metadata)
        (Hp : get_pdf w p = (tr, Ok (Some content)))
        (earlier : list event) :
  let files :=
    file_content (earlier ++ trace (archive_paper w year_dir (paper_id, a, m, p))) in
  files (artifact_path year_dir paper_id (lit "_abstract.json"))
  = Some (Json.dumps abstract) /\
  files (artifact_path year_dir paper_id (lit "_metadata.json"))
  = Some (Json.dumps metadata) /\
  files (artifact_path year_dir paper_id (lit ".pdf")) = Some content.
Proof.
  pose proof (archive_paper_files w year_dir paper_id a m p _ _ _ _ Ha Hm Hp)
    as [H1 [H2 H3]].
  pose proof (archive_paper_eq w year_dir paper_id a m p _ _ _ _ Ha Hm Hp) as Heq.
  cbn zeta in Heq. cbn zeta.
  assert (Hopen : forall suffix,
             In suffix [lit "_abstract.json"; lit "_metadata.json"; lit ".pdf"] ->
             In (Open (artifact_path year_dir paper_id suffix))
                (trace (archive_paper w year_dir (paper_id, a, m, p)))).
  { intros suffix Hs. rewrite Heq. unfold trace. cbn [fst].
    apply in_or_app. right. apply in_or_app. right. apply in_or_app. left.
    destruct Hs as [<- | [<- | [<- | []]]]; cbn; tauto. }
  repeat split.
  - rewrite file_content_after_open; [exact H1 | apply Hopen; cbn; tauto].
  - rewrite file_content_after_open; [exact H2 | apply Hopen; cbn; tauto].
  - rewrite file_content_after_open; [exact H3 | apply Hopen; cbn; tauto].
Qed.

(** The paper 1234 archived twice on the site of the scenario. *)
Lemma archive_overwrites_witness :
  get_pdf Scenario.site (lit "p") = ([], Ok (Some (lit "%PDF-1.4"))) /\
  file_content
    (trace (archive_paper Scenario.site (year_dir_of 2020)
              (lit "1234", lit "a", lit "m", lit "p"))
     ++ trace (archive_paper Scenario.site (year_dir_of 2020)
                 (lit "1234", lit "a", lit "m", lit "p")))
    (artifact_path (year_dir_of 2020) (lit "1234") (lit ".pdf"))
  = Some (lit "%PDF-1.4").
Proof.
  split; [reflexivity|].
  exact (proj2 (proj2 (archive_overwrites Scenario.site (year_dir_of 2020)
                         (lit "1234") (lit "a") (lit "m") (lit "p")
                         _ _ [] (lit "%PDF-1.4") eq_refl eq_refl eq_refl
                         (trace (archive_paper Scenario.site (year_dir_of 2020)
                                   (lit "1234", lit "a", lit "m", lit "p")))))).
Defined.

End Archive.

(* ================================================================== *)
(** ** The start of a run: [get_args] and the first tests of [main] *)
(* ================================================================== *)

Module Startup.

Import PyStrFacts EffectFacts Crawler Sites Orchestrator.
Local Open Scope py_scope.

(** The arguments are built after the root page has been fetched, whatever
    options are given: when the root page cannot be reached the run ends
    with the exception, even with both years on the command line; when it
    can, the missing options take 1987, the latest year of the root page
    and [data]. *)
Theorem get_args_needs_root_page (w : World) (argv : CommandLine) :
  (forall e,
      root_page w = Unreachable e ->
      get_args w argv = raise RequestException /\
      main w argv = raise RequestException)
  /\
  (forall status_code http_error items,
      root_page w = Response status_code http_error items ->
      get_args w argv =
      ret {| start_year := default 1987%Z (opt_start_year argv);
             end_year := default (latest_of_items w items) (opt_end_year argv);
             output_dir := default (lit "data") (opt_output_dir argv) |}).
Proof.
  split.
  - intros e H.
    assert (Hg : get_args w argv = raise RequestException)
      by (unfold get_args, get_latest_conference_year; now rewrite H).
    split; [exact Hg|]. unfold main. now rewrite Hg.
  - intros status_code http_error items H.
    unfold get_args, get_latest_conference_year. rewrite H.
    now rewrite bind_ret_l.
Qed.

(** The root page out of reach with both years given; the root page of
    the scenario without any option. *)
Lemma get_args_needs_root_page_witness :
  root_page site_root_unreachable = Unreachable (lit "Connection refused") /\
  main site_root_unreachable (Scenario.command_line 2020 2020 "data")
  = raise RequestException /\
  get_args Scenario.site
    {| opt_start_year := None; opt_end_year := None; opt_output_dir := None |}
  = ret {| start_year := 1987; end_year := 2023; output_dir := lit "data" |}.
Proof.
  split; [reflexivity|]. split.
  - exact (proj2 (proj1 (get_args_needs_root_page site_root_unreachable
                           (Scenario.command_line 2020 2020 "data"))
                        (lit "Connection refused") eq_refl)).
  - rewrite (proj2 (get_args_needs_root_page Scenario.site
                      {| opt_start_year := None; opt_end_year := None;
                         opt_output_dir := None |})
                   200%Z [] _ eq_refl).
    reflexivity.
Defined.

(** When the output directory does not exist, the run exits with the
    message that names it and with status 1, before any listing page is
    asked for and before anything is printed or created. *)
Theorem missing_output_dir_is_fatal
        (w : World) (argv : CommandLine) (args : Args)
        (Hargs : get_args w argv = ret args)
        (Hdir : path_exists w (output_dir args) = false) :
  main w argv =
  sys_exit (ExitMessage (lit "Output directory " ++ output_dir args
                         ++ lit " does not exist"))
  /\ trace (main w argv) = []
  /\ exit_status (outcome (main w argv)) = 1%Z.
Proof.
  assert (H : main w argv =
              sys_exit (ExitMessage (lit "Output directory " ++ output_dir args
                                     ++ lit " does not exist"))).
  { unfold main. rewrite Hargs, bind_ret_l. now rewrite Hdir. }
  rewrite H. repeat split.
Qed.

(** The site on which no path exists. *)
Lemma missing_output_dir_is_fatal_witness :
  get_args site_without_directories (Scenario.command_line 2020 2020 "out")
  = ret {| start_year := 2020; end_year := 2020; output_dir := lit "out" |} /\
  path_exists site_without_directories (lit "out") = false /\
  main site_without_directories (Scenario.command_line 2020 2020 "out")
  = sys_exit (ExitMessage (lit "Output directory out does not exist")).
Proof.
  split; [reflexivity|]. split; [reflexivity|].
  exact (proj1 (missing_output_dir_is_fatal site_without_directories
                  (Scenario.command_line 2020 2020 "out")
                  {| start_year := 2020; end_year := 2020; output_dir := lit "out" |}
                  eq_refl eq_refl)).
Defined.

Lemma nth_error_seq len : forall a k,
  nth_error (seq a len) k = if (k <? len)%nat then Some (a + k)%nat else None.
Proof.
  induction len as [|len IH]; intros a k; [now destruct k|].
  destruct k as [|k]; cbn [seq nth_error].
  - now rewrite Nat.add_0_r.
  - rewrite IH. change (S k <? S len)%nat with (k <? len)%nat.
    destruct (k <? len)%nat; [f_equal; lia | reflexivity].
Qed.

Lemma range_spec start stop :
  forall k year,
    nth_error (range start stop) k = Some year <->
    (year = start + Z.of_nat k /\ start + Z.of_nat k < stop)%Z.
Proof.
  intros k year. unfold range. rewrite nth_error_map, nth_error_seq.
  destruct (Nat.ltb_spec k (Z.to_nat (stop - start))); cbn [option_map Nat.add].
  - split; [intros [= <-]; lia | intros [-> _]; reflexivity].
  - split; [discriminate | lia].
Qed.

(** The years of a run: [main] runs the years from the start year to the
    end year, each once and in ascending order, and a year is run only
    when every year before it has ended normally. *)
Theorem main_runs_years_in_order
        (w : World) (argv : CommandLine) (args : Args)
        (Hargs : get_args w argv = ret args)
        (Hdir : path_exists w (output_dir args) = true) :
  main w argv =
  for_each (archive_year w) (range (start_year args) (end_year args + 1))
  /\
  (forall k year,
      nth_error (range (start_year args) (end_year args + 1)) k = Some year <->
      (year = start_year args + Z.of_nat k /\ year <= end_year args)%Z)
  /\
  (forall year years,
      for_each (archive_year w) (year :: years) =
      (_ <- archive_year w year ;; for_each (archive_year w) years)).
Proof.
  split; [now apply main_unchecked|]. split.
  - intros k year. rewrite range_spec. split; intros [-> H]; split; lia.
  - intros year years. apply for_each_continue.
    intros f. apply archive_year_continues.
Qed.

(** The years 2020 and 2021 on the site of the scenario. *)
Lemma main_runs_years_in_order_witness :
  get_args Scenario.site (Scenario.command_line 2020 2021 "data")
  = ret {| start_year := 2020; end_year := 2021; output_dir := lit "data" |} /\
  path_exists Scenario.site (lit "data") = true /\
  main Scenario.site (Scenario.command_line 2020 2021 "data") =
  for_each (archive_year Scenario.site) (range 2020 (2021 + 1)).
Proof.
  split; [reflexivity|]. split; [reflexivity|].
  exact (proj1 (main_runs_years_in_order Scenario.site
                  (Scenario.command_line 2020 2021 "data")
                  {| start_year := 2020; end_year := 2021; output_dir := lit "data" |}
                  eq_refl eq_refl)).
Defined.

(** Two existing directories on the site of the scenario. *)
Lemma main_ignores_output_dir_witness :
  path_exists Scenario.site (lit "out") = true /\
  path_exists Scenario.site (lit "elsewhere") = true /\
  main Scenario.site (Scenario.command_line 2020 2020 "out")
  = main Scenario.site (Scenario.command_line 2020 2020 "elsewhere").
Proof.
  split; [reflexivity|]. split; [reflexivity|].
  exact (main_ignores_output_dir Scenario.site (Some 2020%Z) (Some 2020%Z)
           (lit "out") (lit "elsewhere") eq_refl eq_refl).
Defined.

End Startup.

(* ================================================================== *)
(** ** Years as text: [str(year)] and [int(token)] *)
(* ================================================================== *)

Module Numerals.

Import PyStrFacts EffectFacts Crawler Sites Whitespace Orchestrator Archive.

(** The characters of a decimal numeral. *)
Definition numeral_char (c : ascii) : Prop := isdigit c = true \/ c = "-"%char.

Lemma isdigit_facts c :
  isdigit c = true ->
  int_isspace c = false /\ isspace c = false /\ mem c (lit "()") = false /\
  Ascii.eqb c "-" = false /\ Ascii.eqb c "+" = false.
Proof.
  destruct c as [b0 b1 b2 b3 b4 b5 b6 b7].
  destruct b0, b1, b2, b3, b4, b5, b6, b7; intros H;
    try discriminate H; repeat split; reflexivity.
Qed.

Lemma numeral_char_facts c :
  numeral_char c ->
  int_isspace c = false /\ isspace c = false /\ mem c (lit "()") = false.
Proof.
  intros [H | ->]; [|repeat split; reflexivity].
  destruct (isdigit_facts c H) as [H1 [H2 [H3 _]]]. tauto.
Qed.

Lemma string_of_uint_digits d :
  Forall (fun c => isdigit c = true) (lit (NilEmpty.string_of_uint d)).
Proof. induction d; cbn; constructor; (reflexivity || exact IHd). Qed.

Lemma str_of_int_numeral n : Forall numeral_char (str_of_int n).
Proof.
  assert (Hd : forall d, Forall numeral_char (lit (NilEmpty.string_of_uint d))).
  { intros d. eapply Forall_impl; [|apply string_of_uint_digits].
    intros c H. now left. }
  unfold str_of_int. destruct (Z.to_int n) as [d | d]; cbn.
  - apply Hd.
  - constructor; [now right | apply Hd].
Qed.

(** *** Reading digits *)

Lemma int_digits_step b acc count c s :
  isdigit c = true ->
  int_digits b acc count (c :: s) =
  int_digits true (10 * acc + digit_value c) (S count) s.
Proof. intros H. cbn [int_digits]. now rewrite H. Qed.

Ltac digit_step :=
  rewrite int_digits_step by reflexivity;
  change (digit_value "0") with 0%Z; change (digit_value "1") with 1%Z;
  change (digit_value "2") with 2%Z; change (digit_value "3") with 3%Z;
  change (digit_value "4") with 4%Z; change (digit_value "5") with 5%Z;
  change (digit_value "6") with 6%Z; change (digit_value "7") with 7%Z;
  change (digit_value "8") with 8%Z; change (digit_value "9") with 9%Z.

(** The digits of a numeral read after a positive number. *)
Lemma int_digits_acc d : forall acc count,
  int_digits true (Z.pos acc) count (lit (NilEmpty.string_of_uint d)) =
  Some (Z.pos (Pos.of_uint_acc d acc),
        (count + length (lit (NilEmpty.string_of_uint d)))%nat).
Proof.
  induction d as [|d IHd|d IHd|d IHd|d IHd|d IHd|d IHd|d IHd|d IHd|d IHd|d IHd]; intros acc count;
    [ cbn; now rewrite Nat.add_0_r | .. ];
    cbn [NilEmpty.string_of_uint lit list_ascii_of_string length Pos.of_uint_acc];
    fold (lit (NilEmpty.string_of_uint d));
    digit_step;
    match goal with
    | |- int_digits true ?v _ _ = Some (Z.pos (Pos.of_uint_acc _ ?q), _) =>
        replace v with (Z.pos q) by lia
    end;
    rewrite IHd; f_equal; f_equal; lia.
Qed.

(** The digits of a numeral read from the start. *)
Lemma int_digits_zero d : forall count,
  int_digits true 0 count (lit (NilEmpty.string_of_uint d)) =
  Some (Z.of_N (Pos.of_uint d),
        (count + length (lit (NilEmpty.string_of_uint d)))%nat).
Proof.
  induction d as [|d IHd|d IHd|d IHd|d IHd|d IHd|d IHd|d IHd|d IHd|d IHd|d IHd]; intros count;
    [ cbn; now rewrite Nat.add_0_r | .. ];
    cbn [NilEmpty.string_of_uint lit list_ascii_of_string length Pos.of_uint];
    fold (lit (NilEmpty.string_of_uint d));
    [ digit_step; change (10 * 0 + 0)%Z with 0%Z;
      rewrite IHd; f_equal; f_equal; lia
    | .. ];
    digit_step;
    match goal with
    | |- int_digits true ?v _ _ = _ =>
        let q := eval vm_compute in v in change v with q
    end;
    rewrite int_digits_acc; cbn [Z.of_N]; f_equal; f_equal; lia.
Qed.

Lemma int_digits_numeral d :
  d <> Decimal.Nil ->
  int_digits false 0 0 (lit (NilEmpty.string_of_uint d)) =
  Some (Z.of_N (Pos.of_uint d), length (lit (NilEmpty.string_of_uint d))).
Proof.
  intros Hd. pose proof (int_digits_zero d 0) as H. cbn [Nat.add] in H.
  rewrite <- H. clear H.
  destruct d; [contradiction | ..];
    cbn [NilEmpty.string_of_uint lit list_ascii_of_string];
    now rewrite !int_digits_step by reflexivity.
Qed.

(** *** Whitespace at the ends *)

Lemma lstrip_space_numeral c s :
  int_isspace c = false -> lstrip_space (c :: s) = c :: s.
Proof. intros H. cbn [lstrip_space]. now rewrite H. Qed.

Lemma strip_space_numerals s :
  s <> [] -> Forall numeral_char s ->
  rev (lstrip_space (rev (lstrip_space s))) = s.
Proof.
  intros Hne Hall.
  assert (Hstrip : forall t, t <> [] -> Forall numeral_char t -> lstrip_space t = t).
  { intros [|c t] Ht Hc; [contradiction|]. inversion Hc; subst.
    apply lstrip_space_numeral. now apply numeral_char_facts. }
  rewrite (Hstrip s Hne Hall), Hstrip, rev_involutive; trivial.
  - intros H. apply (f_equal (@rev ascii)) in H. rewrite rev_involutive in H.
    now subst s.
  - now apply Forall_rev.
Qed.

(** The text [str] gives for an integer is read back by [int] as that
    integer, as long as the numeral has no more than 640 characters
    (longer numerals are subject to the limit of the interpreter). *)
Theorem int_of_str_of_int (max_digits : nat) (n : Z)
        (Hlen : (length (str_of_int n) <= 640)%nat) :
  int_of_str max_digits (str_of_int n) = Some n.
Proof.
  assert (Hlimit : forall count, (count <= 640)%nat ->
                                 over_digit_limit max_digits count = false).
  { intros count Hc. unfold over_digit_limit.
    destruct (Nat.ltb_spec 640 count); [lia | reflexivity]. }
  unfold int_of_str.
  rewrite (strip_space_numerals (str_of_int n)
             (proj1 (str_of_int_chars n)) (str_of_int_numeral n)).
  revert Hlen. unfold str_of_int. destruct n as [|p|p]; cbn [Z.to_int].
  - intros _. reflexivity.
  - cbn [NilEmpty.string_of_int]. intros Hlen.
    pose proof (DecimalPos.Unsigned.to_uint_nonnil p) as Hnil.
    pose proof (string_of_uint_digits (Pos.to_uint p)) as Hdig.
    pose proof (int_digits_numeral _ Hnil) as Hval.
    destruct (lit (NilEmpty.string_of_uint (Pos.to_uint p))) as [|c t] eqn:E.
    + destruct (Pos.to_uint p); [contradiction | discriminate ..].
    + inversion Hdig as [|? ? Hc _]; subst.
      destruct (isdigit_facts c Hc) as [_ [_ [_ [Hm Hp]]]]. rewrite Hm, Hp.
      unfold int_unsigned. rewrite Hval, (Hlimit _ Hlen).
      now rewrite DecimalPos.Unsigned.of_to.
  - cbn [NilEmpty.string_of_int]. intros Hlen.
    change (lit (String "-" (NilEmpty.string_of_uint (Pos.to_uint p))))
      with ("-"%char :: lit (NilEmpty.string_of_uint (Pos.to_uint p))) in *.
    cbn [length] in Hlen. cbn iota. rewrite Ascii.eqb_refl.
    unfold int_unsigned.
    rewrite (int_digits_numeral _ (DecimalPos.Unsigned.to_uint_nonnil p)).
    rewrite Hlimit by lia. now rewrite DecimalPos.Unsigned.of_to.
Qed.

(** The year 2023, and a year before the common era. *)
Lemma int_of_str_of_int_witness :
  (length (str_of_int 2023) <= 640)%nat /\
  int_of_str 4300 (str_of_int 2023) = Some 2023%Z /\
  int_of_str 0 (str_of_int (-44)) = Some (-44)%Z.
Proof.
  split; [vm_compute; lia|]. split.
  - apply (int_of_str_of_int 4300 2023). vm_compute. lia.
  - apply (int_of_str_of_int 0 (-44)). vm_compute. lia.
Defined.

(** *** A list item of the root page *)

Lemma item_last_flush acc rest tok :
  item_last rest = Some tok -> item_last (flush acc rest) = Some tok.
Proof.
  intros H. destruct acc as [|c acc]; [exact H|]. cbn [flush].
  destruct rest as [|x rest]; [discriminate H | exact H].
Qed.

Lemma split_scan_word tok :
  tok <> [] -> spaceless tok -> split_scan [] tok = [tok].
Proof.
  intros Hne Hsp. rewrite <- (app_nil_r tok) at 1.
  rewrite (split_scan_run tok [] [] Hsp), app_nil_r. cbn [split_scan].
  now apply flush_word.
Qed.

(** The last token of a text is what follows its last whitespace. *)
Lemma split_scan_last_token tok s :
  tok <> [] -> spaceless tok ->
  forall acc, item_last (split_scan acc (s ++ " "%char :: tok)) = Some tok.
Proof.
  intros Hne Hsp. induction s as [|c s IH]; intros acc.
  - change (split_scan acc ([] ++ " "%char :: tok))
      with (flush acc (split_scan [] tok)).
    apply item_last_flush. now rewrite split_scan_word.
  - cbn [app split_scan]. destruct (isspace c).
    + apply item_last_flush, IH.
    + apply IH.
Qed.

Lemma strip_parentheses s :
  s <> [] -> Forall numeral_char s ->
  strip (lit "()") ("("%char :: s ++ lit ")") = s.
Proof.
  intros Hne Hall.
  assert (Hl : forall t, t <> [] -> Forall numeral_char t ->
                         forall r, lstrip (lit "()") (t ++ r) = t ++ r).
  { intros [|c t] Ht Hc r; [contradiction|]. inversion Hc as [|? ? Hn _]; subst.
    destruct (numeral_char_facts c Hn) as [_ [_ Hm]].
    cbn [app lstrip]. now rewrite Hm. }
  unfold strip, rstrip.
  change (lstrip (lit "()") ("("%char :: s ++ lit ")"))
    with (lstrip (lit "()") (s ++ lit ")")).
  rewrite (Hl s Hne Hall), rev_app_distr.
  change (lstrip (lit "()") (rev (lit ")") ++ rev s))
    with (lstrip (lit "()") (rev s)).
  rewrite <- (app_nil_r (rev s)), Hl, app_nil_r, rev_involutive; trivial.
  - intros H. apply (f_equal (@rev ascii)) in H. rewrite rev_involutive in H.
    now subst s.
  - now apply Forall_rev.
Qed.

Lemma numerals_spaceless s : Forall numeral_char s -> spaceless s.
Proof.
  induction 1 as [|c s Hc _ IH]; [reflexivity|].
  apply spaceless_cons. split; [|exact IH].
  now destruct (numeral_char_facts c Hc) as [_ [H _]].
Qed.

(** A list item that ends with a year in parentheses resolves to that
    year, whatever precedes the year in the item: the text [str] gives
    for the year, between parentheses, is read back by the Year Resolver
    as the year. *)
Theorem year_item_resolves (w : World) (prefix : pystr) (n : Z)
        (Hlen : (length (str_of_int n) <= 640)%nat) :
  item_year w (prefix ++ lit " (" ++ str_of_int n ++ lit ")") = Some n /\
  item_year w (lit "(" ++ str_of_int n ++ lit ")") = Some n /\
  latest_of_items w [prefix ++ lit " (" ++ str_of_int n ++ lit ")"] = n.
Proof.
  destruct (str_of_int_chars n) as [Hne _].
  pose proof (str_of_int_numeral n) as Hnum.
  assert (Htok : "("%char :: str_of_int n ++ lit ")" <> [] /\
                 spaceless ("("%char :: str_of_int n ++ lit ")")).
  { split; [discriminate|]. apply spaceless_cons. split; [reflexivity|].
    apply spaceless_app. split; [now apply numerals_spaceless | reflexivity]. }
  destruct Htok as [Htne Htsp].
  assert (Hparse : int_of_str (int_max_str_digits w)
                     (strip (lit "()") ("("%char :: str_of_int n ++ lit ")"))
                   = Some n).
  { rewrite (strip_parentheses _ Hne Hnum). now apply int_of_str_of_int. }
  assert (H1 : item_year w (prefix ++ lit " (" ++ str_of_int n ++ lit ")") = Some n).
  { unfold item_year, split_ws.
    change (prefix ++ lit " (" ++ str_of_int n ++ lit ")")
      with (prefix ++ " "%char :: "("%char :: str_of_int n ++ lit ")").
    now rewrite (split_scan_last_token _ prefix Htne Htsp []). }
  split; [exact H1|]. split.
  - unfold item_year, split_ws.
    change (lit "(" ++ str_of_int n ++ lit ")")
      with ("("%char :: str_of_int n ++ lit ")").
    rewrite (split_scan_word _ Htne Htsp). exact Hparse.
  - unfold latest_of_items. cbn [fold_left]. now rewrite H1.
Qed.

(** An item of the root page. *)
Lemma year_item_resolves_witness :
  (length (str_of_int 2023) <= 640)%nat /\
  item_year Scenario.site
    (lit "Advances in Neural Information Processing Systems 36" ++ lit " ("
         ++ str_of_int 2023 ++ lit ")")
  = Some 2023%Z.
Proof.
  split; [vm_compute; lia|].
  apply (year_item_resolves Scenario.site
           (lit "Advances in Neural Information Processing Systems 36") 2023).
  vm_compute. lia.
Defined.

(** *** Different years, different places *)

Lemma lit_inj a b : lit a = lit b -> a = b.
Proof.
  intros H. apply (f_equal string_of_list_ascii) in H. unfold lit in H.
  now rewrite !string_of_list_ascii_of_string in H.
Qed.

Lemma str_of_int_inj a b : str_of_int a = str_of_int b -> a = b.
Proof.
  intros H. apply lit_inj in H. apply DecimalZ.to_int_inj.
  apply (f_equal NilEmpty.int_of_string) in H. rewrite !NilEmpty.isi in H.
  now injection H.
Qed.

Lemma app_sep_inj sep a : forall b x y,
  mem sep a = false -> mem sep b = false ->
  a ++ sep :: x = b ++ sep :: y -> a = b /\ x = y.
Proof.
  induction a as [|c a IH]; intros [|d b] x y Ha Hb H.
  - injection H as ->. now split.
  - injection H as <- _. cbn [mem] in Hb. now rewrite Ascii.eqb_refl in Hb.
  - injection H as -> _. cbn [mem] in Ha. now rewrite Ascii.eqb_refl in Ha.
  - injection H as -> H. cbn [mem] in Ha, Hb.
    apply orb_false_iff in Ha. apply orb_false_iff in Hb.
    destruct (IH b x y (proj2 Ha) (proj2 Hb) H) as [-> ->]. now split.
Qed.

(** Different years have different listing URLs and different directory
    paths, and the paths built for different years, or for papers with
    different identifiers, differ as strings.  The statement is about the
    strings handed to [makedirs] and [open], which are not normalised:
    an identifier such as [..] gives different strings for two years
    that a filesystem resolves to one file. *)
Theorem years_and_papers_do_not_collide (a b : Z) :
  (get_conference_url a = get_conference_url b -> a = b) /\
  (year_dir_of a = year_dir_of b -> a = b) /\
  (forall id id' suffix suffix',
      id <> [] -> id' <> [] ->
      mem "/" id = false -> mem "/" id' = false ->
      startswith suffix (lit "/") = false ->
      startswith suffix' (lit "/") = false ->
      artifact_path (year_dir_of a) id suffix
      = artifact_path (year_dir_of b) id' suffix' ->
      a = b /\ id = id').
Proof.
  split; [|split].
  - unfold get_conference_url. intros H.
    apply app_inv_head in H. apply app_inv_head in H. now apply str_of_int_inj.
  - rewrite (proj1 (year_dir_of_eq a)), (proj1 (year_dir_of_eq b)). intros H.
    apply app_inv_head in H. now apply str_of_int_inj.
  - intros id id' suffix suffix' Hne Hne' Hid Hid' Hs Hs' H.
    rewrite (artifact_under_data a id suffix Hne Hid Hs) in H.
    rewrite (artifact_under_data b id' suffix' Hne' Hid' Hs') in H.
    apply app_inv_head in H.
    change (lit "/" ++ id ++ lit "/" ++ id ++ suffix)
      with ("/"%char :: id ++ "/"%char :: id ++ suffix) in H.
    change (lit "/" ++ id' ++ lit "/" ++ id' ++ suffix')
      with ("/"%char :: id' ++ "/"%char :: id' ++ suffix') in H.
    apply app_sep_inj in H;
      [| exact (proj2 (str_of_int_chars a)) | exact (proj2 (str_of_int_chars b))].
    destruct H as [Hy H]. apply str_of_int_inj in Hy.
    apply app_sep_inj in H; [| exact Hid | exact Hid'].
    now split.
Qed.

(** Two papers of two years. *)
Lemma years_and_papers_do_not_collide_witness :
  lit "1234" <> [] /\ mem "/" (lit "1234") = false /\
  startswith (lit ".pdf") (lit "/") = false /\
  artifact_path (year_dir_of 2020) (lit "1234") (lit ".pdf")
  <> artifact_path (year_dir_of 2021) (lit "1234") (lit ".pdf").
Proof.
  split; [discriminate|]. split; [reflexivity|]. split; [reflexivity|].
  intros H.
  destruct (proj2 (proj2 (years_and_papers_do_not_collide 2020 2021))
              (lit "1234") (lit "1234") (lit ".pdf") (lit ".pdf")
              ltac:(discriminate) ltac:(discriminate)
              eq_refl eq_refl eq_refl eq_refl H) as [Hy _].
  discriminate Hy.
Defined.

End Numerals.

(* ================================================================== *)
(** ** The shape of a collapsed abstract *)
(* ================================================================== *)

Module CollapsedText.

Import PyStrFacts Crawler Whitespace.

Lemma spaceless_In w c : spaceless w -> In c w -> isspace c = false.
Proof.
  induction w as [|d w IH]; [contradiction|].
  intros H [<- | Hin]; apply spaceless_cons in H; [tauto | apply IH; tauto].
Qed.

Lemma spaceless_no_space w : spaceless w -> mem " " w = false.
Proof.
  intros H. apply mem_false_In. intros Hin.
  now pose proof (spaceless_In w " "%char H Hin).
Qed.

(** The characters of joined words are spaces or characters of a word. *)
Lemma join_chars ws c :
  In c (join (lit " ") ws) -> c = " "%char \/ exists w, In w ws /\ In c w.
Proof.
  induction ws as [|w ws IH]; [contradiction|].
  destruct ws as [|w' ws].
  - intros H. right. exists w. split; [now left | exact H].
  - change (join (lit " ") (w :: w' :: ws))
      with (w ++ " "%char :: join (lit " ") (w' :: ws)).
    intros H. apply in_app_or in H. destruct H as [H | [<- | H]].
    + right. exists w. split; [now left | exact H].
    + now left.
    + destruct (IH H) as [-> | [x [Hx Hc]]]; [now left|].
      right. exists x. split; [now right | exact Hc].
Qed.

(** Joined words start with the first word. *)
Lemma join_starts ws w :
  exists rest, join (lit " ") (w :: ws) = w ++ rest.
Proof.
  destruct ws as [|w' ws].
  - exists []. now rewrite app_nil_r.
  - now exists (" "%char :: join (lit " ") (w' :: ws)).
Qed.

(** Joined words end with the last word. *)
Lemma join_ends ws : forall w,
  exists before last, In last (w :: ws) /\ join (lit " ") (w :: ws) = before ++ last.
Proof.
  induction ws as [|w' ws IH]; intros w.
  - exists [], w. split; [now left | reflexivity].
  - destruct (IH w') as [before [last [Hin Heq]]].
    exists (w ++ " "%char :: before), last. split; [now right|].
    change (join (lit " ") (w :: w' :: ws))
      with (w ++ " "%char :: join (lit " ") (w' :: ws)).
    now rewrite Heq, <- app_assoc.
Qed.

Lemma join_no_double_space ws :
  Forall word ws -> contains (join (lit " ") ws) (lit "  ") = false.
Proof.
  change (lit "  ") with (" "%char :: lit " ").
  induction 1 as [|w ws [Hne Hsp] Hws IH]; [reflexivity|].
  destruct ws as [|w' ws].
  - cbn [join].
    pose proof (contains_skip_prefix w [] " " (lit " ")
                  (spaceless_no_space w Hsp)) as H.
    rewrite app_nil_r in H. now rewrite H.
  - change (join (lit " ") (w :: w' :: ws))
      with (w ++ " "%char :: join (lit " ") (w' :: ws)).
    rewrite (contains_skip_prefix w _ " " (lit " ") (spaceless_no_space w Hsp)).
    rewrite contains_cons, IH, orb_false_r.
    destruct (join_starts ws w') as [rest ->].
    inversion Hws as [|? ? [Hne' Hsp'] _]; subst.
    destruct w' as [|c w']; [contradiction|].
    apply spaceless_cons in Hsp'. destruct Hsp' as [Hc _].
    cbn. destruct (Ascii.eqb_spec c " "); [subst c; discriminate Hc | reflexivity].
Qed.

(** The collapsed text keeps the words of the text, in order, and has no
    other whitespace than single spaces between two words: no tab and no
    line break is left, no two spaces follow each other, and the text
    neither starts nor ends with a space.  A text without any word
    collapses to the empty text. *)
Theorem collapse_whitespace_shape (text : pystr) :
  split_ws (collapse_whitespace text) = split_ws text /\
  (forall c, In c (collapse_whitespace text) -> isspace c = true -> c = " "%char) /\
  contains (collapse_whitespace text) (lit "  ") = false /\
  startswith (collapse_whitespace text) (lit " ") = false /\
  endswith (collapse_whitespace text) (lit " ") = false /\
  (split_ws text = [] <-> collapse_whitespace text = []).
Proof.
  pose proof (split_ws_words text) as Hwords. unfold collapse_whitespace.
  split; [now apply split_ws_join|]. split; [|split; [|split; [|split]]].
  - intros c Hin Hsp. destruct (join_chars _ _ Hin) as [-> | [w [Hw Hc]]];
      [reflexivity|].
    rewrite Forall_forall in Hwords. destruct (Hwords w Hw) as [_ Hspl].
    rewrite (spaceless_In w c Hspl Hc) in Hsp. discriminate Hsp.
  - now apply join_no_double_space.
  - destruct (split_ws text) as [|w ws]; [reflexivity|].
    destruct (join_starts ws w) as [rest ->].
    inversion Hwords as [|? ? [Hne Hspl] _]; subst.
    destruct w as [|c w]; [contradiction|].
    apply spaceless_cons in Hspl. destruct Hspl as [Hc _].
    cbn. destruct (Ascii.eqb_spec c " "); [subst c; discriminate Hc | reflexivity].
  - destruct (split_ws text) as [|w ws]; [reflexivity|].
    destruct (join_ends ws w) as [before [last [Hin ->]]].
    rewrite Forall_forall in Hwords. destruct (Hwords last Hin) as [Hne Hspl].
    apply endswith_free; [exact Hne | now apply spaceless_no_space].
  - split; [intros ->; reflexivity|].
    destruct (split_ws text) as [|w ws]; [reflexivity|].
    destruct (join_starts ws w) as [rest ->].
    inversion Hwords as [|? ? [Hne _] _]; subst.
    destruct w; [contradiction | discriminate].
Qed.

End CollapsedText.
